(** * URLRequestHttpJob: a shallow embedding of
      net/url_request/url_request_http_job.cc

    The job drives one HTTP(S)/WS(S) request on top of a transport
    transaction.  This development embeds the methods that build the
    outgoing headers, exchange cookies with the jar, ingest
    Strict-Transport-Security, set up the content decoders, track the two
    authentication states, restart with credentials and judge redirects.

    Conventions.
    - C++ [int] and [int64_t] values are [Z]; the one counter that is
      incremented in a loop, [num_cookie_lines_left_], wraps as a 32-bit
      signed integer ([wrap_int]).
    - Nullable pointers are [option].  A null dereference or a failed
      [CHECK] makes a method return [None] in the monad [M].
    - Calls that leave the job (cookie jar, security-state store, the base
      class URLRequestJob, the transaction start path) are recorded, in
      order, in the [trace] of the job.  Callbacks bound for the cookie jar
      are kept in [pending_set_cookie] until they are run.
    - Histograms, trace events, timers and the throttler are left out; the
      net-log entry written by NotifyHeadersComplete is kept because it
      marks each invocation of that method.

    The module [URLRequestHttpJob] further down adds the transaction
    itself: its creation, its start and restarts, the completion of the
    start, the byte totals, Kill and the destructor.  Its state [HttpJob]
    holds the job above next to the members these methods use.
    - The calls to the transaction, its factory and the network delegate
      are recorded in [calls]; the tasks given to the task runner wait in
      [posted], the oldest first.
    - A weak pointer of [weak_factory_] is the number of invalidations
      that had happened when it was taken; a callback bound to it runs
      only while that number is the current one.
    - Of the throttler only the answer of ShouldRejectRequest is kept, and
      of the histograms only the sample that LogTrustAnchor computes. *)

From stdpp Require Import gmap strings list.
From Stdlib Require Import ZArith Lia Ascii.

Local Open Scope string_scope.
Local Open Scope list_scope.

(** ** Strings *)

(** base::ToLowerASCII on one character. *)
Definition ToLowerASCII (c : ascii) : ascii :=
  let n := N_of_ascii c in
  if ((65 <=? n) && (n <=? 90))%N then ascii_of_N (n + 32) else c.

Fixpoint LowerString (s : string) : string :=
  match s with
  | EmptyString => EmptyString
  | String c s' => String (ToLowerASCII c) (LowerString s')
  end.

(** [s.find(needle) != std::string::npos]. *)
Definition contains (s needle : string) : bool :=
  match String.index 0 needle s with
  | Some _ => true
  | None => false
  end.

(** ** Integers and net error codes *)

Definition INT_MAX : Z := 2147483647.
Definition INT_MIN : Z := -2147483648.

(** Two's complement wrap-around of a 32-bit signed [int]. *)
Definition wrap_int (z : Z) : Z := ((z - INT_MIN) mod 2 ^ 32 + INT_MIN)%Z.

(** The error codes that this file names, with the values that
    net/base/net_error_list.h declares for them. *)
Definition OK : Z := 0.
Definition ERR_IO_PENDING : Z := -1.
Definition ERR_CONTENT_LENGTH_MISMATCH : Z := -354.
Definition ERR_INCOMPLETE_CHUNKED_ENCODING : Z := -355.

(** The load flag that this file tests, as net/base/load_flags_list.h
    declares it. *)
Definition LOAD_DO_NOT_SAVE_COOKIES : Z := 64.

(** The error bits of a CertStatus and the test for any of them, as
    net/cert/cert_status_flags.h declares them. *)
Definition CERT_STATUS_ALL_ERRORS : Z := 0xFF00FFFF.

Definition IsCertStatusError (status : Z) : bool :=
  negb (Z.land CERT_STATUS_ALL_ERRORS status =? 0)%Z.

(** ** URLs *)

(** GURL is declared in url/gurl.h.  A URL is represented by what the job
    reads off it: validity, the canonical spec and components, and the two
    host predicates of the URL library. *)
Record GURL := {
  is_valid : bool;
  spec : string;
  scheme : string;
  host : string;
  path : string;
  query : string;
  HostIsIPAddress : bool;
  IsLocalhost : bool
}.

Definition SchemeIsCryptographic (u : GURL) : bool :=
  bool_decide (scheme u = "https") || bool_decide (scheme u = "wss").

(** ** Request headers *)

(** Modelled from the spec: HttpRequestHeaders is declared in
    net/http/http_request_headers.h, outside this file; the spec calls it
    the mutable extra-headers map.  Header names compare without regard to
    ASCII case, so the map is keyed by the lower-cased name. *)
Module HttpRequestHeaders.

Abbreviation t := (gmap string string).

Definition kAcceptEncoding := "Accept-Encoding".
Definition kAcceptLanguage := "Accept-Language".
Definition kCookie := "Cookie".
Definition kRange := "Range".
Definition kReferer := "Referer".
Definition kUserAgent := "User-Agent".

Definition GetHeader (key : string) (h : t) : option string :=
  h !! LowerString key.

Definition HasHeader (key : string) (h : t) : bool :=
  bool_decide (is_Some (h !! LowerString key)).

Definition SetHeader (key value : string) (h : t) : t :=
  <[LowerString key := value]> h.

Definition SetHeaderIfMissing (key value : string) (h : t) : t :=
  if HasHeader key h then h else SetHeader key value h.

Definition RemoveHeader (key : string) (h : t) : t :=
  delete (LowerString key) h.

End HttpRequestHeaders.

Import HttpRequestHeaders.

(** ** Response headers *)

(** HttpResponseHeaders is declared in net/http/http_response_headers.h.
    It is represented by its status code, its parsed header entries in wire
    order (a header that may be coalesced has one entry per
    comma-separated value; Set-Cookie and Strict-Transport-Security are
    kept one entry per line), the parsed Content-Length (-1 when missing
    or malformed) and the parsed Date. *)
Record HttpResponseHeaders := {
  response_code : Z;
  entries : list (string * string);
  GetContentLength : Z;
  GetDateValue : option Z
}.

(** All values of the entries called [name], in order: what repeated
    calls of [EnumerateHeader(&iter, name, &value)] yield. *)
Definition EnumerateHeaderAll (name : string) (h : HttpResponseHeaders)
  : list string :=
  map snd (filter (fun e => LowerString (fst e) = LowerString name) (entries h)).

(** [EnumerateHeader(nullptr, name, &value)]: the first value only. *)
Definition EnumerateHeader (name : string) (h : HttpResponseHeaders)
  : option string :=
  head (EnumerateHeaderAll name h).

(** ** Cookies *)

(** The members of CookieInclusionStatus::ExclusionReason and
    WarningReason that this file names, and one stand-in for the rest. *)
Inductive ExclusionReason :=
  | EXCLUDE_UNKNOWN_ERROR
  | EXCLUDE_USER_PREFERENCES
  | EXCLUDE_FAILURE_TO_STORE
  | EXCLUDE_OTHER (code : nat).

#[global] Instance ExclusionReason_eq_dec : EqDecision ExclusionReason.
Proof. solve_decision. Defined.

Inductive WarningReason :=
  | WARN_BUGFIX_1166211
  | WARN_OTHER (code : nat).

Record CookieInclusionStatus := {
  exclusion_reasons : list ExclusionReason;
  warning_reasons : list WarningReason
}.

Definition IsInclude (s : CookieInclusionStatus) : bool :=
  match exclusion_reasons s with [] => true | _ => false end.

Definition AddExclusionReason (r : ExclusionReason) (s : CookieInclusionStatus)
  : CookieInclusionStatus :=
  {| exclusion_reasons := r :: exclusion_reasons s;
     warning_reasons := warning_reasons s |}.

Record CanonicalCookie := {
  Name : string;
  Value : string;
  Domain : string;
  Path : string
}.

Record CookieAccessResult := { status : CookieInclusionStatus }.

Record CookieWithAccessResult := {
  cookie : CanonicalCookie;
  access_result : CookieAccessResult
}.

(** One element of [set_cookie_access_result_list_]. *)
Record CookieAndLineWithAccessResult := {
  stored_cookie : option CanonicalCookie;
  stored_cookie_string : string;
  stored_access_result : CookieAccessResult
}.

Record SameSiteCookieContext := { AffectedByBugfix1166211 : bool }.

Record CookieOptions := {
  return_excluded_cookies : bool;
  include_httponly : bool;
  same_site_cookie_context : SameSiteCookieContext;
  same_party_context : nat;
  full_party_context_size : option nat;
  is_in_nontrivial_first_party_set : bool
}.

(** The answers of the jar's access delegate for this request's URL and
    site. *)
Record CookieAccessDelegate := {
  ShouldIgnoreSameSiteRestrictions : bool;
  IsInNontrivialFirstPartySet : bool
}.

(** The jar.  [SetCanonicalCookieAsync c] lists the completion callbacks
    that the jar runs before the call for [c] returns, in the order it
    runs them: each entry names a call by its place among those
    outstanding at that moment, the call for [c] being the last of them,
    and gives the access result the jar reports.  The empty list keeps
    every callback for later. *)
Record CookieStore := {
  cookie_access_delegate : option CookieAccessDelegate;
  SetCanonicalCookieAsync : CanonicalCookie -> list (nat * CookieAccessResult)
}.

(** The arguments bound into an OnSetCookieResult callback handed to the
    jar. *)
Record BoundOnSetCookieResult := {
  bound_options : CookieOptions;
  bound_cookie : option CanonicalCookie;
  bound_cookie_string : string
}.

(** ** Source streams *)

Inductive SourceType :=
  | TYPE_BROTLI
  | TYPE_DEFLATE
  | TYPE_GZIP
  | TYPE_NONE
  | TYPE_UNKNOWN.

#[global] Instance SourceType_eq_dec : EqDecision SourceType.
Proof. solve_decision. Defined.

(** A chain of streams: the raw stream of URLRequestJob::SetUpSourceStream
    at the bottom, each filter owning its upstream. *)
Inductive SourceStream :=
  | URLRequestJobSourceStream
  | BrotliSourceStream (upstream : SourceStream)
  | GzipSourceStream (type : SourceType) (upstream : SourceStream).

(** ** Collaborators *)

Record SSLInfo := {
  ssl_is_valid : bool;
  cert_status : Z
}.

Record HttpResponseInfo := {
  headers : HttpResponseHeaders;
  ssl_info : SSLInfo;
  was_cached : bool
}.

Record HttpTransaction := {
  GetResponseInfo : option HttpResponseInfo;
  IsReadyToRestartForAuth : bool
}.

Record HttpUserAgentSettings := {
  GetAcceptLanguage : string;
  GetUserAgent : string
}.

Record TransportSecurityState := {
  ShouldSSLErrorsBeFatal : string -> bool
}.

Record URLRequestJobFactory := {
  IsSafeRedirectTarget : GURL -> bool
}.

Record URLRequestContext := {
  cookie_store : option CookieStore;
  transport_security_state : option TransportSecurityState;
  job_factory : option URLRequestJobFactory;
  enable_brotli : bool
}.

Inductive PrivacyMode :=
  | PRIVACY_MODE_DISABLED
  | PRIVACY_MODE_ENABLED
  | PRIVACY_MODE_ENABLED_WITHOUT_CLIENT_CERTS.

#[global] Instance PrivacyMode_eq_dec : EqDecision PrivacyMode.
Proof. solve_decision. Defined.

(** What the job reads from, and publishes to, its URLRequest. *)
Record URLRequest := {
  url : GURL;
  referrer : GURL;
  method : string;
  load_flags : Z;
  privacy_mode : PrivacyMode;
  allow_credentials : bool;
  force_ignore_site_for_cookies : bool;
  is_main_frame_request : bool;
  request_same_party_context : nat;
  party_context_size : option nat;
  Supports : SourceType -> bool;
  accepted_stream_types : option (list SourceType);
  response_headers : option HttpResponseHeaders;
  context : URLRequestContext;
  maybe_sent_cookies : list CookieWithAccessResult;
  maybe_stored_cookies : list CookieAndLineWithAccessResult
}.

(** Free functions and static methods of other files, and process-wide
    switches. *)
Record Environment := {
  (* base::FeatureList::IsEnabled(features::kAcceptLanguageHeader) *)
  kAcceptLanguageHeader : bool;
  (* FilterSourceStream::ParseEncodingType *)
  ParseEncodingType : string -> SourceType;
  (* whether CreateBrotliSourceStream yields a stream *)
  CreateBrotliSourceStream_ok : SourceStream -> bool;
  (* whether GzipSourceStream::Create yields a stream *)
  GzipSourceStream_Create_ok : SourceStream -> SourceType -> bool;
  (* CanonicalCookie::Create on the request URL, a line and the server
     time: the cookie (or null) and the status it reports *)
  CanonicalCookie_Create :
    GURL -> string -> option Z -> option CanonicalCookie * CookieInclusionStatus;
  (* URLRequestJob::CanSetCookie *)
  CanSetCookie : CanonicalCookie -> CookieOptions -> bool;
  (* URLRequestJob::AnnotateAndMoveUserBlockedCookies: the cookies that
     stay included and the excluded list after the move *)
  AnnotateAndMoveUserBlockedCookies :
    list CookieWithAccessResult -> list CookieWithAccessResult ->
    list CookieWithAccessResult * list CookieWithAccessResult;
  (* CanonicalCookie::BuildCookieLine *)
  BuildCookieLine : list CookieWithAccessResult -> string;
  (* cookie_util::ComputeSameSiteContextForRequest / ForResponse, given
     is_main_frame_navigation and force_ignore_site_for_cookies *)
  ComputeSameSiteContextForRequest : bool -> bool -> SameSiteCookieContext;
  ComputeSameSiteContextForResponse : bool -> bool -> SameSiteCookieContext;
  (* SameSiteCookieContext::MaybeApplyBugfix1166211WarningToStatusAndLogHistogram *)
  MaybeApplyBugfix1166211Warning :
    SameSiteCookieContext -> CookieInclusionStatus -> CookieInclusionStatus
}.

(** ** The job *)

Inductive AuthState :=
  | AUTH_STATE_DONT_NEED_AUTH
  | AUTH_STATE_NEED_AUTH
  | AUTH_STATE_HAVE_AUTH
  | AUTH_STATE_CANCELED.

#[global] Instance AuthState_eq_dec : EqDecision AuthState.
Proof. solve_decision. Defined.

Record AuthCredentials := {
  username : string;
  password : string
}.

(** [AuthCredentials()]. *)
Definition empty_credentials : AuthCredentials :=
  {| username := ""; password := "" |}.

(** The members of HttpRequestInfo that the modelled methods use. *)
Record HttpRequestInfo := {
  info_url : GURL;
  info_method : string;
  info_load_flags : Z;
  info_privacy_mode : PrivacyMode;
  extra_headers : HttpRequestHeaders.t
}.

(** Calls that leave the job, in the order they are made. *)
Inductive Event :=
  (* the net-log entry URL_REQUEST_HTTP_JOB_NOTIFY_HEADERS_COMPLETE that
     NotifyHeadersComplete writes, with its ready_to_restart_for_auth *)
  | LogNotifyHeadersComplete (ready_to_restart_for_auth : bool)
  (* security_state->AddHSTSHeader(host, value) *)
  | AddHSTSHeader (h value : string)
  (* security_state->ProcessExpectCTHeader(value, ...) *)
  | ProcessExpectCT (value : string)
  (* cookie_store->GetCookieListWithOptionsAsync(url, options, callback) *)
  | GetCookieListWithOptionsAsync (options : CookieOptions)
  (* StartTransaction(), the entry of the transaction start path *)
  | CallStartTransaction
  (* NotifyStartError(result) *)
  | NotifyStartError (result : Z)
  (* URLRequestJob::NotifyHeadersComplete() of the base class *)
  | URLRequestJob_NotifyHeadersComplete
  (* ReadRawDataComplete(result) *)
  | ReadRawDataComplete (result : Z)
  (* the posted task that runs NotifyFinalHeadersReceived *)
  | PostNotifyFinalHeadersReceived.

Record Job := {
  env : Environment;
  request_ : URLRequest;
  http_user_agent_settings_ : option HttpUserAgentSettings;
  request_info_ : HttpRequestInfo;
  num_cookie_lines_left_ : Z;
  set_cookie_access_result_list_ : list CookieAndLineWithAccessResult;
  transaction_ : option HttpTransaction;
  response_info_ : option HttpResponseInfo;
  override_response_headers_ : option HttpResponseHeaders;
  receive_headers_end_ : option Z;
  proxy_auth_state_ : AuthState;
  server_auth_state_ : AuthState;
  auth_credentials_ : AuthCredentials;
  read_in_progress_ : bool;
  done_ : bool;
  postfilter_bytes_read : Z;
  pending_set_cookie : list BoundOnSetCookieResult;
  trace : list Event
}.

Definition set_request_ (v : URLRequest) (j : Job) : Job :=
  {| env := env j;
     request_ := v;
     http_user_agent_settings_ := http_user_agent_settings_ j;
     request_info_ := request_info_ j;
     num_cookie_lines_left_ := num_cookie_lines_left_ j;
     set_cookie_access_result_list_ := set_cookie_access_result_list_ j;
     transaction_ := transaction_ j;
     response_info_ := response_info_ j;
     override_response_headers_ := override_response_headers_ j;
     receive_headers_end_ := receive_headers_end_ j;
     proxy_auth_state_ := proxy_auth_state_ j;
     server_auth_state_ := server_auth_state_ j;
     auth_credentials_ := auth_credentials_ j;
     read_in_progress_ := read_in_progress_ j;
     done_ := done_ j;
     postfilter_bytes_read := postfilter_bytes_read j;
     pending_set_cookie := pending_set_cookie j;
     trace := trace j |}.

Definition set_request_info_ (v : HttpRequestInfo) (j : Job) : Job :=
  {| env := env j;
     request_ := request_ j;
     http_user_agent_settings_ := http_user_agent_settings_ j;
     request_info_ := v;
     num_cookie_lines_left_ := num_cookie_lines_left_ j;
     set_cookie_access_result_list_ := set_cookie_access_result_list_ j;
     transaction_ := transaction_ j;
     response_info_ := response_info_ j;
     override_response_headers_ := override_response_headers_ j;
     receive_headers_end_ := receive_headers_end_ j;
     proxy_auth_state_ := proxy_auth_state_ j;
     server_auth_state_ := server_auth_state_ j;
     auth_credentials_ := auth_credentials_ j;
     read_in_progress_ := read_in_progress_ j;
     done_ := done_ j;
     postfilter_bytes_read := postfilter_bytes_read j;
     pending_set_cookie := pending_set_cookie j;
     trace := trace j |}.

Definition set_num_cookie_lines_left_ (v : Z) (j : Job) : Job :=
  {| env := env j;
     request_ := request_ j;
     http_user_agent_settings_ := http_user_agent_settings_ j;
     request_info_ := request_info_ j;
     num_cookie_lines_left_ := v;
     set_cookie_access_result_list_ := set_cookie_access_result_list_ j;
     transaction_ := transaction_ j;
     response_info_ := response_info_ j;
     override_response_headers_ := override_response_headers_ j;
     receive_headers_end_ := receive_headers_end_ j;
     proxy_auth_state_ := proxy_auth_state_ j;
     server_auth_state_ := server_auth_state_ j;
     auth_credentials_ := auth_credentials_ j;
     read_in_progress_ := read_in_progress_ j;
     done_ := done_ j;
     postfilter_bytes_read := postfilter_bytes_read j;
     pending_set_cookie := pending_set_cookie j;
     trace := trace j |}.

Definition set_set_cookie_access_result_list_ (v : list CookieAndLineWithAccessResult) (j : Job) : Job :=
  {| env := env j;
     request_ := request_ j;
     http_user_agent_settings_ := http_user_agent_settings_ j;
     request_info_ := request_info_ j;
     num_cookie_lines_left_ := num_cookie_lines_left_ j;
     set_cookie_access_result_list_ := v;
     transaction_ := transaction_ j;
     response_info_ := response_info_ j;
     override_response_headers_ := override_response_headers_ j;
     receive_headers_end_ := receive_headers_end_ j;
     proxy_auth_state_ := proxy_auth_state_ j;
     server_auth_state_ := server_auth_state_ j;
     auth_credentials_ := auth_credentials_ j;
     read_in_progress_ := read_in_progress_ j;
     done_ := done_ j;
     postfilter_bytes_read := postfilter_bytes_read j;
     pending_set_cookie := pending_set_cookie j;
     trace := trace j |}.

Definition set_response_info_ (v : option HttpResponseInfo) (j : Job) : Job :=
  {| env := env j;
     request_ := request_ j;
     http_user_agent_settings_ := http_user_agent_settings_ j;
     request_info_ := request_info_ j;
     num_cookie_lines_left_ := num_cookie_lines_left_ j;
     set_cookie_access_result_list_ := set_cookie_access_result_list_ j;
     transaction_ := transaction_ j;
     response_info_ := v;
     override_response_headers_ := override_response_headers_ j;
     receive_headers_end_ := receive_headers_end_ j;
     proxy_auth_state_ := proxy_auth_state_ j;
     server_auth_state_ := server_auth_state_ j;
     auth_credentials_ := auth_credentials_ j;
     read_in_progress_ := read_in_progress_ j;
     done_ := done_ j;
     postfilter_bytes_read := postfilter_bytes_read j;
     pending_set_cookie := pending_set_cookie j;
     trace := trace j |}.

Definition set_override_response_headers_ (v : option HttpResponseHeaders) (j : Job) : Job :=
  {| env := env j;
     request_ := request_ j;
     http_user_agent_settings_ := http_user_agent_settings_ j;
     request_info_ := request_info_ j;
     num_cookie_lines_left_ := num_cookie_lines_left_ j;
     set_cookie_access_result_list_ := set_cookie_access_result_list_ j;
     transaction_ := transaction_ j;
     response_info_ := response_info_ j;
     override_response_headers_ := v;
     receive_headers_end_ := receive_headers_end_ j;
     proxy_auth_state_ := proxy_auth_state_ j;
     server_auth_state_ := server_auth_state_ j;
     auth_credentials_ := auth_credentials_ j;
     read_in_progress_ := read_in_progress_ j;
     done_ := done_ j;
     postfilter_bytes_read := postfilter_bytes_read j;
     pending_set_cookie := pending_set_cookie j;
     trace := trace j |}.

Definition set_receive_headers_end_ (v : option Z) (j : Job) : Job :=
  {| env := env j;
     request_ := request_ j;
     http_user_agent_settings_ := http_user_agent_settings_ j;
     request_info_ := request_info_ j;
     num_cookie_lines_left_ := num_cookie_lines_left_ j;
     set_cookie_access_result_list_ := set_cookie_access_result_list_ j;
     transaction_ := transaction_ j;
     response_info_ := response_info_ j;
     override_response_headers_ := override_response_headers_ j;
     receive_headers_end_ := v;
     proxy_auth_state_ := proxy_auth_state_ j;
     server_auth_state_ := server_auth_state_ j;
     auth_credentials_ := auth_credentials_ j;
     read_in_progress_ := read_in_progress_ j;
     done_ := done_ j;
     postfilter_bytes_read := postfilter_bytes_read j;
     pending_set_cookie := pending_set_cookie j;
     trace := trace j |}.

Definition set_proxy_auth_state_ (v : AuthState) (j : Job) : Job :=
  {| env := env j;
     request_ := request_ j;
     http_user_agent_settings_ := http_user_agent_settings_ j;
     request_info_ := request_info_ j;
     num_cookie_lines_left_ := num_cookie_lines_left_ j;
     set_cookie_access_result_list_ := set_cookie_access_result_list_ j;
     transaction_ := transaction_ j;
     response_info_ := response_info_ j;
     override_response_headers_ := override_response_headers_ j;
     receive_headers_end_ := receive_headers_end_ j;
     proxy_auth_state_ := v;
     server_auth_state_ := server_auth_state_ j;
     auth_credentials_ := auth_credentials_ j;
     read_in_progress_ := read_in_progress_ j;
     done_ := done_ j;
     postfilter_bytes_read := postfilter_bytes_read j;
     pending_set_cookie := pending_set_cookie j;
     trace := trace j |}.

Definition set_server_auth_state_ (v : AuthState) (j : Job) : Job :=
  {| env := env j;
     request_ := request_ j;
     http_user_agent_settings_ := http_user_agent_settings_ j;
     request_info_ := request_info_ j;
     num_cookie_lines_left_ := num_cookie_lines_left_ j;
     set_cookie_access_result_list_ := set_cookie_access_result_list_ j;
     transaction_ := transaction_ j;
     response_info_ := response_info_ j;
     override_response_headers_ := override_response_headers_ j;
     receive_headers_end_ := receive_headers_end_ j;
     proxy_auth_state_ := proxy_auth_state_ j;
     server_auth_state_ := v;
     auth_credentials_ := auth_credentials_ j;
     read_in_progress_ := read_in_progress_ j;
     done_ := done_ j;
     postfilter_bytes_read := postfilter_bytes_read j;
     pending_set_cookie := pending_set_cookie j;
     trace := trace j |}.

Definition set_auth_credentials_ (v : AuthCredentials) (j : Job) : Job :=
  {| env := env j;
     request_ := request_ j;
     http_user_agent_settings_ := http_user_agent_settings_ j;
     request_info_ := request_info_ j;
     num_cookie_lines_left_ := num_cookie_lines_left_ j;
     set_cookie_access_result_list_ := set_cookie_access_result_list_ j;
     transaction_ := transaction_ j;
     response_info_ := response_info_ j;
     override_response_headers_ := override_response_headers_ j;
     receive_headers_end_ := receive_headers_end_ j;
     proxy_auth_state_ := proxy_auth_state_ j;
     server_auth_state_ := server_auth_state_ j;
     auth_credentials_ := v;
     read_in_progress_ := read_in_progress_ j;
     done_ := done_ j;
     postfilter_bytes_read := postfilter_bytes_read j;
     pending_set_cookie := pending_set_cookie j;
     trace := trace j |}.

Definition set_read_in_progress_ (v : bool) (j : Job) : Job :=
  {| env := env j;
     request_ := request_ j;
     http_user_agent_settings_ := http_user_agent_settings_ j;
     request_info_ := request_info_ j;
     num_cookie_lines_left_ := num_cookie_lines_left_ j;
     set_cookie_access_result_list_ := set_cookie_access_result_list_ j;
     transaction_ := transaction_ j;
     response_info_ := response_info_ j;
     override_response_headers_ := override_response_headers_ j;
     receive_headers_end_ := receive_headers_end_ j;
     proxy_auth_state_ := proxy_auth_state_ j;
     server_auth_state_ := server_auth_state_ j;
     auth_credentials_ := auth_credentials_ j;
     read_in_progress_ := v;
     done_ := done_ j;
     postfilter_bytes_read := postfilter_bytes_read j;
     pending_set_cookie := pending_set_cookie j;
     trace := trace j |}.

Definition set_done_ (v : bool) (j : Job) : Job :=
  {| env := env j;
     request_ := request_ j;
     http_user_agent_settings_ := http_user_agent_settings_ j;
     request_info_ := request_info_ j;
     num_cookie_lines_left_ := num_cookie_lines_left_ j;
     set_cookie_access_result_list_ := set_cookie_access_result_list_ j;
     transaction_ := transaction_ j;
     response_info_ := response_info_ j;
     override_response_headers_ := override_response_headers_ j;
     receive_headers_end_ := receive_headers_end_ j;
     proxy_auth_state_ := proxy_auth_state_ j;
     server_auth_state_ := server_auth_state_ j;
     auth_credentials_ := auth_credentials_ j;
     read_in_progress_ := read_in_progress_ j;
     done_ := v;
     postfilter_bytes_read := postfilter_bytes_read j;
     pending_set_cookie := pending_set_cookie j;
     trace := trace j |}.

Definition set_pending_set_cookie (v : list BoundOnSetCookieResult) (j : Job) : Job :=
  {| env := env j;
     request_ := request_ j;
     http_user_agent_settings_ := http_user_agent_settings_ j;
     request_info_ := request_info_ j;
     num_cookie_lines_left_ := num_cookie_lines_left_ j;
     set_cookie_access_result_list_ := set_cookie_access_result_list_ j;
     transaction_ := transaction_ j;
     response_info_ := response_info_ j;
     override_response_headers_ := override_response_headers_ j;
     receive_headers_end_ := receive_headers_end_ j;
     proxy_auth_state_ := proxy_auth_state_ j;
     server_auth_state_ := server_auth_state_ j;
     auth_credentials_ := auth_credentials_ j;
     read_in_progress_ := read_in_progress_ j;
     done_ := done_ j;
     postfilter_bytes_read := postfilter_bytes_read j;
     pending_set_cookie := v;
     trace := trace j |}.

Definition set_trace (v : list Event) (j : Job) : Job :=
  {| env := env j;
     request_ := request_ j;
     http_user_agent_settings_ := http_user_agent_settings_ j;
     request_info_ := request_info_ j;
     num_cookie_lines_left_ := num_cookie_lines_left_ j;
     set_cookie_access_result_list_ := set_cookie_access_result_list_ j;
     transaction_ := transaction_ j;
     response_info_ := response_info_ j;
     override_response_headers_ := override_response_headers_ j;
     receive_headers_end_ := receive_headers_end_ j;
     proxy_auth_state_ := proxy_auth_state_ j;
     server_auth_state_ := server_auth_state_ j;
     auth_credentials_ := auth_credentials_ j;
     read_in_progress_ := read_in_progress_ j;
     done_ := done_ j;
     postfilter_bytes_read := postfilter_bytes_read j;
     pending_set_cookie := pending_set_cookie j;
     trace := v |}.

Definition set_extra_headers (h : HttpRequestHeaders.t) (i : HttpRequestInfo)
  : HttpRequestInfo :=
  {| info_url := info_url i;
     info_method := info_method i;
     info_load_flags := info_load_flags i;
     info_privacy_mode := info_privacy_mode i;
     extra_headers := h |}.

Definition set_maybe_sent_cookies (l : list CookieWithAccessResult)
  (r : URLRequest) : URLRequest :=
  {| url := url r; referrer := referrer r; method := method r;
     load_flags := load_flags r; privacy_mode := privacy_mode r;
     allow_credentials := allow_credentials r;
     force_ignore_site_for_cookies := force_ignore_site_for_cookies r;
     is_main_frame_request := is_main_frame_request r;
     request_same_party_context := request_same_party_context r;
     party_context_size := party_context_size r;
     Supports := Supports r;
     accepted_stream_types := accepted_stream_types r;
     response_headers := response_headers r;
     context := context r;
     maybe_sent_cookies := l;
     maybe_stored_cookies := maybe_stored_cookies r |}.

Definition set_maybe_stored_cookies (l : list CookieAndLineWithAccessResult)
  (r : URLRequest) : URLRequest :=
  {| url := url r; referrer := referrer r; method := method r;
     load_flags := load_flags r; privacy_mode := privacy_mode r;
     allow_credentials := allow_credentials r;
     force_ignore_site_for_cookies := force_ignore_site_for_cookies r;
     is_main_frame_request := is_main_frame_request r;
     request_same_party_context := request_same_party_context r;
     party_context_size := party_context_size r;
     Supports := Supports r;
     accepted_stream_types := accepted_stream_types r;
     response_headers := response_headers r;
     context := context r;
     maybe_sent_cookies := maybe_sent_cookies r;
     maybe_stored_cookies := l |}.

(** ** The monad of the job's methods *)

(** A method reads and updates the job and may stop on a null
    dereference or a failed CHECK. *)
Definition M (A : Type) : Type := Job -> option (A * Job).

Definition ret {A} (a : A) : M A := fun j => Some (a, j).

Definition bind {A B} (m : M A) (k : A -> M B) : M B :=
  fun j => match m j with
           | Some (a, j') => k a j'
           | None => None
           end.

Definition fail {A} : M A := fun _ => None.

Definition gets {A} (f : Job -> A) : M A := fun j => Some (f j, j).

Definition modify (f : Job -> Job) : M unit := fun j => Some (tt, f j).

(** [*p] for a nullable [p]. *)
Definition deref {A} (p : option A) : M A :=
  match p with
  | Some a => ret a
  | None => fail
  end.

Definition when (b : bool) (m : M unit) : M unit :=
  if b then m else ret tt.

Definition emit (e : Event) : M unit :=
  modify (fun j => set_trace (trace j ++ [e]) j).

Declare Scope job_scope.
Delimit Scope job_scope with job.

Notation "'let*' x ':=' m 'in' k" := (bind m (fun x => k))
  (at level 10, x name, m at level 100, k at level 200) : job_scope.
Notation "m ';;' k" := (bind m (fun _ => k))
  (at level 100, k at level 200, right associativity) : job_scope.

Local Open Scope job_scope.

(** ** Methods of URLRequestHttpJob *)

Definition modify_extra_headers (f : HttpRequestHeaders.t -> HttpRequestHeaders.t)
  : M unit :=
  modify (fun j =>
    set_request_info_
      (set_extra_headers (f (extra_headers (request_info_ j))) (request_info_ j)) j).

(** [StartTransaction()] opens the transaction start path, which is not
    followed further here. *)
Definition StartTransaction : M unit := emit CallStartTransaction.

(** The literals of [Start()]. *)
Definition kOperaAddonsUserAgent :=
  "Mozilla/5.0 (X11; Linux x86_64) AppleWebKit/537.36 (KHTML, like Gecko) Chrome/73.0.3683.86 Safari/537.36 OPR/60.0.3255.27 (Edition developer)".
Definition kChromeStoreUserAgent :=
  "Mozilla/5.0 (X11; Linux x86_64) AppleWebKit/537.36 (KHTML, like Gecko) Chrome/93.0.4577.25 Safari/537.36".
Definition kWhatsAppUserAgent :=
  "Mozilla/5.0 (X11; Linux) AppleWebKit/537.36 (KHTML, like Gecko) Chrome/93.0.4577.25 Mobile Safari/537.36".
Definition kMessengerUserAgent :=
  "Mozilla/5.0 (X11; Ubuntu; Linux x86_64; rv:57.0) Gecko/20100101 Firefox/57.0".
Definition kFacebookUserAgent :=
  "Mozilla/5.0 (Mobile; rv:48.0; A405DL) Gecko/48.0 Firefox/48.0 KAIOS/2.5".
Definition kGoogleNewsUserAgent :=
  "Mozilla/5.0 (Linux; Android 9; ONEPLUS A6003) AppleWebKit/537.36 (KHTML, like Gecko) Chrome/71.0.3578.99 Mobile Safari/537.36".
Definition kGoogleNewsPath :=
  "CAAqJggKIiBDQkFTRWdvSUwyMHZNRFZxYUdjU0FtVnVHZ0pWVXlnQVAB".
Definition kGoogleNewsCookie :=
  "CONSENT=YES+srp.gws-20210610-0-RC2.en+FX+320;".

(** The anonymous-namespace helper [CreateCookieOptions]. *)
Definition CreateCookieOptions (same_site_context : SameSiteCookieContext)
  (same_party : nat) (party_context : option nat)
  (in_nontrivial_first_party_set : bool) : CookieOptions :=
  {| return_excluded_cookies := true;
     include_httponly := true;
     same_site_cookie_context := same_site_context;
     same_party_context := same_party;
     full_party_context_size :=
       match party_context with
       | Some size => Some (size + 1)
       | None => None
       end;
     is_in_nontrivial_first_party_set := in_nontrivial_first_party_set |}.

(** The vector [advertised_encoding_names] that AddExtraHeaders fills by
    its three push_back calls. *)
Definition AdvertisedEncodingNames (r : URLRequest) : list string :=
  (if Supports r TYPE_GZIP then ["gzip"] else []) ++
  (if Supports r TYPE_DEFLATE then ["deflate"] else []) ++
  (if enable_brotli (context r) && Supports r TYPE_BROTLI
   then if SchemeIsCryptographic (url r) || IsLocalhost (url r)
        then ["br"] else []
   else []).

Definition AddExtraHeaders : M unit :=
  let* h := gets (fun j => extra_headers (request_info_ j)) in
  when (negb (HasHeader kAcceptEncoding h))
    (if HasHeader kRange h
     then modify_extra_headers (SetHeader kAcceptEncoding "identity")
     else
       let* r := gets request_ in
       let advertised_encoding_names := AdvertisedEncodingNames r in
       when (negb (bool_decide (advertised_encoding_names = [])))
         (modify_extra_headers
            (SetHeader kAcceptEncoding
               (String.concat ", " advertised_encoding_names))));;
  let* settings := gets http_user_agent_settings_ in
  match settings with
  | Some s =>
      let accept_language := GetAcceptLanguage s in
      let* e := gets env in
      when (kAcceptLanguageHeader e && negb (bool_decide (accept_language = "")))
        (modify_extra_headers (SetHeaderIfMissing kAcceptLanguage accept_language))
  | None => ret tt
  end.

Definition AddCookieHeaderAndStart : M unit :=
  let* r := gets request_ in
  let* e := gets env in
  match cookie_store (context r) with
  | Some store =>
      if allow_credentials r then
        let delegate := cookie_access_delegate store in
        let force_ignore_site_for_cookies :=
          match delegate with
          | Some d =>
              if ShouldIgnoreSameSiteRestrictions d then true
              else force_ignore_site_for_cookies r
          | None => force_ignore_site_for_cookies r
          end in
        let is_main_frame_navigation := is_main_frame_request r in
        let same_site_context :=
          ComputeSameSiteContextForRequest e is_main_frame_navigation
            force_ignore_site_for_cookies in
        let is_in_nontrivial_first_party_set :=
          match delegate with
          | Some d => IsInNontrivialFirstPartySet d
          | None => false
          end in
        let options :=
          CreateCookieOptions same_site_context (request_same_party_context r)
            (party_context_size r) is_in_nontrivial_first_party_set in
        emit (GetCookieListWithOptionsAsync options)
      else StartTransaction
  | None => StartTransaction
  end.

Definition Start : M unit :=
  let* r := gets request_ in
  let referrer := referrer r in
  modify (fun j =>
    set_request_info_
      {| info_url := url r;
         info_method := method r;
         info_load_flags := load_flags r;
         info_privacy_mode := privacy_mode r;
         extra_headers := extra_headers (request_info_ j) |} j);;
  modify_extra_headers (RemoveHeader kReferer);;
  when (is_valid referrer)
    (modify_extra_headers (SetHeader kReferer (spec referrer)));;
  let* settings := gets http_user_agent_settings_ in
  modify_extra_headers
    (SetHeaderIfMissing kUserAgent
       (match settings with Some s => GetUserAgent s | None => "" end));;
  let* u := gets (fun j => info_url (request_info_ j)) in
  (if contains (host u) "addons.opera.com" then
     modify_extra_headers (SetHeader kUserAgent kOperaAddonsUserAgent)
   else if contains (host u) "chrome.google.com" then
     modify_extra_headers (SetHeader kUserAgent kChromeStoreUserAgent)
   else if contains (host u) "web.whatsapp.com" then
     modify_extra_headers (SetHeader kUserAgent kWhatsAppUserAgent)
   else if contains (host u) "messenger.com" then
     modify_extra_headers (SetHeader kUserAgent kMessengerUserAgent)
   else if contains (host u) "facebook.com" then
     modify_extra_headers (SetHeader kUserAgent kFacebookUserAgent)
   else if contains (host u) "news.google.com" && contains (path u) kGoogleNewsPath then
     modify_extra_headers (SetHeader kUserAgent kGoogleNewsUserAgent);;
     modify_extra_headers (SetHeader "Cookie" kGoogleNewsCookie)
   else ret tt);;
  when (contains (host u) "washingtonpost.com")
    (modify_extra_headers (SetHeader "X-Forwarded-For" "1.1.1.1"));;
  when (contains (host u) "amazon" && contains (query u) "kbdirect")
    (modify_extra_headers (RemoveHeader kReferer));;
  AddExtraHeaders;;
  AddCookieHeaderAndStart.

(** [status.HasOnlyExclusionReason(reason)]. *)
Definition HasOnlyExclusionReason (reason : ExclusionReason)
  (s : CookieInclusionStatus) : bool :=
  negb (IsInclude s) &&
  forallb (fun r => bool_decide (r = reason)) (exclusion_reasons s).

Definition add_exclusion_to (reason : ExclusionReason)
  (c : CookieWithAccessResult) : CookieWithAccessResult :=
  {| cookie := cookie c;
     access_result :=
       {| status := AddExclusionReason reason (status (access_result c)) |} |}.

(** The callback of GetCookieListWithOptionsAsync. *)
Definition SetCookieHeaderAndStart (options : CookieOptions)
  (cookies_with_access_result_list excluded_list : list CookieWithAccessResult)
  : M unit :=
  let* info := gets request_info_ in
  let* e := gets env in
  let* lists :=
    (if bool_decide (info_privacy_mode info <> PRIVACY_MODE_DISABLED) then
       ret ([],
            map (add_exclusion_to EXCLUDE_USER_PREFERENCES)
              (excluded_list ++ cookies_with_access_result_list)%list)
     else
       let moved :=
         AnnotateAndMoveUserBlockedCookies e cookies_with_access_result_list
           excluded_list in
       when (negb (bool_decide (fst moved = [])))
         (modify_extra_headers (SetHeader kCookie (BuildCookieLine e (fst moved))));;
       ret moved) in
  let maybe_included_cookies := fst lists in
  let excluded_cookies := snd lists in
  let maybe_sent_cookies := (excluded_cookies ++ maybe_included_cookies)%list in
  let context := same_site_cookie_context options in
  let maybe_sent_cookies :=
    if AffectedByBugfix1166211 context then
      map (fun c =>
             if HasOnlyExclusionReason EXCLUDE_USER_PREFERENCES
                  (status (access_result c))
             then c
             else {| cookie := cookie c;
                     access_result :=
                       {| status :=
                            MaybeApplyBugfix1166211Warning e context
                              (status (access_result c)) |} |})
        maybe_sent_cookies
    else maybe_sent_cookies in
  modify (fun j =>
    set_request_ (set_maybe_sent_cookies maybe_sent_cookies (request_ j)) j);;
  StartTransaction.

Definition GetResponseHeaders : M HttpResponseHeaders :=
  let* override := gets override_response_headers_ in
  match override with
  | Some h => ret h
  | None =>
      let* t := gets transaction_ in
      let* t := deref t in
      let* info := deref (GetResponseInfo t) in
      ret (headers info)
  end.

Definition GetResponseCode : M Z :=
  let* info := gets response_info_ in
  match info with
  | None => ret (-1)%Z
  | Some _ =>
      let* h := GetResponseHeaders in
      ret (response_code h)
  end.

Definition ProcessStrictTransportSecurityHeader : M unit :=
  let* r := gets request_ in
  let security_state := transport_security_state (context r) in
  let* info := gets response_info_ in
  let* info := deref info in
  let ssl_info := ssl_info info in
  if negb (ssl_is_valid ssl_info) || IsCertStatusError (cert_status ssl_info)
     || negb (bool_decide (is_Some security_state))
  then ret tt
  else
    let* request_info := gets request_info_ in
    if HostIsIPAddress (info_url request_info) then ret tt
    else
      let* headers := GetResponseHeaders in
      match EnumerateHeader "Strict-Transport-Security" headers with
      | Some value => emit (AddHSTSHeader (host (info_url request_info)) value)
      | None => ret tt
      end.

(** [headers->GetNormalizedHeader(name, &value)]: all values joined. *)
Definition GetNormalizedHeader (name : string) (h : HttpResponseHeaders)
  : option string :=
  match EnumerateHeaderAll name h with
  | [] => None
  | values => Some (String.concat ", " values)
  end.

Definition ProcessExpectCTHeader : M unit :=
  let* r := gets request_ in
  let security_state := transport_security_state (context r) in
  let* info := gets response_info_ in
  let* info := deref info in
  let ssl_info := ssl_info info in
  if negb (ssl_is_valid ssl_info) || IsCertStatusError (cert_status ssl_info)
     || negb (bool_decide (is_Some security_state))
  then ret tt
  else
    let* headers := GetResponseHeaders in
    match GetNormalizedHeader "Expect-CT" headers with
    | Some value => emit (ProcessExpectCT value)
    | None => ret tt
    end.

Definition RestartTransactionWithAuth (credentials : AuthCredentials) : M unit :=
  modify (set_auth_credentials_ credentials);;
  modify (set_response_info_ None);;
  modify (set_override_response_headers_ None);;
  modify (set_receive_headers_end_ None);;
  modify_extra_headers (RemoveHeader kCookie);;
  modify (fun j => set_request_ (set_maybe_sent_cookies [] (request_ j)) j);;
  modify (fun j => set_request_ (set_maybe_stored_cookies [] (request_ j)) j);;
  AddCookieHeaderAndStart.

Definition NotifyHeadersComplete : M unit :=
  let* t := gets transaction_ in
  let* t := deref t in
  emit (LogNotifyHeadersComplete (IsReadyToRestartForAuth t));;
  modify (set_response_info_ (GetResponseInfo t));;
  (* response_info_->was_cached is read for the throttler *)
  let* info := gets response_info_ in
  let* _ := deref info in
  ProcessStrictTransportSecurityHeader;;
  ProcessExpectCTHeader;;
  modify (fun j =>
    set_set_cookie_access_result_list_ []
      (set_request_
         (set_maybe_stored_cookies (set_cookie_access_result_list_ j) (request_ j))
         j));;
  if IsReadyToRestartForAuth t
  then RestartTransactionWithAuth empty_credentials
  else emit URLRequestJob_NotifyHeadersComplete.

Definition OnSetCookieResult (options : CookieOptions)
  (cookie : option CanonicalCookie) (cookie_string : string)
  (access_result : CookieAccessResult) : M unit :=
  let* e := gets env in
  let context := same_site_cookie_context options in
  let access_result :=
    if AffectedByBugfix1166211 context
    then {| status := MaybeApplyBugfix1166211Warning e context (status access_result) |}
    else access_result in
  modify (fun j =>
    set_set_cookie_access_result_list_
      (set_cookie_access_result_list_ j ++
       [{| stored_cookie := cookie;
           stored_cookie_string := cookie_string;
           stored_access_result := access_result |}])%list j);;
  modify (fun j => set_num_cookie_lines_left_ (wrap_int (num_cookie_lines_left_ j - 1)) j);;
  let* left := gets num_cookie_lines_left_ in
  if (left =? 0)%Z then NotifyHeadersComplete else ret tt.

(** The jar completes the [i]-th of its outstanding SetCanonicalCookieAsync
    calls with [result]: the bound OnSetCookieResult runs.  An index that
    names no outstanding call runs nothing. *)
Definition RunSetCookieCallback (i : nat) (result : CookieAccessResult) : M unit :=
  let* pending := gets pending_set_cookie in
  match pending !! i with
  | Some cb =>
      modify (set_pending_set_cookie (delete i pending));;
      OnSetCookieResult (bound_options cb) (bound_cookie cb)
        (bound_cookie_string cb) result
  | None => ret tt
  end.

(** The jar completes outstanding calls one after the other; each entry
    of the schedule names the call by its place among those still
    outstanding, and gives the access result the jar reports. *)
Fixpoint RunSetCookieCallbacks (schedule : list (nat * CookieAccessResult))
  : M unit :=
  match schedule with
  | [] => ret tt
  | (i, result) :: rest =>
      RunSetCookieCallback i result;;
      RunSetCookieCallbacks rest
  end.

(** One turn of the loop over the Set-Cookie lines. *)
Definition SaveCookieLine (store : CookieStore) (options : CookieOptions)
  (server_time : option Z) (cookie_string : string) : M unit :=
  let* r := gets request_ in
  let* e := gets env in
  modify (fun j => set_num_cookie_lines_left_ (wrap_int (num_cookie_lines_left_ j + 1)) j);;
  let created := CanonicalCookie_Create e (url r) cookie_string server_time in
  let cookie := fst created in
  let returned_status := snd created in
  let* cookie_to_return :=
    (if IsInclude returned_status
     then let* c := deref cookie in ret (Some c)
     else ret None) in
  let returned_status :=
    match cookie with
    | Some c =>
        if negb (CanSetCookie e c options)
        then AddExclusionReason EXCLUDE_USER_PREFERENCES returned_status
        else returned_status
    | None => returned_status
    end in
  if negb (IsInclude returned_status) then
    OnSetCookieResult options cookie_to_return cookie_string
      {| status := returned_status |}
  else
    let* c := deref cookie in
    (* the jar takes the callback, and runs what it runs before returning *)
    modify (fun j =>
      set_pending_set_cookie
        (pending_set_cookie j ++
         [{| bound_options := options;
             bound_cookie := cookie_to_return;
             bound_cookie_string := cookie_string |}])%list j);;
    RunSetCookieCallbacks (SetCanonicalCookieAsync store c).

Fixpoint SaveCookieLines (store : CookieStore) (options : CookieOptions)
  (server_time : option Z) (lines : list string) : M unit :=
  match lines with
  | [] => ret tt
  | cookie_string :: rest =>
      SaveCookieLine store options server_time cookie_string;;
      SaveCookieLines store options server_time rest
  end.

Definition SaveCookiesAndNotifyHeadersComplete (result : Z) : M unit :=
  let* left := gets num_cookie_lines_left_ in
  if negb (left =? 0)%Z then fail (* CHECK_EQ(0, num_cookie_lines_left_) *)
  else if negb (result =? OK)%Z then emit (NotifyStartError result)
  else
    let* r := gets request_ in
    let* e := gets env in
    let* info := gets request_info_ in
    match cookie_store (context r) with
    | None => NotifyHeadersComplete
    | Some store =>
        if negb (Z.land (info_load_flags info) LOAD_DO_NOT_SAVE_COOKIES =? 0)%Z
        then NotifyHeadersComplete
        else
          let* date_headers := GetResponseHeaders in
          let server_time := GetDateValue date_headers in
          let delegate := cookie_access_delegate store in
          let force_ignore_site_for_cookies :=
            match delegate with
            | Some d =>
                if ShouldIgnoreSameSiteRestrictions d then true
                else force_ignore_site_for_cookies r
            | None => force_ignore_site_for_cookies r
            end in
          let is_main_frame_navigation := is_main_frame_request r in
          let same_site_context :=
            ComputeSameSiteContextForResponse e is_main_frame_navigation
              force_ignore_site_for_cookies in
          let is_in_nontrivial_first_party_set :=
            match delegate with
            | Some d => IsInNontrivialFirstPartySet d
            | None => false
            end in
          let options :=
            CreateCookieOptions same_site_context (request_same_party_context r)
              (party_context_size r) is_in_nontrivial_first_party_set in
          let* headers := GetResponseHeaders in
          modify (set_num_cookie_lines_left_ 1%Z);;
          SaveCookieLines store options server_time
            (EnumerateHeaderAll "Set-Cookie" headers);;
          modify (fun j =>
            set_num_cookie_lines_left_ (wrap_int (num_cookie_lines_left_ j - 1)) j);;
          let* left := gets num_cookie_lines_left_ in
          if (left =? 0)%Z then NotifyHeadersComplete else ret tt
    end.

(** [DoneWithRequest(reason)]; only the [done_] latch is kept, the rest
    is metrics. *)
Definition DoneWithRequest : M unit :=
  let* done := gets done_ in
  if done then ret tt else modify (set_done_ true).

Definition ShouldFixMismatchedContentLength (rv : Z) : M bool :=
  if (rv =? ERR_CONTENT_LENGTH_MISMATCH)%Z || (rv =? ERR_INCOMPLETE_CHUNKED_ENCODING)%Z
  then
    let* r := gets request_ in
    match response_headers r with
    | Some h =>
        let expected_length := GetContentLength h in
        let* post := gets postfilter_bytes_read in
        if (post =? expected_length)%Z then ret true else ret false
    | None => ret false
    end
  else ret false.

Definition OnReadCompleted (result : Z) : M unit :=
  modify (set_read_in_progress_ false);;
  let* fix_length := ShouldFixMismatchedContentLength result in
  let result := if fix_length then OK else result in
  when (result <=? 0)%Z DoneWithRequest;;
  emit (ReadRawDataComplete result).

(** The first loop of SetUpSourceStream, over the Content-Encoding
    values: [None] is the early [return upstream], [Some types] the
    vector the loop has filled when it ends. *)
Fixpoint CollectSourceTypes (e : Environment) (r : URLRequest)
  (values : list string) (types : list SourceType) : option (list SourceType) :=
  match values with
  | [] => Some types
  | type :: rest =>
      let source_type := ParseEncodingType e type in
      match source_type with
      | TYPE_BROTLI | TYPE_DEFLATE | TYPE_GZIP =>
          match accepted_stream_types r with
          | Some accepted =>
              if negb (bool_decide (source_type ∈ accepted)) then None
              else CollectSourceTypes e r rest (types ++ [source_type])
          | None => CollectSourceTypes e r rest (types ++ [source_type])
          end
      | TYPE_NONE => None
      | TYPE_UNKNOWN => None
      end
  end.

(** The second loop, over the vector from its last element to its first
    ([reversed] is the vector in that order): [None] is [nullptr]. *)
Fixpoint WrapSourceStreams (e : Environment) (reversed : list SourceType)
  (upstream : SourceStream) : option SourceStream :=
  match reversed with
  | [] => Some upstream
  | type :: rest =>
      let downstream :=
        match type with
        | TYPE_BROTLI =>
            if CreateBrotliSourceStream_ok e upstream
            then Some (BrotliSourceStream upstream) else None
        | TYPE_GZIP | TYPE_DEFLATE =>
            if GzipSourceStream_Create_ok e upstream type
            then Some (GzipSourceStream type upstream) else None
        | TYPE_NONE | TYPE_UNKNOWN => None
        end in
      match downstream with
      | None => None
      | Some d => WrapSourceStreams e rest d
      end
  end.

(** The result is the stream handed back, [None] for [nullptr]. *)
Definition SetUpSourceStream : M (option SourceStream) :=
  let* info := gets response_info_ in
  match info with
  | None => ret None
  | Some _ =>
      let upstream := URLRequestJobSourceStream in
      let* headers := GetResponseHeaders in
      let* r := gets request_ in
      let* e := gets env in
      match CollectSourceTypes e r (EnumerateHeaderAll "Content-Encoding" headers) [] with
      | None => ret (Some upstream)
      | Some types => ret (WrapSourceStreams e (rev types) upstream)
      end
  end.

Definition IsSafeRedirect (location : GURL) : M bool :=
  if is_valid location &&
     (bool_decide (scheme location = "http") || bool_decide (scheme location = "https"))
  then ret true
  else
    let* r := gets request_ in
    match job_factory (context r) with
    | Some factory => ret (IsSafeRedirectTarget factory location)
    | None => ret false
    end.

Definition NeedsAuth : M bool :=
  let* code := GetResponseCode in
  if (code =? -1)%Z then ret false
  else if (code =? 407)%Z then
    let* state := gets proxy_auth_state_ in
    if bool_decide (state = AUTH_STATE_CANCELED) then ret false
    else modify (set_proxy_auth_state_ AUTH_STATE_NEED_AUTH);; ret true
  else if (code =? 401)%Z then
    let* state := gets server_auth_state_ in
    if bool_decide (state = AUTH_STATE_CANCELED) then ret false
    else modify (set_server_auth_state_ AUTH_STATE_NEED_AUTH);; ret true
  else ret false.

Definition SetAuth (credentials : AuthCredentials) : M unit :=
  let* state := gets proxy_auth_state_ in
  (if bool_decide (state = AUTH_STATE_NEED_AUTH)
   then modify (set_proxy_auth_state_ AUTH_STATE_HAVE_AUTH)
   else modify (set_server_auth_state_ AUTH_STATE_HAVE_AUTH));;
  RestartTransactionWithAuth credentials.

Definition CancelAuth : M unit :=
  let* state := gets proxy_auth_state_ in
  (if bool_decide (state = AUTH_STATE_NEED_AUTH)
   then modify (set_proxy_auth_state_ AUTH_STATE_CANCELED)
   else modify (set_server_auth_state_ AUTH_STATE_CANCELED));;
  emit PostNotifyFinalHeadersReceived.

(** ** Vocabulary of the properties *)

(** The condition under which a read result is replaced by [OK]. *)
Definition length_fix_applies (j : Job) (rv : Z) : Prop :=
  (rv = ERR_CONTENT_LENGTH_MISMATCH \/ rv = ERR_INCOMPLETE_CHUNKED_ENCODING) /\
  exists h, response_headers (request_ j) = Some h /\
            postfilter_bytes_read j = GetContentLength h.

(** The connection and the host are fit for HSTS ingestion. *)
Definition hsts_accepted (j : Job) (info : HttpResponseInfo) : Prop :=
  ssl_is_valid (ssl_info info) = true /\
  Z.land CERT_STATUS_ALL_ERRORS (cert_status (ssl_info info)) = 0%Z /\
  is_Some (transport_security_state (context (request_ j))) /\
  HostIsIPAddress (info_url (request_info_ j)) = false.

(** The filter that a recognized type puts on top of [upstream]. *)
Definition Stage (type : SourceType) (upstream : SourceStream) : SourceStream :=
  match type with
  | TYPE_BROTLI => BrotliSourceStream upstream
  | _ => GzipSourceStream type upstream
  end.

(** Whether the filter for [type] can be constructed on [upstream]. *)
Definition stage_constructed (e : Environment) (upstream : SourceStream)
  (type : SourceType) : bool :=
  match type with
  | TYPE_BROTLI => CreateBrotliSourceStream_ok e upstream
  | TYPE_GZIP | TYPE_DEFLATE => GzipSourceStream_Create_ok e upstream type
  | TYPE_NONE | TYPE_UNKNOWN => false
  end.

(** The chain that decodes with [stages], the first of them next to the
    raw stream. *)
Definition Pipeline (stages : list SourceType) : SourceStream :=
  fold_left (fun upstream type => Stage type upstream) stages
    URLRequestJobSourceStream.

(** The encodings a chain undoes, in the order in which the bytes of the
    raw stream meet them. *)
Fixpoint DecodeOrder (s : SourceStream) : list SourceType :=
  match s with
  | URLRequestJobSourceStream => []
  | BrotliSourceStream upstream => DecodeOrder upstream ++ [TYPE_BROTLI]
  | GzipSourceStream type upstream => DecodeOrder upstream ++ [type]
  end.

(** A Content-Encoding type that makes the whole response pass through
    undecoded: identity, unknown, or outside the request's allow-set. *)
Definition passes_through (r : URLRequest) (type : SourceType) : Prop :=
  type = TYPE_NONE \/ type = TYPE_UNKNOWN \/
  exists accepted, accepted_stream_types r = Some accepted /\ type ∉ accepted.

(** The job with its outgoing extra headers replaced. *)
Definition with_extra_headers (h : HttpRequestHeaders.t) (j : Job) : Job :=
  set_request_info_ (set_extra_headers h (request_info_ j)) j.

(** The User-Agent that Start() writes for the URL [u] whatever the
    headers hold, if any: the first match of its chain of host tests. *)
Definition hard_coded_user_agent (u : GURL) : option string :=
  if contains (host u) "addons.opera.com" then Some kOperaAddonsUserAgent
  else if contains (host u) "chrome.google.com" then Some kChromeStoreUserAgent
  else if contains (host u) "web.whatsapp.com" then Some kWhatsAppUserAgent
  else if contains (host u) "messenger.com" then Some kMessengerUserAgent
  else if contains (host u) "facebook.com" then Some kFacebookUserAgent
  else if contains (host u) "news.google.com" && contains (path u) kGoogleNewsPath
       then Some kGoogleNewsUserAgent
  else None.

(** The host matches one of the five tests that come before the
    news.google.com test in that chain. *)
Definition matches_earlier_host (u : GURL) : bool :=
  contains (host u) "addons.opera.com" || contains (host u) "chrome.google.com"
  || contains (host u) "web.whatsapp.com" || contains (host u) "messenger.com"
  || contains (host u) "facebook.com".

(** The News branch of that chain is the one taken. *)
Definition google_news_branch (u : GURL) : bool :=
  negb (matches_earlier_host u) &&
  (contains (host u) "news.google.com" && contains (path u) kGoogleNewsPath).

Definition amazon_kbdirect (u : GURL) : bool :=
  contains (host u) "amazon" && contains (query u) "kbdirect".

(** The extra headers as Start() leaves them, step by step, from the
    headers [h] it finds. *)
Definition referer_headers (r : URLRequest) (h : HttpRequestHeaders.t)
  : HttpRequestHeaders.t :=
  let h := RemoveHeader kReferer h in
  if is_valid (referrer r) then SetHeader kReferer (spec (referrer r)) h else h.

Definition default_user_agent (settings : option HttpUserAgentSettings) : string :=
  match settings with Some s => GetUserAgent s | None => "" end.

Definition override_headers (u : GURL) (h : HttpRequestHeaders.t)
  : HttpRequestHeaders.t :=
  let h :=
    match hard_coded_user_agent u with
    | Some ua => SetHeader kUserAgent ua h
    | None => h
    end in
  if google_news_branch u then SetHeader "Cookie" kGoogleNewsCookie h else h.

Definition site_headers (u : GURL) (h : HttpRequestHeaders.t)
  : HttpRequestHeaders.t :=
  let h := override_headers u h in
  let h :=
    if contains (host u) "washingtonpost.com"
    then SetHeader "X-Forwarded-For" "1.1.1.1" h else h in
  if amazon_kbdirect u then RemoveHeader kReferer h else h.

Definition accept_headers (j : Job) (h : HttpRequestHeaders.t)
  : HttpRequestHeaders.t :=
  let h :=
    if HasHeader kAcceptEncoding h then h
    else if HasHeader kRange h then SetHeader kAcceptEncoding "identity" h
    else if bool_decide (AdvertisedEncodingNames (request_ j) = []) then h
    else SetHeader kAcceptEncoding
           (String.concat ", " (AdvertisedEncodingNames (request_ j))) h in
  match http_user_agent_settings_ j with
  | Some s =>
      if kAcceptLanguageHeader (env j) && negb (bool_decide (GetAcceptLanguage s = ""))
      then SetHeaderIfMissing kAcceptLanguage (GetAcceptLanguage s) h
      else h
  | None => h
  end.

Definition start_headers (j : Job) : HttpRequestHeaders.t :=
  accept_headers j
    (site_headers (url (request_ j))
       (SetHeaderIfMissing kUserAgent (default_user_agent (http_user_agent_settings_ j))
          (referer_headers (request_ j) (extra_headers (request_info_ j))))).

(** The request info that Start() fills in. *)
Definition start_request_info (j : Job) : HttpRequestInfo :=
  {| info_url := url (request_ j);
     info_method := method (request_ j);
     info_load_flags := load_flags (request_ j);
     info_privacy_mode := privacy_mode (request_ j);
     extra_headers := start_headers j |}.

(** What a run of a method returned, and the calls it has left in the
    trace; [None] when the run stopped. *)
Definition returned {A} (run : option (A * Job)) : option A :=
  match run with
  | Some (a, _) => Some a
  | None => None
  end.

Definition events {A} (run : option (A * Job)) : option (list Event) :=
  match run with
  | Some (_, j) => Some (trace j)
  | None => None
  end.

(** The value of the outgoing header [key] after a run. *)
Definition header_after {A} (key : string) (run : option (A * Job))
  : option (option string) :=
  match run with
  | Some (_, j) => Some (GetHeader key (extra_headers (request_info_ j)))
  | None => None
  end.

(** The six User-Agent literals of Start(). *)
Definition hard_coded_user_agents : list string :=
  [kOperaAddonsUserAgent; kChromeStoreUserAgent; kWhatsAppUserAgent;
   kMessengerUserAgent; kFacebookUserAgent; kGoogleNewsUserAgent].

(** The job as RestartTransactionWithAuth has it when it calls
    AddCookieHeaderAndStart. *)
Definition cleared_for_restart (credentials : AuthCredentials) (j : Job) : Job :=
  let j := set_auth_credentials_ credentials j in
  let j := set_response_info_ None j in
  let j := set_override_response_headers_ None j in
  let j := set_receive_headers_end_ None j in
  let j := with_extra_headers (RemoveHeader kCookie (extra_headers (request_info_ j))) j in
  let j := set_request_ (set_maybe_sent_cookies [] (request_ j)) j in
  set_request_ (set_maybe_stored_cookies [] (request_ j)) j.

(** The Cookie header that SetCookieHeaderAndStart writes for the jar's
    answer, if it writes one. *)
Definition cookie_line_from_jar (j : Job)
  (cookies excluded : list CookieWithAccessResult) : option string :=
  if bool_decide (info_privacy_mode (request_info_ j) <> PRIVACY_MODE_DISABLED)
  then None
  else
    let included := fst (AnnotateAndMoveUserBlockedCookies (env j) cookies excluded) in
    if bool_decide (included = []) then None
    else Some (BuildCookieLine (env j) included).

(** The number of times NotifyHeadersComplete has been entered, read
    off the net-log entries it writes. *)
Definition is_headers_complete (e : Event) : bool :=
  match e with
  | LogNotifyHeadersComplete _ => true
  | _ => false
  end.

Definition headers_complete_count (tr : list Event) : nat :=
  length (List.filter is_headers_complete tr).

(** A schedule for [n] outstanding calls: every place it names
    exists when its turn comes. *)
Fixpoint valid_schedule (n : nat) (schedule : list (nat * CookieAccessResult))
  : Prop :=
  match schedule with
  | [] => True
  | (i, _) :: rest => i < n /\ valid_schedule (n - 1) rest
  end.

(** CanonicalCookie::Create hands back a cookie whenever the status it
    reports is an inclusion (the DCHECK in the loop of
    SaveCookiesAndNotifyHeadersComplete). *)
Definition Create_gives_cookie_when_included (j : Job) : Prop :=
  forall line server_time,
    IsInclude (snd (CanonicalCookie_Create (env j) (url (request_ j)) line server_time))
      = true ->
    is_Some (fst (CanonicalCookie_Create (env j) (url (request_ j)) line server_time)).

(** The job saves cookies: it has a jar and LOAD_DO_NOT_SAVE_COOKIES is
    not among its load flags. *)
Definition saves_cookies (j : Job) : Prop :=
  is_Some (cookie_store (context (request_ j))) /\
  Z.land (info_load_flags (request_info_ j)) LOAD_DO_NOT_SAVE_COOKIES = 0%Z.

(** What the cookie exchange leaves alone. *)
Definition same_setting (j j' : Job) : Prop :=
  env j' = env j /\
  transaction_ j' = transaction_ j /\
  url (request_ j') = url (request_ j) /\
  context (request_ j') = context (request_ j).

(** The Set-Cookie lines that have an entry in the result list or an
    outstanding jar call. *)
Definition cookie_lines_handled (j : Job) : list string :=
  map stored_cookie_string (set_cookie_access_result_list_ j) ++
  map bound_cookie_string (pending_set_cookie j).

(** The invariant of the loop over the Set-Cookie lines, [j0] being the
    job at the entry of the loop and [processed] the lines gone through:
    the counter is one more than the number of outstanding jar calls, and
    NotifyHeadersComplete has not been entered. *)
Definition in_loop (j0 j : Job) (processed : list string) : Prop :=
  same_setting j0 j /\
  num_cookie_lines_left_ j = (1 + Z.of_nat (length (pending_set_cookie j)))%Z /\
  headers_complete_count (trace j) = headers_complete_count (trace j0) /\
  maybe_stored_cookies (request_ j) = maybe_stored_cookies (request_ j0) /\
  cookie_lines_handled j ≡ₚ processed.

(** The invariant once the loop is over, [lines] being all the lines:
    the counter is the number of outstanding jar calls, and
    NotifyHeadersComplete has been entered once if that number is zero
    and not at all otherwise. *)
Definition after_loop (j0 j : Job) (lines : list string) : Prop :=
  same_setting j0 j /\
  num_cookie_lines_left_ j = Z.of_nat (length (pending_set_cookie j)) /\
  length (pending_set_cookie j) <= length lines /\
  match pending_set_cookie j with
  | [] =>
      headers_complete_count (trace j) = S (headers_complete_count (trace j0)) /\
      forall t, transaction_ j0 = Some t ->
                if IsReadyToRestartForAuth t
                then maybe_stored_cookies (request_ j) = []
                else map stored_cookie_string (maybe_stored_cookies (request_ j)) ≡ₚ lines
  | _ :: _ =>
      headers_complete_count (trace j) = headers_complete_count (trace j0) /\
      cookie_lines_handled j ≡ₚ lines
  end.

(** The number of jar calls still outstanding after a run. *)
Definition outstanding_after {A} (run : option (A * Job)) : option nat :=
  match run with
  | Some (_, j) => Some (length (pending_set_cookie j))
  | None => None
  end.

(** ** Concrete collaborators and jobs *)

(** Modelled from the spec: FilterSourceStream::ParseEncodingType is
    defined in net/filter/filter_source_stream.cc, outside this file.  The
    spec names the recognized tokens gzip, deflate and br and the identity
    token; every other token is unknown.  Used for the concrete jobs below
    only. *)
Definition ParseEncodingTypeModel (encoding : string) : SourceType :=
  let e := LowerString encoding in
  if bool_decide (e = "br") then TYPE_BROTLI
  else if bool_decide (e = "deflate") then TYPE_DEFLATE
  else if bool_decide (e = "gzip") then TYPE_GZIP
  else if bool_decide (e = "identity") then TYPE_NONE
  else TYPE_UNKNOWN.

Definition include_status : CookieInclusionStatus :=
  {| exclusion_reasons := []; warning_reasons := [] |}.

(** A jar that, before it returns, completes the call for the cookie
    named "now" (no other call being outstanding when it comes) and, for
    the cookie named "first", the oldest outstanding call; every other
    callback it keeps for later. *)
Definition example_store : CookieStore :=
  {| cookie_access_delegate := None;
     SetCanonicalCookieAsync := fun c =>
       if bool_decide (Name c = "now") || bool_decide (Name c = "first")
       then [(0, {| status := include_status |})] else [] |}.

(** An environment in which a line without a name is not a cookie and
    the delegate refuses the cookie named "blocked". *)
Definition example_env : Environment :=
  {| kAcceptLanguageHeader := true;
     ParseEncodingType := ParseEncodingTypeModel;
     CreateBrotliSourceStream_ok := fun _ => true;
     GzipSourceStream_Create_ok := fun _ _ => true;
     CanonicalCookie_Create := fun _ line _ =>
       if bool_decide (line = "")
       then (None, {| exclusion_reasons := [EXCLUDE_UNKNOWN_ERROR];
                      warning_reasons := [] |})
       else (Some {| Name := line; Value := "1"; Domain := "example.com";
                     Path := "/" |}, include_status);
     CanSetCookie := fun c _ => negb (bool_decide (Name c = "blocked"));
     AnnotateAndMoveUserBlockedCookies := fun included excluded =>
       (included, excluded);
     BuildCookieLine := fun l =>
       String.concat "; " (map (fun c => Name (cookie c) +:+ "=" +:+ Value (cookie c)) l);
     ComputeSameSiteContextForRequest := fun _ _ =>
       {| AffectedByBugfix1166211 := false |};
     ComputeSameSiteContextForResponse := fun _ _ =>
       {| AffectedByBugfix1166211 := false |};
     MaybeApplyBugfix1166211Warning := fun _ s => s |}.

Definition example_url (sch h p q : string) : GURL :=
  {| is_valid := true;
     spec := sch +:+ "://" +:+ h +:+ p;
     scheme := sch; host := h; path := p; query := q;
     HostIsIPAddress := false; IsLocalhost := false |}.

Definition invalid_url : GURL :=
  {| is_valid := false; spec := ""; scheme := ""; host := ""; path := "";
     query := ""; HostIsIPAddress := false; IsLocalhost := false |}.

Definition https_example : GURL := example_url "https" "example.com" "/" "".

Definition ftp_example : GURL := example_url "ftp" "example.com" "/" "".

(** A URL that did not parse keeps the components that were read off it:
    "http:google.com:foo" is not valid, and its scheme is http. *)
Definition invalid_http_location : GURL :=
  {| is_valid := false; spec := "http://google.com:foo/"; scheme := "http";
     host := "google.com"; path := "/"; query := "";
     HostIsIPAddress := false; IsLocalhost := false |}.

Definition example_context : URLRequestContext :=
  {| cookie_store := Some example_store;
     transport_security_state := Some {| ShouldSSLErrorsBeFatal := fun _ => false |};
     job_factory := None;
     enable_brotli := true |}.

Definition example_request (u ref : GURL) : URLRequest :=
  {| url := u; referrer := ref; method := "GET"; load_flags := 0;
     privacy_mode := PRIVACY_MODE_DISABLED;
     allow_credentials := true;
     force_ignore_site_for_cookies := false;
     is_main_frame_request := true;
     request_same_party_context := 0;
     party_context_size := None;
     Supports := fun _ => true;
     accepted_stream_types := None;
     response_headers := None;
     context := example_context;
     maybe_sent_cookies := [];
     maybe_stored_cookies := [] |}.

(** A job as its constructor leaves it, for the request [r] and with the
    extra headers [h] that SetExtraRequestHeaders copied in. *)
Definition new_job (r : URLRequest) (h : HttpRequestHeaders.t) : Job :=
  {| env := example_env;
     request_ := r;
     http_user_agent_settings_ :=
       Some {| GetAcceptLanguage := "en-US,en"; GetUserAgent := "DefaultAgent/1.0" |};
     request_info_ :=
       {| info_url := invalid_url; info_method := ""; info_load_flags := 0;
          info_privacy_mode := PRIVACY_MODE_DISABLED; extra_headers := h |};
     num_cookie_lines_left_ := 0;
     set_cookie_access_result_list_ := [];
     transaction_ := None;
     response_info_ := None;
     override_response_headers_ := None;
     receive_headers_end_ := None;
     proxy_auth_state_ := AUTH_STATE_DONT_NEED_AUTH;
     server_auth_state_ := AUTH_STATE_DONT_NEED_AUTH;
     auth_credentials_ := empty_credentials;
     read_in_progress_ := false;
     done_ := false;
     postfilter_bytes_read := 0;
     pending_set_cookie := [];
     trace := [] |}.

Definition example_ssl_info : SSLInfo := {| ssl_is_valid := true; cert_status := 0 |}.

Definition example_headers (code : Z) (lines : list (string * string))
  : HttpResponseHeaders :=
  {| response_code := code; entries := lines; GetContentLength := (-1);
     GetDateValue := None |}.

(** A job whose transaction has delivered the response headers [h] for
    the URL [u]; [seen] tells whether NotifyHeadersComplete has already
    taken the response info. *)
Definition job_with_response (u : GURL) (h : HttpResponseHeaders) (seen : bool) : Job :=
  let info := {| headers := h; ssl_info := example_ssl_info; was_cached := false |} in
  let j := new_job (example_request u invalid_url) ∅ in
  set_request_info_
    {| info_url := u; info_method := "GET"; info_load_flags := 0;
       info_privacy_mode := PRIVACY_MODE_DISABLED; extra_headers := ∅ |}
    (set_response_info_ (if seen then Some info else None)
       {| env := env j; request_ := request_ j;
          http_user_agent_settings_ := http_user_agent_settings_ j;
          request_info_ := request_info_ j;
          num_cookie_lines_left_ := 0;
          set_cookie_access_result_list_ := [];
          transaction_ :=
            Some {| GetResponseInfo := Some info; IsReadyToRestartForAuth := false |};
          response_info_ := None;
          override_response_headers_ := None;
          receive_headers_end_ := Some 1%Z;
          proxy_auth_state_ := AUTH_STATE_DONT_NEED_AUTH;
          server_auth_state_ := AUTH_STATE_DONT_NEED_AUTH;
          auth_credentials_ := empty_credentials;
          read_in_progress_ := false;
          done_ := false;
          postfilter_bytes_read := 0;
          pending_set_cookie := [];
          trace := [] |}).

(** The job of a fresh request for https://example.com/, without extra
    headers; its context has no job factory. *)
Definition example_job : Job :=
  new_job (example_request https_example invalid_url) ∅.

(** A job that has taken a 407 response. *)
Definition job_407 : Job :=
  job_with_response https_example (example_headers 407 []) true.

(** A job in its read loop: the request has seen response headers that
    declare [content_length], and [post] bytes have left the decoders. *)
Definition job_reading (content_length post : Z) : Job :=
  let j := job_with_response https_example (example_headers 200 []) true in
  let r := request_ j in
  {| env := env j;
     request_ :=
       {| url := url r; referrer := referrer r; method := method r;
          load_flags := load_flags r; privacy_mode := privacy_mode r;
          allow_credentials := allow_credentials r;
          force_ignore_site_for_cookies := force_ignore_site_for_cookies r;
          is_main_frame_request := is_main_frame_request r;
          request_same_party_context := request_same_party_context r;
          party_context_size := party_context_size r;
          Supports := Supports r;
          accepted_stream_types := accepted_stream_types r;
          response_headers :=
            Some {| response_code := 200; entries := [];
                    GetContentLength := content_length; GetDateValue := None |};
          context := context r;
          maybe_sent_cookies := maybe_sent_cookies r;
          maybe_stored_cookies := maybe_stored_cookies r |};
     http_user_agent_settings_ := http_user_agent_settings_ j;
     request_info_ := request_info_ j;
     num_cookie_lines_left_ := num_cookie_lines_left_ j;
     set_cookie_access_result_list_ := set_cookie_access_result_list_ j;
     transaction_ := transaction_ j;
     response_info_ := response_info_ j;
     override_response_headers_ := override_response_headers_ j;
     receive_headers_end_ := receive_headers_end_ j;
     proxy_auth_state_ := proxy_auth_state_ j;
     server_auth_state_ := server_auth_state_ j;
     auth_credentials_ := auth_credentials_ j;
     read_in_progress_ := true;
     done_ := false;
     postfilter_bytes_read := post;
     pending_set_cookie := [];
     trace := [] |}.

(** A response with two Strict-Transport-Security lines. *)
Definition hsts_headers : HttpResponseHeaders :=
  example_headers 200
    [("Content-Type", "text/html");
     ("Strict-Transport-Security", "max-age=31536000");
     ("strict-transport-security", "max-age=0")].

Definition job_hsts : Job := job_with_response https_example hsts_headers true.

(** The same response from the literal address 203.0.113.5. *)
Definition ip_literal_url : GURL :=
  {| is_valid := true; spec := "https://203.0.113.5/"; scheme := "https";
     host := "203.0.113.5"; path := "/"; query := "";
     HostIsIPAddress := true; IsLocalhost := false |}.

Definition job_hsts_ip : Job := job_with_response ip_literal_url hsts_headers true.

(** A response whose body was compressed with gzip and then with br. *)
Definition job_gzip_br : Job :=
  job_with_response https_example
    (example_headers 200 [("Content-Encoding", "gzip"); ("Content-Encoding", "br")])
    true.

Definition job_unknown_gzip : Job :=
  job_with_response https_example
    (example_headers 200 [("Content-Encoding", "unknown"); ("Content-Encoding", "gzip")])
    true.

Definition gzip_br_headers : HttpResponseHeaders :=
  example_headers 200 [("Content-Encoding", "gzip"); ("Content-Encoding", "br")].

(** The response info of [job_with_response u h seen]. *)
Definition example_info (h : HttpResponseHeaders) : HttpResponseInfo :=
  {| headers := h; ssl_info := example_ssl_info; was_cached := false |}.

(** A request to www.facebook.com whose caller has set its own
    User-Agent. *)
Definition job_facebook : Job :=
  new_job (example_request (example_url "https" "www.facebook.com" "/" "") invalid_url)
    (SetHeader "User-Agent" "Custom/1.0" ∅).

(** A request whose host contains both news.google.com and facebook.com,
    for the path that the News test looks for. *)
Definition job_news_under_facebook : Job :=
  new_job
    (example_request
       (example_url "https" "news.google.com.facebook.com"
          ("/topics/" +:+ kGoogleNewsPath) "")
       invalid_url)
    ∅.

Definition job_news : Job :=
  new_job
    (example_request
       (example_url "https" "news.google.com" ("/topics/" +:+ kGoogleNewsPath) "")
       invalid_url)
    ∅.

(** A request to an amazon host with kbdirect in its query, sent with a
    valid referrer. *)
Definition job_amazon : Job :=
  new_job
    (example_request
       (example_url "https" "www.amazon.com" "/dp/1" "tag=kbdirect")
       https_example)
    ∅.

(** A request with a valid referrer and nothing special about its
    host. *)
Definition job_referred : Job :=
  new_job (example_request https_example (example_url "https" "referrer.example" "/" "")) ∅.

(** A job that has sent the cookie a=1 and now holds a 401 response. *)
Definition job_401_with_cookie : Job :=
  with_extra_headers
    (SetHeader kCookie "a=1" (SetHeader "Accept" "*/*" ∅))
    (job_with_response https_example (example_headers 401 []) true).

(** A response with six Set-Cookie lines: one that does not parse, one
    that the delegate refuses, one that the jar stores at once, one whose
    call the jar completes during the call for the next, and two whose
    calls are outstanding when the loop ends. *)
Definition set_cookie_headers : HttpResponseHeaders :=
  example_headers 200
    [("Set-Cookie", ""); ("Set-Cookie", "blocked"); ("Set-Cookie", "now");
     ("Content-Type", "text/html");
     ("Set-Cookie", "later1"); ("Set-Cookie", "first"); ("set-cookie", "later2")].

Definition job_set_cookie : Job :=
  job_with_response https_example set_cookie_headers false.

Definition stored : CookieAccessResult := {| status := include_status |}.

(** The jar answers its second outstanding call first. *)
Definition out_of_order : list (nat * CookieAccessResult) :=
  [(1, stored); (0, stored)].

(** ** Further vocabulary and sample jobs *)

(** The connection is fit for Expect-CT ingestion; unlike for HSTS, the
    host is not looked at. *)
Definition expect_ct_accepted (j : Job) (info : HttpResponseInfo) : Prop :=
  ssl_is_valid (ssl_info info) = true /\
  Z.land CERT_STATUS_ALL_ERRORS (cert_status (ssl_info info)) = 0%Z /\
  is_Some (transport_security_state (context (request_ j))).

(** The calls into the transport security state. *)
Definition is_security_state_call (e : Event) : Prop :=
  (exists host value, e = AddHSTSHeader host value) \/
  (exists value, e = ProcessExpectCT value).


(** A response with two Expect-CT lines, from a literal address. *)
Definition expect_ct_headers : HttpResponseHeaders :=
  example_headers 200
    [("Expect-CT", "max-age=86400"); ("Content-Type", "text/html");
     ("expect-ct", "enforce")].

Definition job_expect_ct : Job := job_with_response ip_literal_url expect_ct_headers true.

(** The line is not offered to the jar: it is no cookie, or the delegate
    refuses the cookie it parses to. *)
Definition line_refused (e : Environment) (u : GURL) (options : CookieOptions)
  (server_time : option Z) (line : string) : Prop :=
  let created := CanonicalCookie_Create e u line server_time in
  IsInclude (snd created) = false \/
  exists c, fst created = Some c /\ CanSetCookie e c options = false.


(** The job inside the loop over its Set-Cookie lines, before the first
    line. *)
Definition job_in_loop : Job := set_num_cookie_lines_left_ 1 job_set_cookie.

Definition example_options : CookieOptions :=
  CreateCookieOptions {| AffectedByBugfix1166211 := false |} 0 None false.

(** A request in privacy mode, and two cookies the jar has for it. *)
Definition job_private : Job :=
  set_request_info_
    {| info_url := https_example; info_method := "GET"; info_load_flags := 0;
       info_privacy_mode := PRIVACY_MODE_ENABLED; extra_headers := ∅ |}
    example_job.

Definition cookie_a : CookieWithAccessResult :=
  {| cookie := {| Name := "a"; Value := "1"; Domain := "example.com"; Path := "/" |};
     access_result := stored |}.

Definition cookie_b : CookieWithAccessResult :=
  {| cookie := {| Name := "b"; Value := "2"; Domain := "example.com"; Path := "/" |};
     access_result :=
       {| status := {| exclusion_reasons := [EXCLUDE_OTHER 7]; warning_reasons := [] |} |} |}.

(** ** Further methods and helpers *)

(** Further error codes, with the values of net/base/net_error_list.h. *)
Definition ERR_CLEARTEXT_NOT_PERMITTED : Z := -29.
Definition ERR_SSL_CLIENT_AUTH_CERT_NEEDED : Z := -110.
Definition ERR_TEMPORARILY_THROTTLED : Z := -139.
Definition ERR_CERT_KNOWN_INTERCEPTION_BLOCKED : Z := -217.
Definition ERR_DISALLOWED_URL_SCHEME : Z := -301.

(** Two's complement wrap-around of an [int64_t]. *)
Definition INT64_MIN : Z := -9223372036854775808.
Definition wrap_int64 (z : Z) : Z := ((z - INT64_MIN) mod 2 ^ 64 + INT64_MIN)%Z.

Definition SchemeIsWSOrWSS (u : GURL) : bool :=
  bool_decide (scheme u = "ws") || bool_decide (scheme u = "wss").

Definition set_transaction_ (v : option HttpTransaction) (j : Job) : Job :=
  {| env := env j;
     request_ := request_ j;
     http_user_agent_settings_ := http_user_agent_settings_ j;
     request_info_ := request_info_ j;
     num_cookie_lines_left_ := num_cookie_lines_left_ j;
     set_cookie_access_result_list_ := set_cookie_access_result_list_ j;
     transaction_ := v;
     response_info_ := response_info_ j;
     override_response_headers_ := override_response_headers_ j;
     receive_headers_end_ := receive_headers_end_ j;
     proxy_auth_state_ := proxy_auth_state_ j;
     server_auth_state_ := server_auth_state_ j;
     auth_credentials_ := auth_credentials_ j;
     read_in_progress_ := read_in_progress_ j;
     done_ := done_ j;
     postfilter_bytes_read := postfilter_bytes_read j;
     pending_set_cookie := pending_set_cookie j;
     trace := trace j |}.

(** The loop of the anonymous-namespace helper [LogTrustAnchor], with
    net::GetNetTrustAnchorHistogramIdForSPKI as [GetId]: the value of
    [id] when the loop is left. *)
Fixpoint TrustAnchorId {Hash : Type} (GetId : Hash -> Z) (spki_hashes : list Hash)
  (id : Z) : Z :=
  match spki_hashes with
  | [] => id
  | hash :: rest =>
      let id := GetId hash in
      if negb (id =? 0)%Z then id else TrustAnchorId GetId rest id
  end.

(** The sample that [LogTrustAnchor] records in
    Net.Certificate.TrustAnchor.Request, if it records one. *)
Definition LogTrustAnchor {Hash : Type} (GetId : Hash -> Z) (spki_hashes : list Hash)
  : option Z :=
  match spki_hashes with
  | [] => None
  | _ => Some (TrustAnchorId GetId spki_hashes 0%Z)
  end.

(** What [URLRequestHttpJob::Create] returns.  The redirect job is given
    by the URL and the scheme that replaces its scheme. *)
Inductive CreatedJob :=
  | URLRequestRedirectJob (original : GURL) (scheme_replacement : string)
      (response_code : Z) (redirect_reason : string)
  | URLRequestErrorJob (error : Z)
  | NewURLRequestHttpJob.

(** The Android part of Create(), compiled in under OS_ANDROID. *)
Record CleartextPolicy := {
  check_cleartext_permitted : bool;
  IsCleartextPermitted : string -> bool
}.

(** [ShouldUpgradeToSSL] is the answer of the request context's
    transport security state; [android] is [None] off Android. *)
Definition Create (r : URLRequest) (ShouldUpgradeToSSL : string -> bool)
  (android : option CleartextPolicy) : CreatedJob :=
  let url := url r in
  if negb (SchemeIsCryptographic url) then
    let hsts := transport_security_state (context r) in
    if bool_decide (is_Some hsts) && ShouldUpgradeToSSL (host url) then
      URLRequestRedirectJob url
        (if bool_decide (scheme url = "http") then "https" else "wss")
        307 "HSTS"
    else
      match android with
      | Some policy =>
          if check_cleartext_permitted policy &&
             negb (IsCleartextPermitted policy (host url))
          then URLRequestErrorJob ERR_CLEARTEXT_NOT_PERMITTED
          else NewURLRequestHttpJob
      | None => NewURLRequestHttpJob
      end
  else NewURLRequestHttpJob.

(** [ReadRawData(buf, buf_size)]; [read] is what transaction_->Read
    returns. *)
Definition ReadRawData (read : Z) : M Z :=
  let* t := gets transaction_ in
  let* _ := deref t in
  let rv := read in
  let* fix_length := ShouldFixMismatchedContentLength rv in
  let rv := if fix_length then OK else rv in
  when ((rv =? 0) || ((rv <? 0) && negb (rv =? ERR_IO_PENDING)))%Z DoneWithRequest;;
  when (rv =? ERR_IO_PENDING)%Z (modify (set_read_in_progress_ true));;
  ret rv.

(** [URLRequestHttpJob::GetResponseInfo(info)]: the result is [*info]
    as the method leaves it. *)
Definition URLRequestHttpJob_GetResponseInfo (info : HttpResponseInfo)
  : M HttpResponseInfo :=
  let* response_info := gets response_info_ in
  match response_info with
  | Some response =>
      let* override := gets override_response_headers_ in
      match override with
      | Some h =>
          ret {| headers := h; ssl_info := ssl_info response;
                 was_cached := was_cached response |}
      | None => ret response
      end
  | None => ret info
  end.

(** A plain-http request, and a request for a WebSocket. *)
Definition http_example : GURL := example_url "http" "example.com" "/" "".

Definition ws_example : GURL := example_url "ws" "example.com" "/chat" "".

(** A table of trust anchor ids: the hash "root" is known under 42. *)
Definition example_anchor_ids (hash : string) : Z :=
  if bool_decide (hash = "root") then 42 else 0.

(** ** The job with its transaction *)

(** The part of URLRequestHttpJob that creates, starts, restarts and
    destroys the transaction, on top of the job followed so far.  The
    declarations of this part are in the module [URLRequestHttpJob]. *)

Module URLRequestHttpJob.

(** The throttler entry's answer for this request. *)
Record URLRequestThrottlerEntry := { ShouldRejectRequest : bool }.

(** The network delegate.  NotifyBeforeStartTransaction is given the
    outgoing headers and answers with a result and the headers as it
    leaves them.  NotifyHeadersReceived is given the response headers and
    the override headers the job holds, and answers with a result and
    the values it leaves in the two out-parameters,
    override_response_headers_ and preserve_fragment_on_redirect_url_.
    Both are handed a callback for later, should the result be
    ERR_IO_PENDING; what they write to the out-parameters is taken as
    written when they return. *)
Record NetworkDelegate := {
  NotifyBeforeStartTransaction : HttpRequestHeaders.t -> Z * HttpRequestHeaders.t;
  NotifyHeadersReceived :
    HttpResponseHeaders -> option HttpResponseHeaders ->
    Z * option HttpResponseHeaders * option GURL
}.

(** What the transaction answers to the calls of this part. *)
Record TransactionAnswers := {
  Start_result : Z;
  RestartWithAuth_result : AuthCredentials -> Z;
  RestartWithCertificate_result : Z;
  RestartIgnoringLastError_result : Z;
  TransactionReceivedBytes : Z;
  TransactionSentBytes : Z
}.

(** [CreateTransaction(priority, &transaction_)]: the result, and the
    transaction it leaves in [transaction_], if any. *)
Record HttpTransactionFactory := {
  CreateTransaction : Z -> Z * option (HttpTransaction * TransactionAnswers)
}.

(** The tasks that the job posts to the task runner of its thread. *)
Inductive Task :=
  | RunOnStartCompleted (result : Z)
  | RunNotifyStartError (result : Z).

(** The calls of this part to the collaborators. *)
Inductive Call :=
  (* network_delegate->NotifyBeforeStartTransaction, with the number the
     weak pointer of its callback carries *)
  | CallNotifyBeforeStartTransaction (weak : nat)
  (* network_delegate->NotifyHeadersReceived, likewise *)
  | CallNotifyHeadersReceived (weak : nat)
  | CallCreateTransaction (priority : Z)
  | CallSetWebSocketHandshakeStreamCreateHelper
  (* transaction_->Start(&request_info_, ...) *)
  | CallTransactionStart (info : HttpRequestInfo)
  | CallRestartWithAuth (credentials : AuthCredentials)
  | CallRestartWithCertificate
  | CallRestartIgnoringLastError
  | CallSetPriority (priority : Z)
  (* NotifySSLCertificateError(result, ssl_info, fatal) *)
  | CallNotifySSLCertificateError (result : Z) (fatal : bool)
  | CallNotifyCertificateRequested
  (* URLRequestJob::Kill() of the base class *)
  | CallURLRequestJobKill.

Record HttpJob := {
  (* the members and collaborators of [Job] *)
  job : Job;
  priority_ : Z;
  awaiting_callback_ : bool;
  total_received_bytes_from_previous_transactions_ : Z;
  total_sent_bytes_from_previous_transactions_ : Z;
  preserve_fragment_on_redirect_url_ : option GURL;
  throttling_entry_ : option URLRequestThrottlerEntry;
  (* weak_factory_: the number of times its weak pointers have been
     invalidated; a callback bound to a weak pointer carries the number
     of the moment it was bound *)
  weak_generation : nat;
  (* request()->network_delegate() *)
  network_delegate : option NetworkDelegate;
  (* request_->context()->http_transaction_factory() *)
  http_transaction_factory : HttpTransactionFactory;
  (* request_->GetUserData(kWebSocketHandshakeUserDataKey) is not null *)
  websocket_handshake_data : bool;
  (* what the transaction behind transaction_ answers, while there is one *)
  transaction_answers : TransactionAnswers;
  (* net::IsCertificateError, declared in net/base/net_errors.h *)
  IsCertificateError : Z -> bool;
  (* base::TimeTicks::Now() *)
  clock : Z;
  (* the tasks posted to the thread's task runner and not yet run, the
     oldest first, each with the number its weak pointer carries *)
  posted : list (nat * Task);
  (* the calls made to the collaborators named in [Call], the oldest first *)
  calls : list Call
}.

Definition set_job (v : Job) (s : HttpJob) : HttpJob :=
  {| job := v;
     priority_ := priority_ s;
     awaiting_callback_ := awaiting_callback_ s;
     total_received_bytes_from_previous_transactions_ := total_received_bytes_from_previous_transactions_ s;
     total_sent_bytes_from_previous_transactions_ := total_sent_bytes_from_previous_transactions_ s;
     preserve_fragment_on_redirect_url_ := preserve_fragment_on_redirect_url_ s;
     throttling_entry_ := throttling_entry_ s;
     weak_generation := weak_generation s;
     network_delegate := network_delegate s;
     http_transaction_factory := http_transaction_factory s;
     websocket_handshake_data := websocket_handshake_data s;
     transaction_answers := transaction_answers s;
     IsCertificateError := IsCertificateError s;
     clock := clock s;
     posted := posted s;
     calls := calls s |}.

Definition set_priority_ (v : Z) (s : HttpJob) : HttpJob :=
  {| job := job s;
     priority_ := v;
     awaiting_callback_ := awaiting_callback_ s;
     total_received_bytes_from_previous_transactions_ := total_received_bytes_from_previous_transactions_ s;
     total_sent_bytes_from_previous_transactions_ := total_sent_bytes_from_previous_transactions_ s;
     preserve_fragment_on_redirect_url_ := preserve_fragment_on_redirect_url_ s;
     throttling_entry_ := throttling_entry_ s;
     weak_generation := weak_generation s;
     network_delegate := network_delegate s;
     http_transaction_factory := http_transaction_factory s;
     websocket_handshake_data := websocket_handshake_data s;
     transaction_answers := transaction_answers s;
     IsCertificateError := IsCertificateError s;
     clock := clock s;
     posted := posted s;
     calls := calls s |}.

Definition set_awaiting_callback_ (v : bool) (s : HttpJob) : HttpJob :=
  {| job := job s;
     priority_ := priority_ s;
     awaiting_callback_ := v;
     total_received_bytes_from_previous_transactions_ := total_received_bytes_from_previous_transactions_ s;
     total_sent_bytes_from_previous_transactions_ := total_sent_bytes_from_previous_transactions_ s;
     preserve_fragment_on_redirect_url_ := preserve_fragment_on_redirect_url_ s;
     throttling_entry_ := throttling_entry_ s;
     weak_generation := weak_generation s;
     network_delegate := network_delegate s;
     http_transaction_factory := http_transaction_factory s;
     websocket_handshake_data := websocket_handshake_data s;
     transaction_answers := transaction_answers s;
     IsCertificateError := IsCertificateError s;
     clock := clock s;
     posted := posted s;
     calls := calls s |}.

Definition set_total_received_bytes_from_previous_transactions_ (v : Z) (s : HttpJob) : HttpJob :=
  {| job := job s;
     priority_ := priority_ s;
     awaiting_callback_ := awaiting_callback_ s;
     total_received_bytes_from_previous_transactions_ := v;
     total_sent_bytes_from_previous_transactions_ := total_sent_bytes_from_previous_transactions_ s;
     preserve_fragment_on_redirect_url_ := preserve_fragment_on_redirect_url_ s;
     throttling_entry_ := throttling_entry_ s;
     weak_generation := weak_generation s;
     network_delegate := network_delegate s;
     http_transaction_factory := http_transaction_factory s;
     websocket_handshake_data := websocket_handshake_data s;
     transaction_answers := transaction_answers s;
     IsCertificateError := IsCertificateError s;
     clock := clock s;
     posted := posted s;
     calls := calls s |}.

Definition set_total_sent_bytes_from_previous_transactions_ (v : Z) (s : HttpJob) : HttpJob :=
  {| job := job s;
     priority_ := priority_ s;
     awaiting_callback_ := awaiting_callback_ s;
     total_received_bytes_from_previous_transactions_ := total_received_bytes_from_previous_transactions_ s;
     total_sent_bytes_from_previous_transactions_ := v;
     preserve_fragment_on_redirect_url_ := preserve_fragment_on_redirect_url_ s;
     throttling_entry_ := throttling_entry_ s;
     weak_generation := weak_generation s;
     network_delegate := network_delegate s;
     http_transaction_factory := http_transaction_factory s;
     websocket_handshake_data := websocket_handshake_data s;
     transaction_answers := transaction_answers s;
     IsCertificateError := IsCertificateError s;
     clock := clock s;
     posted := posted s;
     calls := calls s |}.

Definition set_preserve_fragment_on_redirect_url_ (v : option GURL) (s : HttpJob) : HttpJob :=
  {| job := job s;
     priority_ := priority_ s;
     awaiting_callback_ := awaiting_callback_ s;
     total_received_bytes_from_previous_transactions_ := total_received_bytes_from_previous_transactions_ s;
     total_sent_bytes_from_previous_transactions_ := total_sent_bytes_from_previous_transactions_ s;
     preserve_fragment_on_redirect_url_ := v;
     throttling_entry_ := throttling_entry_ s;
     weak_generation := weak_generation s;
     network_delegate := network_delegate s;
     http_transaction_factory := http_transaction_factory s;
     websocket_handshake_data := websocket_handshake_data s;
     transaction_answers := transaction_answers s;
     IsCertificateError := IsCertificateError s;
     clock := clock s;
     posted := posted s;
     calls := calls s |}.

Definition set_weak_generation (v : nat) (s : HttpJob) : HttpJob :=
  {| job := job s;
     priority_ := priority_ s;
     awaiting_callback_ := awaiting_callback_ s;
     total_received_bytes_from_previous_transactions_ := total_received_bytes_from_previous_transactions_ s;
     total_sent_bytes_from_previous_transactions_ := total_sent_bytes_from_previous_transactions_ s;
     preserve_fragment_on_redirect_url_ := preserve_fragment_on_redirect_url_ s;
     throttling_entry_ := throttling_entry_ s;
     weak_generation := v;
     network_delegate := network_delegate s;
     http_transaction_factory := http_transaction_factory s;
     websocket_handshake_data := websocket_handshake_data s;
     transaction_answers := transaction_answers s;
     IsCertificateError := IsCertificateError s;
     clock := clock s;
     posted := posted s;
     calls := calls s |}.

Definition set_transaction_answers (v : TransactionAnswers) (s : HttpJob) : HttpJob :=
  {| job := job s;
     priority_ := priority_ s;
     awaiting_callback_ := awaiting_callback_ s;
     total_received_bytes_from_previous_transactions_ := total_received_bytes_from_previous_transactions_ s;
     total_sent_bytes_from_previous_transactions_ := total_sent_bytes_from_previous_transactions_ s;
     preserve_fragment_on_redirect_url_ := preserve_fragment_on_redirect_url_ s;
     throttling_entry_ := throttling_entry_ s;
     weak_generation := weak_generation s;
     network_delegate := network_delegate s;
     http_transaction_factory := http_transaction_factory s;
     websocket_handshake_data := websocket_handshake_data s;
     transaction_answers := v;
     IsCertificateError := IsCertificateError s;
     clock := clock s;
     posted := posted s;
     calls := calls s |}.

Definition set_posted (v : list (nat * Task)) (s : HttpJob) : HttpJob :=
  {| job := job s;
     priority_ := priority_ s;
     awaiting_callback_ := awaiting_callback_ s;
     total_received_bytes_from_previous_transactions_ := total_received_bytes_from_previous_transactions_ s;
     total_sent_bytes_from_previous_transactions_ := total_sent_bytes_from_previous_transactions_ s;
     preserve_fragment_on_redirect_url_ := preserve_fragment_on_redirect_url_ s;
     throttling_entry_ := throttling_entry_ s;
     weak_generation := weak_generation s;
     network_delegate := network_delegate s;
     http_transaction_factory := http_transaction_factory s;
     websocket_handshake_data := websocket_handshake_data s;
     transaction_answers := transaction_answers s;
     IsCertificateError := IsCertificateError s;
     clock := clock s;
     posted := v;
     calls := calls s |}.

Definition set_calls (v : list Call) (s : HttpJob) : HttpJob :=
  {| job := job s;
     priority_ := priority_ s;
     awaiting_callback_ := awaiting_callback_ s;
     total_received_bytes_from_previous_transactions_ := total_received_bytes_from_previous_transactions_ s;
     total_sent_bytes_from_previous_transactions_ := total_sent_bytes_from_previous_transactions_ s;
     preserve_fragment_on_redirect_url_ := preserve_fragment_on_redirect_url_ s;
     throttling_entry_ := throttling_entry_ s;
     weak_generation := weak_generation s;
     network_delegate := network_delegate s;
     http_transaction_factory := http_transaction_factory s;
     websocket_handshake_data := websocket_handshake_data s;
     transaction_answers := transaction_answers s;
     IsCertificateError := IsCertificateError s;
     clock := clock s;
     posted := posted s;
     calls := v |}.

(** The methods of this part, in a monad like [M]. *)
Definition MJ (A : Type) : Type := HttpJob -> option (A * HttpJob).

Definition retJ {A} (a : A) : MJ A := fun s => Some (a, s).

Definition bindJ {A B} (m : MJ A) (k : A -> MJ B) : MJ B :=
  fun s => match m s with
           | Some (a, s') => k a s'
           | None => None
           end.

Definition failJ {A} : MJ A := fun _ => None.

Definition getsJ {A} (f : HttpJob -> A) : MJ A := fun s => Some (f s, s).

Definition modifyJ (f : HttpJob -> HttpJob) : MJ unit := fun s => Some (tt, f s).

Definition derefJ {A} (p : option A) : MJ A :=
  match p with
  | Some a => retJ a
  | None => failJ
  end.

(** A method of [Job], run on the job inside. *)
Definition lift {A} (m : M A) : MJ A :=
  fun s => match m (job s) with
           | Some (a, j') => Some (a, set_job j' s)
           | None => None
           end.

Definition call (c : Call) : MJ unit :=
  modifyJ (fun s => set_calls (calls s ++ [c]) s).

Declare Scope http_job_scope.
Delimit Scope http_job_scope with http_job.

Notation "'let*' x ':=' m 'in' k" := (bindJ m (fun x => k))
  (at level 10, x name, m at level 100, k at level 200) : http_job_scope.
Notation "m ';;' k" := (bindJ m (fun _ => k))
  (at level 100, k at level 200, right associativity) : http_job_scope.

Local Open Scope http_job_scope.

(** [PostTask(FROM_HERE, BindOnce(task, weak_factory_.GetWeakPtr(), ...))]. *)
Definition PostTask (task : Task) : MJ unit :=
  let* weak := getsJ weak_generation in
  modifyJ (fun s => set_posted (posted s ++ [(weak, task)]) s).

(** A callback bound to a weak pointer runs only while the pointer has
    not been invalidated. *)
Definition InvokeWeak (weak : nat) (m : MJ unit) : MJ unit :=
  let* current := getsJ weak_generation in
  if (weak =? current)%nat then m else retJ tt.

(** [weak_factory_.InvalidateWeakPtrs()].  The callbacks that the jar
    holds are bound to weak pointers too (see OnSetCookieResult in
    SaveCookiesAndNotifyHeadersComplete): they run nothing from now on,
    and are dropped from the outstanding ones. *)
Definition InvalidateWeakPtrs : MJ unit :=
  modifyJ (fun s => set_weak_generation (S (weak_generation s)) s);;
  lift (modify (set_pending_set_cookie [])).

Definition SetPriority (priority : Z) : MJ unit :=
  modifyJ (set_priority_ priority);;
  let* t := getsJ (fun s => transaction_ (job s)) in
  match t with
  | Some _ => call (CallSetPriority priority)
  | None => retJ tt
  end.

Definition DestroyTransaction : MJ unit :=
  lift DoneWithRequest;;
  let* t := getsJ (fun s => transaction_ (job s)) in
  let* _ := derefJ t in
  let* answers := getsJ transaction_answers in
  modifyJ (fun s =>
    set_total_received_bytes_from_previous_transactions_
      (wrap_int64 (total_received_bytes_from_previous_transactions_ s +
                   TransactionReceivedBytes answers)) s);;
  modifyJ (fun s =>
    set_total_sent_bytes_from_previous_transactions_
      (wrap_int64 (total_sent_bytes_from_previous_transactions_ s +
                   TransactionSentBytes answers)) s);;
  lift (modify (set_transaction_ None));;
  lift (modify (set_response_info_ None));;
  lift (modify (set_override_response_headers_ None));;
  lift (modify (set_receive_headers_end_ None)).

Definition Kill : MJ unit :=
  InvalidateWeakPtrs;;
  let* t := getsJ (fun s => transaction_ (job s)) in
  match t with
  | Some _ => DestroyTransaction
  | None => retJ tt
  end;;
  call CallURLRequestJobKill.

Definition GetTotalReceivedBytes : MJ Z :=
  let* total_received_bytes :=
    getsJ total_received_bytes_from_previous_transactions_ in
  let* t := getsJ (fun s => transaction_ (job s)) in
  match t with
  | Some _ =>
      let* answers := getsJ transaction_answers in
      retJ (wrap_int64 (total_received_bytes + TransactionReceivedBytes answers))
  | None => retJ total_received_bytes
  end.

Definition GetTotalSentBytes : MJ Z :=
  let* total_sent_bytes := getsJ total_sent_bytes_from_previous_transactions_ in
  let* t := getsJ (fun s => transaction_ (job s)) in
  match t with
  | Some _ =>
      let* answers := getsJ transaction_answers in
      retJ (wrap_int64 (total_sent_bytes + TransactionSentBytes answers))
  | None => retJ total_sent_bytes
  end.

Definition StartTransactionInternal : MJ unit :=
  let* t := getsJ (fun s => transaction_ (job s)) in
  let* rv :=
    match t with
    | Some _ =>
        let* credentials := getsJ (fun s => auth_credentials_ (job s)) in
        let* answers := getsJ transaction_answers in
        call (CallRestartWithAuth credentials);;
        lift (modify (set_auth_credentials_ empty_credentials));;
        retJ (RestartWithAuth_result answers credentials)
    | None =>
        let* priority := getsJ priority_ in
        let* factory := getsJ http_transaction_factory in
        call (CallCreateTransaction priority);;
        let created := CreateTransaction factory priority in
        match snd created with
        | Some (t, answers) =>
            lift (modify (set_transaction_ (Some t)));;
            modifyJ (set_transaction_answers answers)
        | None => retJ tt
        end;;
        let rv := fst created in
        let* url := getsJ (fun s => info_url (request_info_ (job s))) in
        let* rv :=
          (if (rv =? OK)%Z && SchemeIsWSOrWSS url then
             let* data := getsJ websocket_handshake_data in
             if data then
               let* t := getsJ (fun s => transaction_ (job s)) in
               let* _ := derefJ t in
               call CallSetWebSocketHandshakeStreamCreateHelper;;
               retJ rv
             else retJ ERR_DISALLOWED_URL_SCHEME
           else retJ rv) in
        if (rv =? OK)%Z then
          let* t := getsJ (fun s => transaction_ (job s)) in
          let* _ := derefJ t in
          let* throttling := getsJ throttling_entry_ in
          if match throttling with
             | Some entry => negb (ShouldRejectRequest entry)
             | None => true
             end
          then
            let* info := getsJ (fun s => request_info_ (job s)) in
            let* answers := getsJ transaction_answers in
            call (CallTransactionStart info);;
            retJ (Start_result answers)
          else retJ ERR_TEMPORARILY_THROTTLED
        else retJ rv
    end in
  if (rv =? ERR_IO_PENDING)%Z then retJ tt
  else PostTask (RunOnStartCompleted rv).

Definition MaybeStartTransactionInternal (result : Z) : MJ unit :=
  if (result =? OK)%Z then StartTransactionInternal
  else PostTask (RunNotifyStartError result).

Definition NotifyBeforeStartTransactionCallback (result : Z) : MJ unit :=
  MaybeStartTransactionInternal result.

(** The whole of [StartTransaction()], of which [Job] knows the call
    only. *)
Definition StartTransaction : MJ unit :=
  let* delegate := getsJ network_delegate in
  match delegate with
  | Some network_delegate =>
      let* headers := getsJ (fun s => extra_headers (request_info_ (job s))) in
      let* weak := getsJ weak_generation in
      call (CallNotifyBeforeStartTransaction weak);;
      let answer := NotifyBeforeStartTransaction network_delegate headers in
      lift (modify_extra_headers (fun _ => snd answer));;
      let rv := fst answer in
      if (rv =? ERR_IO_PENDING)%Z then retJ tt
      else MaybeStartTransactionInternal rv
  | None => StartTransactionInternal
  end.

(** Whether a method of [Job] has ended in the call of
    StartTransaction(): the methods that call it (AddCookieHeaderAndStart
    and SetCookieHeaderAndStart, and through them Start,
    RestartTransactionWithAuth, SetAuth and NotifyHeadersComplete) do so
    as their last act. *)
Definition ends_in_StartTransaction (before after : list Event) : bool :=
  (length before <? length after)%nat &&
  match last after with
  | Some CallStartTransaction => true
  | _ => false
  end.

(** A method of [Job] run to its end: where it calls StartTransaction(),
    the start path follows. *)
Definition to_the_end {A} (m : M A) : MJ A :=
  let* before := getsJ (fun s => trace (job s)) in
  let* a := lift m in
  let* after := getsJ (fun s => trace (job s)) in
  (if ends_in_StartTransaction before after then StartTransaction else retJ tt);;
  retJ a.

(** [OnStartCompleted(result)].  The timer, the two histograms about
    the certificate and SetProxyServer are left out. *)
Definition OnStartCompleted (result : Z) : MJ unit :=
  let* done := getsJ (fun s => done_ (job s)) in
  if done then retJ tt
  else
    let* now := getsJ clock in
    lift (modify (set_receive_headers_end_ (Some now)));;
    if (result =? OK)%Z then
      let* headers := lift GetResponseHeaders in
      let* delegate := getsJ network_delegate in
      match delegate with
      | Some network_delegate =>
          modifyJ (set_preserve_fragment_on_redirect_url_ None);;
          let* weak := getsJ weak_generation in
          call (CallNotifyHeadersReceived weak);;
          let* override := getsJ (fun s => override_response_headers_ (job s)) in
          let answer := NotifyHeadersReceived network_delegate headers override in
          lift (modify (set_override_response_headers_ (snd (fst answer))));;
          modifyJ (set_preserve_fragment_on_redirect_url_ (snd answer));;
          let error := fst (fst answer) in
          if negb (error =? OK)%Z then
            if (error =? ERR_IO_PENDING)%Z
            then modifyJ (set_awaiting_callback_ true)
            else lift (emit (NotifyStartError error))
          else to_the_end (SaveCookiesAndNotifyHeadersComplete OK)
      | None => to_the_end (SaveCookiesAndNotifyHeadersComplete OK)
      end
    else
      let* is_certificate_error := getsJ IsCertificateError in
      if is_certificate_error result then
        let* r := getsJ (fun s => request_ (job s)) in
        let* state := derefJ (transport_security_state (context r)) in
        let* t := getsJ (fun s => transaction_ (job s)) in
        let* t := derefJ t in
        let* _ := derefJ (GetResponseInfo t) in
        let* url := getsJ (fun s => info_url (request_info_ (job s))) in
        call (CallNotifySSLCertificateError result
                (ShouldSSLErrorsBeFatal state (host url) &&
                 negb (result =? ERR_CERT_KNOWN_INTERCEPTION_BLOCKED)%Z))
      else if (result =? ERR_SSL_CLIENT_AUTH_CERT_NEEDED)%Z then
        let* t := getsJ (fun s => transaction_ (job s)) in
        let* t := derefJ t in
        let* _ := derefJ (GetResponseInfo t) in
        call CallNotifyCertificateRequested
      else
        let* t := getsJ (fun s => transaction_ (job s)) in
        match t with
        | Some t => lift (modify (set_response_info_ (GetResponseInfo t)))
        | None => retJ tt
        end;;
        lift (emit (NotifyStartError result)).

Definition OnHeadersReceivedCallback (result : Z) : MJ unit :=
  modifyJ (set_awaiting_callback_ false);;
  to_the_end (SaveCookiesAndNotifyHeadersComplete result).

(** The task runner runs the oldest of the posted tasks. *)
Definition RunTask (task : Task) : MJ unit :=
  match task with
  | RunOnStartCompleted result => OnStartCompleted result
  | RunNotifyStartError result => lift (emit (NotifyStartError result))
  end.

Definition RunNextTask : MJ unit :=
  let* tasks := getsJ posted in
  match tasks with
  | (weak, task) :: rest =>
      modifyJ (set_posted rest);;
      InvokeWeak weak (RunTask task)
  | [] => retJ tt
  end.

Definition ContinueWithCertificate : MJ unit :=
  let* t := getsJ (fun s => transaction_ (job s)) in
  let* _ := derefJ t in
  lift (modify (set_receive_headers_end_ None));;
  let* answers := getsJ transaction_answers in
  call CallRestartWithCertificate;;
  let rv := RestartWithCertificate_result answers in
  if (rv =? ERR_IO_PENDING)%Z then retJ tt
  else PostTask (RunOnStartCompleted rv).

Definition ContinueDespiteLastError : MJ unit :=
  let* t := getsJ (fun s => transaction_ (job s)) in
  match t with
  | None => retJ tt
  | Some _ =>
      lift (modify (set_receive_headers_end_ None));;
      let* answers := getsJ transaction_answers in
      call CallRestartIgnoringLastError;;
      let rv := RestartIgnoringLastError_result answers in
      if (rv =? ERR_IO_PENDING)%Z then retJ tt
      else PostTask (RunOnStartCompleted rv)
  end.


Definition NotifyURLRequestDestroyed : MJ unit :=
  modifyJ (set_awaiting_callback_ false).

(** The destructor, with its CHECK(!awaiting_callback_). *)
Definition Destroy : MJ unit :=
  let* awaiting := getsJ awaiting_callback_ in
  if awaiting then failJ else lift DoneWithRequest.

(** The task runner runs [n] tasks, one after the other. *)
Fixpoint RunTasks (n : nat) : MJ unit :=
  match n with
  | 0 => retJ tt
  | S n => RunNextTask;; RunTasks n
  end.

End URLRequestHttpJob.

(** ** Vocabulary and samples for the job with its transaction *)

Section TransactionSamples.

Import URLRequestHttpJob.

(** No posted task carries a number that the weak pointers have not
    reached yet. *)
Definition tasks_from_the_past (s : HttpJob) : Prop :=
  Forall (fun task => fst task <= weak_generation s) (posted s).

(** What a run has added to the calls, [None] when the run stopped. *)
Definition calls_after {A} (run : option (A * HttpJob)) : option (list Call) :=
  match run with
  | Some (_, s) => Some (calls s)
  | None => None
  end.

Definition posted_after {A} (run : option (A * HttpJob)) : option (list (nat * Task)) :=
  match run with
  | Some (_, s) => Some (posted s)
  | None => None
  end.

Definition events_after {A} (run : option (A * HttpJob)) : option (list Event) :=
  match run with
  | Some (_, s) => Some (trace (job s))
  | None => None
  end.

(** net::IsCertificateError as net/base/net_errors.cc has it, for the
    samples: the errors from ERR_CERT_BEGIN (-200) down to, but not
    including, ERR_CERT_END (-219), and ERR_SSL_PINNED_KEY_NOT_IN_CERT_CHAIN
    (-150). *)
Definition IsCertificateErrorModel (error : Z) : bool :=
  ((error <=? -200) && (-219 <? error) || (error =? -150))%Z.

(** A transaction that starts and restarts asynchronously and has
    moved 100 bytes in and 40 out. *)
Definition example_answers : TransactionAnswers :=
  {| Start_result := ERR_IO_PENDING;
     RestartWithAuth_result := fun _ => ERR_IO_PENDING;
     RestartWithCertificate_result := ERR_IO_PENDING;
     RestartIgnoringLastError_result := OK;
     TransactionReceivedBytes := 100;
     TransactionSentBytes := 40 |}.

Definition fresh_transaction : HttpTransaction :=
  {| GetResponseInfo := None; IsReadyToRestartForAuth := false |}.

(** The job [j] with what surrounds it: a factory that makes
    [fresh_transaction], and 1000 bytes received and 500 sent by earlier
    transactions. *)
Definition http_job_in (j : Job) (delegate : option NetworkDelegate)
  (throttling : option URLRequestThrottlerEntry) : HttpJob :=
  {| job := j;
     priority_ := 2;
     awaiting_callback_ := false;
     total_received_bytes_from_previous_transactions_ := 1000;
     total_sent_bytes_from_previous_transactions_ := 500;
     preserve_fragment_on_redirect_url_ := None;
     throttling_entry_ := throttling;
     weak_generation := 0;
     network_delegate := delegate;
     http_transaction_factory :=
       {| CreateTransaction := fun _ => (OK, Some (fresh_transaction, example_answers)) |};
     websocket_handshake_data := false;
     transaction_answers := example_answers;
     IsCertificateError := IsCertificateErrorModel;
     clock := 7;
     posted := [];
     calls := [] |}.

(** The same without delegate and without throttling. *)
Definition http_job (j : Job) : HttpJob := http_job_in j None None.


(** A plain request as Start() has set it up. *)
Definition job_started : Job :=
  set_request_info_
    {| info_url := https_example; info_method := "GET"; info_load_flags := 0;
       info_privacy_mode := PRIVACY_MODE_DISABLED; extra_headers := ∅ |}
    example_job.

(** A delegate that blocks every request with ERR_BLOCKED_BY_CLIENT
    (-20), and one that lets the request start and the headers through
    after thinking about them. *)
Definition blocking_delegate : NetworkDelegate :=
  {| NotifyBeforeStartTransaction := fun h => ((-20)%Z, h);
     NotifyHeadersReceived := fun _ override => ((-20)%Z, override, None) |}.

Definition deferring_delegate : NetworkDelegate :=
  {| NotifyBeforeStartTransaction := fun h => (OK, SetHeader "X-Checked" "1" h);
     NotifyHeadersReceived := fun _ override => (ERR_IO_PENDING, override, None) |}.

(** A job whose transaction has completed at once: the task that will
    run OnStartCompleted(OK) waits in the task runner. *)
Definition job_with_posted_task : HttpJob :=
  set_posted [(0, RunOnStartCompleted OK)] (http_job job_set_cookie).

(** The request [r] without the permission to use credentials. *)
Definition without_credentials (r : URLRequest) : URLRequest :=
  {| url := url r; referrer := referrer r; method := method r;
     load_flags := load_flags r; privacy_mode := privacy_mode r;
     allow_credentials := false;
     force_ignore_site_for_cookies := force_ignore_site_for_cookies r;
     is_main_frame_request := is_main_frame_request r;
     request_same_party_context := request_same_party_context r;
     party_context_size := party_context_size r;
     Supports := Supports r;
     accepted_stream_types := accepted_stream_types r;
     response_headers := response_headers r;
     context := context r;
     maybe_sent_cookies := maybe_sent_cookies r;
     maybe_stored_cookies := maybe_stored_cookies r |}.

(** A 407 response to a request that may not use credentials from the
    jar. *)
Definition job_407_anonymous : Job :=
  set_request_ (without_credentials (request_ job_407)) job_407.

Definition example_credentials : AuthCredentials :=
  {| username := "user"; password := "secret" |}.

(** A context whose transport security state makes every certificate
    error fatal, and a job with a response in it. *)
Definition strict_context : URLRequestContext :=
  {| cookie_store := Some example_store;
     transport_security_state := Some {| ShouldSSLErrorsBeFatal := fun _ => true |};
     job_factory := None;
     enable_brotli := true |}.

Definition with_context (c : URLRequestContext) (r : URLRequest) : URLRequest :=
  {| url := url r; referrer := referrer r; method := method r;
     load_flags := load_flags r; privacy_mode := privacy_mode r;
     allow_credentials := allow_credentials r;
     force_ignore_site_for_cookies := force_ignore_site_for_cookies r;
     is_main_frame_request := is_main_frame_request r;
     request_same_party_context := request_same_party_context r;
     party_context_size := party_context_size r;
     Supports := Supports r;
     accepted_stream_types := accepted_stream_types r;
     response_headers := response_headers r;
     context := c;
     maybe_sent_cookies := maybe_sent_cookies r;
     maybe_stored_cookies := maybe_stored_cookies r |}.

Definition job_strict : Job :=
  set_request_ (with_context strict_context (request_ job_set_cookie)) job_set_cookie.

(** A context without a cookie jar, and in it a job whose transaction
    has met a proxy that wants the connection restarted for
    authentication. *)
Definition context_without_jar : URLRequestContext :=
  {| cookie_store := None;
     transport_security_state := Some {| ShouldSSLErrorsBeFatal := fun _ => false |};
     job_factory := None;
     enable_brotli := true |}.

Definition job_without_jar : Job :=
  set_request_ (with_context context_without_jar (request_ job_set_cookie))
    job_set_cookie.

Definition job_no_jar : Job :=
  set_transaction_
    (Some {| GetResponseInfo := Some (example_info (example_headers 407 []));
             IsReadyToRestartForAuth := true |})
    job_without_jar.



End TransactionSamples.

(** ** Tactics *)

(** Unfolding of the monad's operations. *)
Ltac unfold_monad :=
  cbv beta iota delta [bind ret gets modify fail deref when emit].

(** Two header names, given literally, differ after lower-casing. *)
Ltac names_differ :=
  let H := fresh in intros H; vm_compute in H; discriminate H.

(** Unfolding of the operations of [MJ]. *)
Ltac unfold_monadJ :=
  cbv beta iota delta
    [URLRequestHttpJob.bindJ URLRequestHttpJob.retJ URLRequestHttpJob.getsJ
     URLRequestHttpJob.modifyJ URLRequestHttpJob.failJ URLRequestHttpJob.derefJ
     URLRequestHttpJob.call URLRequestHttpJob.PostTask].

(** The members of a job that has been updated. *)
Ltac members :=
  cbn
    [env request_ http_user_agent_settings_ request_info_
     num_cookie_lines_left_ set_cookie_access_result_list_ transaction_
     response_info_ override_response_headers_ receive_headers_end_
     proxy_auth_state_ server_auth_state_ auth_credentials_ read_in_progress_
     done_ postfilter_bytes_read pending_set_cookie trace set_request_
     set_request_info_ set_num_cookie_lines_left_
     set_set_cookie_access_result_list_ set_transaction_ set_response_info_
     set_override_response_headers_ set_receive_headers_end_
     set_proxy_auth_state_ set_server_auth_state_ set_auth_credentials_
     set_read_in_progress_ set_done_ set_pending_set_cookie set_trace
     URLRequestHttpJob.job URLRequestHttpJob.priority_
     URLRequestHttpJob.awaiting_callback_
     URLRequestHttpJob.total_received_bytes_from_previous_transactions_
     URLRequestHttpJob.total_sent_bytes_from_previous_transactions_
     URLRequestHttpJob.preserve_fragment_on_redirect_url_
     URLRequestHttpJob.throttling_entry_ URLRequestHttpJob.weak_generation
     URLRequestHttpJob.network_delegate
     URLRequestHttpJob.http_transaction_factory
     URLRequestHttpJob.websocket_handshake_data
     URLRequestHttpJob.transaction_answers
     URLRequestHttpJob.IsCertificateError URLRequestHttpJob.clock
     URLRequestHttpJob.posted URLRequestHttpJob.calls
     URLRequestHttpJob.set_job URLRequestHttpJob.set_priority_
     URLRequestHttpJob.set_awaiting_callback_
     URLRequestHttpJob.set_total_received_bytes_from_previous_transactions_
     URLRequestHttpJob.set_total_sent_bytes_from_previous_transactions_
     URLRequestHttpJob.set_preserve_fragment_on_redirect_url_
     URLRequestHttpJob.set_weak_generation
     URLRequestHttpJob.set_transaction_answers URLRequestHttpJob.set_posted
     URLRequestHttpJob.set_calls fst snd].

(** * Properties *)

(** ** Authentication states *)

Lemma GetResponseCode_state j code j' :
  GetResponseCode j = Some (code, j') -> j' = j.
Proof.
  unfold GetResponseCode, GetResponseHeaders. unfold_monad.
  destruct (response_info_ j); [|congruence].
  destruct (override_response_headers_ j); [congruence|].
  destruct (transaction_ j) as [t|]; [|congruence].
  destruct (GetResponseInfo t); congruence.
Qed.

Lemma NeedsAuth_unfold j code :
  GetResponseCode j = Some (code, j) ->
  NeedsAuth j =
    if (code =? -1)%Z then Some (false, j)
    else if (code =? 407)%Z then
      if bool_decide (proxy_auth_state_ j = AUTH_STATE_CANCELED) then Some (false, j)
      else Some (true, set_proxy_auth_state_ AUTH_STATE_NEED_AUTH j)
    else if (code =? 401)%Z then
      if bool_decide (server_auth_state_ j = AUTH_STATE_CANCELED) then Some (false, j)
      else Some (true, set_server_auth_state_ AUTH_STATE_NEED_AUTH j)
    else Some (false, j).
Proof.
  intros H. unfold NeedsAuth. unfold_monad. rewrite H.
  repeat case_match; simplify_eq; reflexivity.
Qed.

(** The response code is read from the response snapshot and the
    headers; the auth states and the trace play no part in it. *)
Lemma GetResponseCode_frame j j' code :
  response_info_ j' = response_info_ j ->
  override_response_headers_ j' = override_response_headers_ j ->
  transaction_ j' = transaction_ j ->
  GetResponseCode j = Some (code, j) ->
  GetResponseCode j' = Some (code, j').
Proof.
  intros H1 H2 H3.
  unfold GetResponseCode, GetResponseHeaders. unfold_monad.
  rewrite H1. destruct (response_info_ j); [|congruence].
  rewrite H2. destruct (override_response_headers_ j); [congruence|].
  rewrite H3. destruct (transaction_ j) as [t|]; [|congruence].
  destruct (GetResponseInfo t); congruence.
Qed.

Lemma CancelAuth_unfold j :
  CancelAuth j =
    Some (tt,
      set_trace (trace j ++ [PostNotifyFinalHeadersReceived])
        (if bool_decide (proxy_auth_state_ j = AUTH_STATE_NEED_AUTH)
         then set_proxy_auth_state_ AUTH_STATE_CANCELED j
         else set_server_auth_state_ AUTH_STATE_CANCELED j)).
Proof.
  unfold CancelAuth. unfold_monad. case_bool_decide; reflexivity.
Qed.

(** C5. NeedsAuth answers true, and marks the matching side as needing
    credentials, exactly for a 407 whose proxy side is not canceled and
    for a 401 whose server side is not canceled; for every other status
    code it answers false and leaves the job as it is.  CancelAuth cancels
    the proxy side when that side needs credentials and the server side
    otherwise, and NeedsAuth then answers false for the status code of the
    side that was canceled. *)
Theorem NeedsAuth_and_CancelAuth (j : Job) (code : Z) :
  GetResponseCode j = Some (code, j) ->
  (exists b j',
     NeedsAuth j = Some (b, j') /\
     (b = true <->
        (code = 407%Z /\ proxy_auth_state_ j <> AUTH_STATE_CANCELED) \/
        (code = 401%Z /\ server_auth_state_ j <> AUTH_STATE_CANCELED)) /\
     (b = true -> code = 407%Z ->
        j' = set_proxy_auth_state_ AUTH_STATE_NEED_AUTH j) /\
     (b = true -> code = 401%Z ->
        j' = set_server_auth_state_ AUTH_STATE_NEED_AUTH j) /\
     (b = false -> j' = j)) /\
  (exists j1,
     CancelAuth j = Some (tt, j1) /\
     GetResponseCode j1 = Some (code, j1) /\
     (proxy_auth_state_ j = AUTH_STATE_NEED_AUTH ->
        proxy_auth_state_ j1 = AUTH_STATE_CANCELED /\
        server_auth_state_ j1 = server_auth_state_ j /\
        (code = 407%Z -> NeedsAuth j1 = Some (false, j1))) /\
     (proxy_auth_state_ j <> AUTH_STATE_NEED_AUTH ->
        server_auth_state_ j1 = AUTH_STATE_CANCELED /\
        proxy_auth_state_ j1 = proxy_auth_state_ j /\
        (code = 401%Z -> NeedsAuth j1 = Some (false, j1)))).
Proof.
  intros Hcode. split.
  - rewrite (NeedsAuth_unfold _ _ Hcode).
    destruct (code =? -1)%Z eqn:E1; [|destruct (code =? 407)%Z eqn:E2;
      [|destruct (code =? 401)%Z eqn:E3]];
      repeat case_bool_decide;
      rewrite ?Z.eqb_eq, ?Z.eqb_neq in *;
      eexists _, _; (split; [reflexivity|]);
      intuition (first [congruence | lia]).
  - rewrite CancelAuth_unfold. eexists; split; [reflexivity|].
    set (j1 := set_trace _ _).
    assert (Hc1 : GetResponseCode j1 = Some (code, j1)).
    { apply (GetResponseCode_frame j); [..|done]; subst j1;
        case_bool_decide; reflexivity. }
    split; [exact Hc1|].
    split; intros Hp.
    + assert (proxy_auth_state_ j1 = AUTH_STATE_CANCELED) as Hq.
      { subst j1. rewrite bool_decide_eq_true_2 by done. reflexivity. }
      split; [exact Hq|]. split.
      { subst j1. rewrite bool_decide_eq_true_2 by done. reflexivity. }
      intros ->. rewrite (NeedsAuth_unfold _ _ Hc1). simpl.
      rewrite bool_decide_eq_true_2 by done. reflexivity.
    + assert (server_auth_state_ j1 = AUTH_STATE_CANCELED) as Hq.
      { subst j1. rewrite bool_decide_eq_false_2 by done. reflexivity. }
      split; [exact Hq|]. split.
      { subst j1. rewrite bool_decide_eq_false_2 by done. reflexivity. }
      intros ->. rewrite (NeedsAuth_unfold _ _ Hc1). simpl.
      rewrite bool_decide_eq_true_2 by done. reflexivity.
Qed.


Lemma NeedsAuth_and_CancelAuth_witness :
  GetResponseCode job_407 = Some (407%Z, job_407) /\
  (exists j', NeedsAuth job_407 = Some (true, j') /\
              proxy_auth_state_ j' = AUTH_STATE_NEED_AUTH).
Proof.
  set (j := job_407).
  assert (Hcode : GetResponseCode j = Some (407%Z, j)) by reflexivity.
  split; [exact Hcode|].
  destruct (NeedsAuth_and_CancelAuth j 407 Hcode) as [(b & j' & Hrun & Hb & Hp & _) _].
  assert (b = true) as ->.
  { apply Hb. left. split; [reflexivity|discriminate]. }
  exists j'. split; [exact Hrun|].
  rewrite (Hp eq_refl eq_refl). reflexivity.
Defined.

(** ** Redirects *)

Lemma IsSafeRedirect_unfold location j :
  IsSafeRedirect location j =
    Some (if is_valid location &&
             (bool_decide (scheme location = "http") ||
              bool_decide (scheme location = "https"))
          then true
          else match job_factory (context (request_ j)) with
               | Some factory => IsSafeRedirectTarget factory location
               | None => false
               end, j).
Proof.
  unfold IsSafeRedirect. unfold_monad.
  destruct (is_valid location && _); [reflexivity|].
  destruct (job_factory _); reflexivity.
Qed.

(** C8, as stated, fails: a target whose scheme is http but which is not
    a valid URL is not safe for a job without a job factory. *)
Lemma IsSafeRedirect_http_scheme_not_always_safe :
  scheme invalid_http_location = "http" /\
  job_factory (context (request_ example_job)) = None /\
  IsSafeRedirect invalid_http_location example_job = Some (false, example_job).
Proof. repeat split. Qed.

(** C8, amended.  A valid target whose scheme is http or https is safe
    whatever the job factory says or whether there is one.  Any other
    target is safe exactly when there is a job factory and it approves
    the target; without a job factory it is unsafe. *)
Theorem IsSafeRedirect_spec (j : Job) (location : GURL) :
  (is_valid location = true ->
   scheme location = "http" \/ scheme location = "https" ->
   IsSafeRedirect location j = Some (true, j)) /\
  (~ (is_valid location = true /\
      (scheme location = "http" \/ scheme location = "https")) ->
   exists b,
     IsSafeRedirect location j = Some (b, j) /\
     (b = true <->
      exists factory,
        job_factory (context (request_ j)) = Some factory /\
        IsSafeRedirectTarget factory location = true) /\
     (job_factory (context (request_ j)) = None -> b = false)).
Proof.
  rewrite IsSafeRedirect_unfold. split.
  - intros -> [Hs|Hs]; rewrite Hs; reflexivity.
  - intros Hn.
    assert (is_valid location &&
            (bool_decide (scheme location = "http") ||
             bool_decide (scheme location = "https")) = false) as ->.
    { apply not_true_iff_false. intros H.
      apply andb_true_iff in H as [Hv H]. apply orb_true_iff in H.
      apply Hn. split; [exact Hv|].
      destruct H as [H|H]; apply bool_decide_eq_true in H; auto. }
    destruct (job_factory (context (request_ j))) as [factory|].
    + eexists; split; [reflexivity|]. split; [|discriminate].
      split; [intros H; exists factory; auto|].
      intros (f & [= <-] & H); exact H.
    + exists false. split; [reflexivity|]. split; [|reflexivity].
      split; [discriminate|]. intros (f & [=] & _).
Qed.

Lemma IsSafeRedirect_spec_witness :
  IsSafeRedirect https_example example_job = Some (true, example_job) /\
  IsSafeRedirect ftp_example example_job = Some (false, example_job).
Proof.
  set (j := example_job). split.
  - apply (proj1 (IsSafeRedirect_spec j https_example)).
    + reflexivity.
    + right. reflexivity.
  - destruct (proj2 (IsSafeRedirect_spec j ftp_example)) as (b & Hrun & _ & Hnone).
    + intros [_ [H|H]]; discriminate H.
    + rewrite Hrun, (Hnone eq_refl). reflexivity.
Defined.

(** ** The read loop *)

Lemma ShouldFixMismatchedContentLength_spec j rv :
  exists b,
    ShouldFixMismatchedContentLength rv j = Some (b, j) /\
    (b = true <-> length_fix_applies j rv).
Proof.
  unfold ShouldFixMismatchedContentLength, length_fix_applies. unfold_monad.
  destruct ((rv =? ERR_CONTENT_LENGTH_MISMATCH)%Z ||
            (rv =? ERR_INCOMPLETE_CHUNKED_ENCODING)%Z) eqn:Erv.
  - apply orb_true_iff in Erv. rewrite !Z.eqb_eq in Erv.
    destruct (response_headers (request_ j)) as [h|] eqn:Eh.
    + destruct (postfilter_bytes_read j =? GetContentLength h)%Z eqn:Ep.
      * apply Z.eqb_eq in Ep. exists true. split; [reflexivity|].
        split; [|reflexivity]. intros _. split; [exact Erv|]. eauto.
      * apply Z.eqb_neq in Ep. exists false. split; [reflexivity|].
        split; [discriminate|]. intros (_ & h' & [= <-] & Hp). contradiction.
    + exists false. split; [reflexivity|].
      split; [discriminate|]. intros (_ & h' & [=] & _).
  - apply orb_false_iff in Erv. rewrite !Z.eqb_neq in Erv.
    exists false. split; [reflexivity|].
    split; [discriminate|]. intros ([H|H] & _); tauto.
Qed.

(** C4, as stated, fails: a read that ends in
    ERR_INCOMPLETE_CHUNKED_ENCODING, which is not the content-length
    mismatch error, is reported as [OK] when the decoded byte count equals
    the declared length. *)
Lemma OnReadCompleted_fixes_incomplete_chunked_encoding :
  ERR_INCOMPLETE_CHUNKED_ENCODING <> ERR_CONTENT_LENGTH_MISMATCH /\
  (ERR_INCOMPLETE_CHUNKED_ENCODING < 0)%Z /\
  events (OnReadCompleted ERR_INCOMPLETE_CHUNKED_ENCODING (job_reading 10 10)) =
    Some [ReadRawDataComplete OK].
Proof.
  split; [discriminate|]. split; [reflexivity|]. vm_compute. reflexivity.
Qed.

(** C4, amended.  A read completion is reported as [OK] in place of its
    error exactly when the error is ERR_CONTENT_LENGTH_MISMATCH or
    ERR_INCOMPLETE_CHUNKED_ENCODING, the request has response headers and
    the post-decode byte count equals the content length they declare.
    Every other result, and these two errors with any other byte count, is
    reported unchanged.  The job is done afterwards when the reported
    result is not positive. *)
Theorem OnReadCompleted_length_fix (j : Job) (result : Z) :
  exists reported j',
    OnReadCompleted result j = Some (tt, j') /\
    trace j' = trace j ++ [ReadRawDataComplete reported] /\
    (length_fix_applies j result -> reported = OK) /\
    (~ length_fix_applies j result -> reported = result) /\
    ((reported <= 0)%Z -> done_ j' = true).
Proof.
  destruct (ShouldFixMismatchedContentLength_spec j result) as (b & Hrun & Hb).
  assert (Hfix : ShouldFixMismatchedContentLength result
                   (set_read_in_progress_ false j) =
                 Some (b, set_read_in_progress_ false j)).
  { revert Hrun. unfold ShouldFixMismatchedContentLength. unfold_monad.
    destruct (_ || _); [|intros [= <-]; reflexivity].
    simpl. destruct (response_headers (request_ j)); [|intros [= <-]; reflexivity].
    destruct (_ =? _)%Z; intros [= <-]; reflexivity. }
  exists (if b then OK else result).
  unfold OnReadCompleted, DoneWithRequest. unfold_monad. rewrite Hfix.
  destruct ((if b then OK else result) <=? 0)%Z eqn:Ele.
  - simpl. destruct (done_ j) eqn:Ed; simpl;
      (eexists; split; [reflexivity|]); simpl;
      (split; [reflexivity|]); (split; [|split]); try done.
    all: try (intros H; apply Hb in H; subst b; reflexivity).
    all: intros H; destruct b; [exfalso; apply H, Hb; reflexivity|reflexivity].
  - eexists; split; [reflexivity|]. simpl. split; [reflexivity|].
    apply Z.leb_gt in Ele. split; [|split].
    + intros H; apply Hb in H; subst b; reflexivity.
    + intros H; destruct b; [exfalso; apply H, Hb; reflexivity|reflexivity].
    + lia.
Qed.

(** ** Strict-Transport-Security *)

Lemma hsts_accepted_test j info :
  hsts_accepted j info <->
  (negb (ssl_is_valid (ssl_info info))
   || IsCertStatusError (cert_status (ssl_info info))
   || negb (bool_decide (is_Some (transport_security_state (context (request_ j)))))
   = false) /\ HostIsIPAddress (info_url (request_info_ j)) = false.
Proof.
  unfold hsts_accepted, IsCertStatusError.
  rewrite !orb_false_iff, !negb_false_iff, Z.eqb_eq, bool_decide_eq_true.
  tauto.
Qed.

Lemma set_trace_same j : set_trace (trace j ++ []) j = j.
Proof. destruct j. unfold set_trace. simpl. rewrite app_nil_r. reflexivity. Qed.

(** C6. For a response that carries Strict-Transport-Security lines, the
    job calls AddHSTSHeader exactly when the TLS info is valid, the
    certificate status has no error bit, there is a security-state store
    and the host is not an IP literal; the call carries the value of the
    first such line, whatever lines follow, and nothing else in the job
    changes.  A response without such a line leads to no call. *)
Theorem HSTS_forwarded_when_accepted (j : Job) (info : HttpResponseInfo)
    (h : HttpResponseHeaders) :
  response_info_ j = Some info ->
  GetResponseHeaders j = Some (h, j) ->
  exists j',
    ProcessStrictTransportSecurityHeader j = Some (tt, j') /\
    j' = set_trace (trace j') j /\
    (forall first more,
       EnumerateHeaderAll "Strict-Transport-Security" h = first :: more ->
       (hsts_accepted j info ->
        trace j' = trace j ++ [AddHSTSHeader (host (info_url (request_info_ j))) first]) /\
       (~ hsts_accepted j info -> trace j' = trace j)) /\
    (EnumerateHeaderAll "Strict-Transport-Security" h = [] -> trace j' = trace j).
Proof.
  intros Hinfo Hheaders.
  pose proof (hsts_accepted_test j info) as Htest.
  unfold ProcessStrictTransportSecurityHeader. unfold_monad. rewrite Hinfo.
  destruct (negb (ssl_is_valid (ssl_info info)) || _ || _) eqn:Egate.
  { exists j. split; [reflexivity|]. split; [destruct j; reflexivity|].
    split; [|reflexivity]. intros first more _. split; [|reflexivity].
    intros Hacc. apply Htest in Hacc as [Hacc _]. discriminate Hacc. }
  destruct (HostIsIPAddress (info_url (request_info_ j))) eqn:Eip.
  { exists j. split; [reflexivity|]. split; [destruct j; reflexivity|].
    split; [|reflexivity]. intros first more _. split; [|reflexivity].
    intros Hacc. apply Htest in Hacc as [_ Hacc]. discriminate Hacc. }
  rewrite Hheaders. unfold EnumerateHeader.
  destruct (EnumerateHeaderAll "Strict-Transport-Security" h) as [|v rest]; simpl.
  - exists j. split; [reflexivity|]. split; [destruct j; reflexivity|].
    split; [|reflexivity]. intros first more [=].
  - eexists. split; [reflexivity|]. split; [reflexivity|].
    split; [|intros [=]]. intros first more [= <- <-]. split; [reflexivity|].
    intros Hn. exfalso. apply Hn, Htest. split; reflexivity.
Qed.

Lemma HSTS_forwarded_when_accepted_witness :
  response_info_ job_hsts = Some (example_info hsts_headers) /\
  GetResponseHeaders job_hsts = Some (hsts_headers, job_hsts) /\
  exists j',
    ProcessStrictTransportSecurityHeader job_hsts = Some (tt, j') /\
    trace j' = [AddHSTSHeader "example.com" "max-age=31536000"].
Proof.
  split; [reflexivity|]. split; [reflexivity|].
  destruct (HSTS_forwarded_when_accepted job_hsts (example_info hsts_headers)
              hsts_headers eq_refl eq_refl)
    as (j' & Hrun & _ & Hfirst & _).
  exists j'. split; [exact Hrun|].
  apply (Hfirst "max-age=31536000" ["max-age=0"] eq_refl).
  repeat split. eexists; reflexivity.
Defined.

(** The same response from an IP literal, and over a connection whose
    certificate status has an error bit, leaves the store alone. *)
Example HSTS_ignored_for_ip_literal :
  events (ProcessStrictTransportSecurityHeader job_hsts_ip) = Some [].
Proof. vm_compute. reflexivity. Qed.

(** ** Content decoding *)

Lemma CollectSourceTypes_step e r value rest types :
  CollectSourceTypes e r (value :: rest) types = None /\
    passes_through r (ParseEncodingType e value) \/
  CollectSourceTypes e r (value :: rest) types =
    CollectSourceTypes e r rest (types ++ [ParseEncodingType e value]) /\
    ~ passes_through r (ParseEncodingType e value).
Proof.
  unfold passes_through. simpl.
  destruct (ParseEncodingType e value) eqn:Et;
    try (left; split; [reflexivity|tauto]);
    (destruct (accepted_stream_types r) as [accepted|];
     [case_bool_decide; simpl;
      [right; split; [reflexivity|]; intros [?|[?|(a & [= <-] & ?)]]; done
      |left; split; [reflexivity|]; right; right; eauto]
     |right; split; [reflexivity|]; intros [?|[?|(a & [=] & ?)]]; done]).
Qed.

Lemma CollectSourceTypes_spec e r values types :
  (CollectSourceTypes e r values types = None /\
   exists value, value ∈ values /\ passes_through r (ParseEncodingType e value)) \/
  (CollectSourceTypes e r values types =
     Some (types ++ map (ParseEncodingType e) values) /\
   forall value, value ∈ values -> ~ passes_through r (ParseEncodingType e value)).
Proof.
  revert types. induction values as [|value rest IH]; intros types.
  - right. split; [simpl; rewrite app_nil_r; reflexivity|].
    intros value Hin. inversion Hin.
  - destruct (CollectSourceTypes_step e r value rest types) as [[-> Hp]|[-> Hnp]].
    + left. split; [reflexivity|]. exists value. split; [left|exact Hp].
    + destruct (IH (types ++ [ParseEncodingType e value])) as [[-> (v & Hv & Hp)]|[-> Hall]].
      * left. split; [reflexivity|]. exists v. split; [right; exact Hv|exact Hp].
      * right. split; [simpl; rewrite <- app_assoc; reflexivity|].
        intros v Hv. apply elem_of_cons in Hv as [->|Hv]; auto.
Qed.

Lemma WrapSourceStreams_cons e type rest upstream :
  WrapSourceStreams e (type :: rest) upstream =
    if stage_constructed e upstream type
    then WrapSourceStreams e rest (Stage type upstream)
    else None.
Proof.
  destruct type; simpl; try reflexivity;
    match goal with |- context [if ?b then _ else _] => destruct b end;
    reflexivity.
Qed.

Lemma WrapSourceStreams_result e reversed upstream s :
  WrapSourceStreams e reversed upstream = Some s ->
  s = fold_left (fun up type => Stage type up) reversed upstream.
Proof.
  revert upstream. induction reversed as [|type rest IH]; intros upstream.
  - simpl. congruence.
  - rewrite WrapSourceStreams_cons.
    destruct (stage_constructed e upstream type); [|discriminate].
    intros H. apply IH in H. exact H.
Qed.

Lemma WrapSourceStreams_None e reversed upstream :
  WrapSourceStreams e reversed upstream = None <->
  exists n type,
    reversed !! n = Some type /\
    stage_constructed e
      (fold_left (fun up type => Stage type up) (take n reversed) upstream) type = false.
Proof.
  revert upstream. induction reversed as [|type rest IH]; intros upstream.
  - simpl. split; [discriminate|]. intros (n & type & Hn & _).
    destruct n; discriminate Hn.
  - rewrite WrapSourceStreams_cons.
    destruct (stage_constructed e upstream type) eqn:Eok.
    + rewrite IH. split.
      * intros (n & t & Hn & Hf). exists (S n), t. split; assumption.
      * intros (n & t & Hn & Hf). destruct n as [|n]; simpl in *.
        -- congruence.
        -- exists n, t. split; assumption.
    + split; [|reflexivity]. intros _. exists 0, type. split; [reflexivity|exact Eok].
Qed.

Lemma DecodeOrder_fold stages upstream :
  DecodeOrder (fold_left (fun up type => Stage type up) stages upstream) =
  DecodeOrder upstream ++ stages.
Proof.
  revert upstream. induction stages as [|type rest IH]; intros upstream; simpl.
  - rewrite app_nil_r. reflexivity.
  - rewrite IH. destruct type; simpl; rewrite <- app_assoc; reflexivity.
Qed.

Lemma DecodeOrder_Pipeline stages : DecodeOrder (Pipeline stages) = stages.
Proof. unfold Pipeline. rewrite DecodeOrder_fold. reflexivity. Qed.

(** C3. Let [types] be the parsed Content-Encoding values in header
    order.  If any of them, wherever it stands, is identity, unknown or
    outside the accepted stream types, SetUpSourceStream hands back the raw
    stream.  Otherwise it hands back either null or the chain with one
    filter per value that decodes in reverse header order, and it hands
    back null exactly when some filter, at its turn, cannot be
    constructed. *)
Theorem SetUpSourceStream_spec (j : Job) (info : HttpResponseInfo)
    (h : HttpResponseHeaders) :
  response_info_ j = Some info ->
  GetResponseHeaders j = Some (h, j) ->
  let types :=
    map (ParseEncodingType (env j)) (EnumerateHeaderAll "Content-Encoding" h) in
  exists result,
    SetUpSourceStream j = Some (result, j) /\
    ((exists type, type ∈ types /\ passes_through (request_ j) type) ->
     result = Some URLRequestJobSourceStream) /\
    ((forall type, type ∈ types -> ~ passes_through (request_ j) type) ->
     (forall s, result = Some s ->
        s = Pipeline (rev types) /\ DecodeOrder s = rev types) /\
     (result = None <->
      exists n type,
        rev types !! n = Some type /\
        stage_constructed (env j) (Pipeline (take n (rev types))) type = false)).
Proof.
  intros Hinfo Hheaders types.
  unfold SetUpSourceStream. unfold_monad. rewrite Hinfo, Hheaders.
  destruct (CollectSourceTypes_spec (env j) (request_ j)
              (EnumerateHeaderAll "Content-Encoding" h) [])
    as [[-> (value & Hin & Hp)]|[-> Hall]].
  - exists (Some URLRequestJobSourceStream). split; [reflexivity|].
    split; [reflexivity|]. intros Hnone. exfalso.
    apply (Hnone (ParseEncodingType (env j) value)); [|exact Hp].
    apply list_elem_of_In, in_map_iff. exists value.
    split; [reflexivity|apply list_elem_of_In; exact Hin].
  - simpl. fold types. eexists. split; [reflexivity|]. split.
    + intros (type & Hin & Hp). exfalso.
      apply list_elem_of_In, in_map_iff in Hin as (value & <- & Hin).
      apply list_elem_of_In in Hin.
      exact (Hall value Hin Hp).
    + intros _. split.
      * intros s Hs. apply WrapSourceStreams_result in Hs. fold (Pipeline (rev types)) in Hs.
        subst s. split; [reflexivity|apply DecodeOrder_Pipeline].
      * unfold Pipeline. apply WrapSourceStreams_None.
Qed.

Lemma SetUpSourceStream_spec_witness :
  response_info_ job_gzip_br = Some (example_info gzip_br_headers) /\
  GetResponseHeaders job_gzip_br = Some (gzip_br_headers, job_gzip_br) /\
  exists s,
    SetUpSourceStream job_gzip_br = Some (Some s, job_gzip_br) /\
    s = GzipSourceStream TYPE_GZIP (BrotliSourceStream URLRequestJobSourceStream) /\
    DecodeOrder s = [TYPE_BROTLI; TYPE_GZIP].
Proof.
  split; [reflexivity|]. split; [reflexivity|].
  destruct (SetUpSourceStream_spec job_gzip_br (example_info gzip_br_headers)
              gzip_br_headers eq_refl eq_refl)
    as (result & Hrun & _ & Hchain).
  assert (Hdirect : returned (SetUpSourceStream job_gzip_br) =
            Some (Some (GzipSourceStream TYPE_GZIP
                          (BrotliSourceStream URLRequestJobSourceStream))))
    by (vm_compute; reflexivity).
  rewrite Hrun in Hdirect. injection Hdirect as Hresult. subst result.
  eexists. split; [exact Hrun|]. split; [reflexivity|].
  destruct Hchain as [Hsome _].
  - intros type Hin [->|[->|(a & Ha & _)]].
    + vm_compute in Hin. apply list_elem_of_In in Hin. simpl in Hin.
      destruct Hin as [H|[H|[]]]; discriminate H.
    + vm_compute in Hin. apply list_elem_of_In in Hin. simpl in Hin.
      destruct Hin as [H|[H|[]]]; discriminate H.
    + discriminate Ha.
  - destruct (Hsome _ eq_refl) as [_ Horder]. exact Horder.
Defined.

(** A value that is not recognized, ahead of gzip, leaves the body
    undecoded. *)
Example SetUpSourceStream_unknown_gzip :
  returned (SetUpSourceStream job_unknown_gzip) = Some (Some URLRequestJobSourceStream).
Proof. vm_compute. reflexivity. Qed.
(** ** Outgoing headers *)

Lemma with_extra_headers_same j :
  with_extra_headers (extra_headers (request_info_ j)) j = j.
Proof. destruct j as [? ? ? [] ? ? ? ? ? ? ? ? ? ? ? ? ? ?]. reflexivity. Qed.

Lemma bind_gets {A B} (f : Job -> A) (k : A -> M B) j :
  bind (gets f) k j = k (f j) j.
Proof. reflexivity. Qed.

Lemma bind_modify {B} (f : Job -> Job) (k : unit -> M B) j :
  bind (modify f) k j = k tt (f j).
Proof. reflexivity. Qed.

Lemma bind_modify_extra_headers {B} f (k : unit -> M B) j :
  bind (modify_extra_headers f) k j =
    k tt (with_extra_headers (f (extra_headers (request_info_ j))) j).
Proof. reflexivity. Qed.

Lemma bind_when_modify_extra_headers {B} (c : bool) f (k : unit -> M B) j :
  bind (when c (modify_extra_headers f)) k j =
    k tt (with_extra_headers
            (if c then f (extra_headers (request_info_ j))
             else extra_headers (request_info_ j)) j).
Proof.
  destruct c; [reflexivity|].
  rewrite with_extra_headers_same. reflexivity.
Qed.

Lemma AddExtraHeaders_run j :
  AddExtraHeaders j =
    Some (tt, with_extra_headers (accept_headers j (extra_headers (request_info_ j))) j).
Proof.
  unfold AddExtraHeaders, accept_headers.
  rewrite bind_gets.
  set (h := extra_headers (request_info_ j)).
  set (names := AdvertisedEncodingNames (request_ j)).
  assert (Hfirst : forall B (k : unit -> M B),
    bind (when (negb (HasHeader kAcceptEncoding h))
            (if HasHeader kRange h
             then modify_extra_headers (SetHeader kAcceptEncoding "identity")
             else
               let* r := gets request_ in
               let advertised_encoding_names := AdvertisedEncodingNames r in
               when (negb (bool_decide (advertised_encoding_names = [])))
                 (modify_extra_headers
                    (SetHeader kAcceptEncoding
                       (String.concat ", " advertised_encoding_names))))) k j =
    k tt (with_extra_headers
            (if HasHeader kAcceptEncoding h then h
             else if HasHeader kRange h then SetHeader kAcceptEncoding "identity" h
             else if bool_decide (names = []) then h
             else SetHeader kAcceptEncoding (String.concat ", " names) h) j)).
  { intros B k. subst h names.
    destruct (HasHeader kAcceptEncoding _); cbn [negb when].
    - unfold bind at 1, ret. rewrite with_extra_headers_same. reflexivity.
    - destruct (HasHeader kRange _); [reflexivity|].
      unfold bind at 1. rewrite bind_gets. cbv zeta.
      destruct (bool_decide _); cbn [negb when]; [|reflexivity].
      unfold ret. rewrite with_extra_headers_same. reflexivity. }
  rewrite Hfirst. rewrite bind_gets.
  cbn [http_user_agent_settings_ with_extra_headers set_request_info_].
  destruct (http_user_agent_settings_ j) as [s|].
  - rewrite bind_gets. cbn [env with_extra_headers set_request_info_].
    destruct (kAcceptLanguageHeader (env j) && _); cbn [when].
    + reflexivity.
    + reflexivity.
  - reflexivity.
Qed.

Lemma AddCookieHeaderAndStart_run j :
  exists e,
    AddCookieHeaderAndStart j = Some (tt, set_trace (trace j ++ [e]) j) /\
    (e = CallStartTransaction \/ exists options, e = GetCookieListWithOptionsAsync options).
Proof.
  unfold AddCookieHeaderAndStart, StartTransaction. unfold_monad.
  destruct (cookie_store (context (request_ j))) as [store|]; [|eauto].
  destruct (allow_credentials (request_ j)); eauto.
Qed.

(** The chain of host tests of Start(), as one step on the headers. *)
Lemma Start_chain_run {B} (u : GURL) (k : unit -> M B) j :
  bind
    (if contains (host u) "addons.opera.com" then
       modify_extra_headers (SetHeader kUserAgent kOperaAddonsUserAgent)
     else if contains (host u) "chrome.google.com" then
       modify_extra_headers (SetHeader kUserAgent kChromeStoreUserAgent)
     else if contains (host u) "web.whatsapp.com" then
       modify_extra_headers (SetHeader kUserAgent kWhatsAppUserAgent)
     else if contains (host u) "messenger.com" then
       modify_extra_headers (SetHeader kUserAgent kMessengerUserAgent)
     else if contains (host u) "facebook.com" then
       modify_extra_headers (SetHeader kUserAgent kFacebookUserAgent)
     else if contains (host u) "news.google.com" && contains (path u) kGoogleNewsPath then
       modify_extra_headers (SetHeader kUserAgent kGoogleNewsUserAgent);;
       modify_extra_headers (SetHeader "Cookie" kGoogleNewsCookie)
     else ret tt) k j =
  k tt (with_extra_headers (override_headers u (extra_headers (request_info_ j))) j).
Proof.
  unfold override_headers, hard_coded_user_agent, google_news_branch,
    matches_earlier_host.
  destruct (contains (host u) "addons.opera.com"); [reflexivity|].
  destruct (contains (host u) "chrome.google.com"); [reflexivity|].
  destruct (contains (host u) "web.whatsapp.com"); [reflexivity|].
  destruct (contains (host u) "messenger.com"); [reflexivity|].
  destruct (contains (host u) "facebook.com"); [reflexivity|].
  cbn [orb negb andb].
  destruct (contains (host u) "news.google.com" && contains (path u) kGoogleNewsPath).
  - reflexivity.
  - unfold bind at 1, ret. rewrite with_extra_headers_same. reflexivity.
Qed.

Lemma Start_run j :
  Start j = AddCookieHeaderAndStart (set_request_info_ (start_request_info j) j).
Proof.
  unfold Start.
  rewrite bind_gets, bind_modify, bind_modify_extra_headers,
    bind_when_modify_extra_headers, bind_gets, bind_modify_extra_headers,
    bind_gets.
  cbn [with_extra_headers set_request_info_ set_extra_headers request_info_
       info_url extra_headers http_user_agent_settings_ request_].
  rewrite Start_chain_run.
  rewrite !bind_when_modify_extra_headers.
  unfold bind. rewrite AddExtraHeaders_run.
  reflexivity.
Qed.

(** *** Lookups after the header operations *)

Lemma GetHeader_SetHeader_same key value h :
  GetHeader key (SetHeader key value h) = Some value.
Proof. unfold GetHeader, SetHeader. apply lookup_insert_eq. Qed.

Lemma GetHeader_SetHeader_other key key' value h :
  LowerString key <> LowerString key' ->
  GetHeader key' (SetHeader key value h) = GetHeader key' h.
Proof. intros Hne. unfold GetHeader, SetHeader. apply lookup_insert_ne, Hne. Qed.

Lemma GetHeader_RemoveHeader_same key h :
  GetHeader key (RemoveHeader key h) = None.
Proof. unfold GetHeader, RemoveHeader. apply lookup_delete_eq. Qed.

Lemma GetHeader_RemoveHeader_other key key' h :
  LowerString key <> LowerString key' ->
  GetHeader key' (RemoveHeader key h) = GetHeader key' h.
Proof. intros Hne. unfold GetHeader, RemoveHeader. apply lookup_delete_ne, Hne. Qed.

Lemma HasHeader_GetHeader key h :
  HasHeader key h = bool_decide (is_Some (GetHeader key h)).
Proof. reflexivity. Qed.

Lemma HasHeader_true key h value :
  GetHeader key h = Some value -> HasHeader key h = true.
Proof.
  intros H. rewrite HasHeader_GetHeader, H. apply bool_decide_eq_true_2. eauto.
Qed.

Lemma HasHeader_false key h :
  GetHeader key h = None -> HasHeader key h = false.
Proof.
  intros H. rewrite HasHeader_GetHeader, H. apply bool_decide_eq_false_2.
  intros [x Hx]. discriminate Hx.
Qed.

Lemma GetHeader_SetHeaderIfMissing_same key value h :
  GetHeader key (SetHeaderIfMissing key value h) =
    Some (match GetHeader key h with Some v => v | None => value end).
Proof.
  unfold SetHeaderIfMissing.
  destruct (GetHeader key h) as [v|] eqn:E.
  - rewrite (HasHeader_true _ _ _ E). exact E.
  - rewrite (HasHeader_false _ _ E). apply GetHeader_SetHeader_same.
Qed.

Lemma GetHeader_SetHeaderIfMissing_other key key' value h :
  LowerString key <> LowerString key' ->
  GetHeader key' (SetHeaderIfMissing key value h) = GetHeader key' h.
Proof.
  intros Hne. unfold SetHeaderIfMissing.
  destruct (HasHeader key h); [reflexivity|].
  apply GetHeader_SetHeader_other, Hne.
Qed.

Lemma GetHeader_override_headers_other key u h :
  LowerString key <> "user-agent" ->
  LowerString key <> "cookie" ->
  GetHeader key (override_headers u h) = GetHeader key h.
Proof.
  intros Hua Hcookie. unfold override_headers.
  assert (Hstep : GetHeader key
            (match hard_coded_user_agent u with
             | Some ua => SetHeader kUserAgent ua h
             | None => h
             end) = GetHeader key h).
  { destruct (hard_coded_user_agent u); [|reflexivity].
    apply GetHeader_SetHeader_other. intros H. apply Hua. rewrite <- H. reflexivity. }
  destruct (google_news_branch u); [|exact Hstep].
  rewrite GetHeader_SetHeader_other; [exact Hstep|].
  intros H. apply Hcookie. rewrite <- H. reflexivity.
Qed.

Lemma GetHeader_accept_headers_other key j h :
  LowerString key <> "accept-encoding" ->
  LowerString key <> "accept-language" ->
  GetHeader key (accept_headers j h) = GetHeader key h.
Proof.
  intros Hae Hal. unfold accept_headers.
  assert (Hae' : LowerString kAcceptEncoding <> LowerString key)
    by (intros H; apply Hae; rewrite <- H; reflexivity).
  assert (Hal' : LowerString kAcceptLanguage <> LowerString key)
    by (intros H; apply Hal; rewrite <- H; reflexivity).
  set (h1 := if HasHeader kAcceptEncoding h then h else _).
  assert (Hstep : GetHeader key h1 = GetHeader key h).
  { subst h1. destruct (HasHeader kAcceptEncoding h); [reflexivity|].
    destruct (HasHeader kRange h); [apply GetHeader_SetHeader_other, Hae'|].
    destruct (bool_decide _); [reflexivity|].
    apply GetHeader_SetHeader_other, Hae'. }
  destruct (http_user_agent_settings_ j) as [s|]; [|exact Hstep].
  destruct (_ && _); [|exact Hstep].
  rewrite GetHeader_SetHeaderIfMissing_other; [exact Hstep|exact Hal'].
Qed.

(** Start() runs to its end, and leaves the headers [start_headers]. *)
Lemma Start_headers j :
  exists j',
    Start j = Some (tt, j') /\
    extra_headers (request_info_ j') = start_headers j /\
    info_url (request_info_ j') = url (request_ j) /\
    request_ j' = request_ j /\
    exists e,
      trace j' = trace j ++ [e] /\
      (e = CallStartTransaction \/
       exists options, e = GetCookieListWithOptionsAsync options).
Proof.
  rewrite Start_run.
  destruct (AddCookieHeaderAndStart_run (set_request_info_ (start_request_info j) j))
    as (e & -> & He).
  eexists. split; [reflexivity|]. repeat split. eauto.
Qed.

Lemma GetHeader_start_headers_user_agent j :
  GetHeader kUserAgent (start_headers j) =
    Some (match hard_coded_user_agent (url (request_ j)) with
          | Some ua => ua
          | None =>
              match GetHeader kUserAgent (extra_headers (request_info_ j)) with
              | Some v => v
              | None => default_user_agent (http_user_agent_settings_ j)
              end
          end).
Proof.
  unfold start_headers.
  rewrite GetHeader_accept_headers_other by names_differ.
  unfold site_headers.
  set (h := SetHeaderIfMissing _ _ _).
  assert (Hh : GetHeader kUserAgent h =
                 Some (match GetHeader kUserAgent (extra_headers (request_info_ j)) with
                       | Some v => v
                       | None => default_user_agent (http_user_agent_settings_ j)
                       end)).
  { subst h. rewrite GetHeader_SetHeaderIfMissing_same. unfold referer_headers.
    destruct (is_valid _).
    - rewrite GetHeader_SetHeader_other by names_differ.
      rewrite GetHeader_RemoveHeader_other by names_differ. reflexivity.
    - rewrite GetHeader_RemoveHeader_other by names_differ. reflexivity. }
  assert (Hover : GetHeader kUserAgent (override_headers (url (request_ j)) h) =
                  Some (match hard_coded_user_agent (url (request_ j)) with
                        | Some ua => ua
                        | None =>
                            match GetHeader kUserAgent (extra_headers (request_info_ j)) with
                            | Some v => v
                            | None => default_user_agent (http_user_agent_settings_ j)
                            end
                        end)).
  { unfold override_headers.
    assert (Hstep : GetHeader kUserAgent
              (match hard_coded_user_agent (url (request_ j)) with
               | Some ua => SetHeader kUserAgent ua h
               | None => h
               end) =
              Some (match hard_coded_user_agent (url (request_ j)) with
                    | Some ua => ua
                    | None =>
                        match GetHeader kUserAgent (extra_headers (request_info_ j)) with
                        | Some v => v
                        | None => default_user_agent (http_user_agent_settings_ j)
                        end
                    end)).
    { destruct (hard_coded_user_agent _); [apply GetHeader_SetHeader_same|exact Hh]. }
    destruct (google_news_branch _); [|exact Hstep].
    rewrite GetHeader_SetHeader_other by names_differ. exact Hstep. }
  destruct (amazon_kbdirect _);
    [rewrite GetHeader_RemoveHeader_other by names_differ|];
    (destruct (contains _ "washingtonpost.com");
     [rewrite GetHeader_SetHeader_other by names_differ|]); exact Hover.
Qed.

Lemma hard_coded_user_agent_fixed u ua :
  hard_coded_user_agent u = Some ua -> ua ∈ hard_coded_user_agents.
Proof.
  unfold hard_coded_user_agent, hard_coded_user_agents.
  repeat (match goal with
          | |- context [if ?c then _ else _] => destruct c
          end; [intros [= <-]; set_solver|]).
  discriminate.
Qed.

(** C9. For a request whose host contains addons.opera.com,
    chrome.google.com, web.whatsapp.com, messenger.com or facebook.com, or
    contains news.google.com while its path contains the News key, Start()
    leaves as User-Agent one of its six literals, the one of the first
    test of its chain that the URL passes, whatever User-Agent the caller
    has put in the extra headers. *)
Theorem Start_overrides_user_agent (j : Job) :
  let u := url (request_ j) in
  contains (host u) "addons.opera.com" = true \/
  contains (host u) "chrome.google.com" = true \/
  contains (host u) "web.whatsapp.com" = true \/
  contains (host u) "messenger.com" = true \/
  contains (host u) "facebook.com" = true \/
  (contains (host u) "news.google.com" = true /\
   contains (path u) kGoogleNewsPath = true) ->
  exists j' ua,
    Start j = Some (tt, j') /\
    hard_coded_user_agent u = Some ua /\
    ua ∈ hard_coded_user_agents /\
    GetHeader kUserAgent (extra_headers (request_info_ j')) = Some ua.
Proof.
  intros u Hhost.
  destruct (Start_headers j) as (j' & Hrun & Hheaders & _).
  assert (Hsome : exists ua, hard_coded_user_agent u = Some ua).
  { unfold hard_coded_user_agent.
    destruct (contains (host u) "addons.opera.com"); [eauto|].
    destruct (contains (host u) "chrome.google.com"); [eauto|].
    destruct (contains (host u) "web.whatsapp.com"); [eauto|].
    destruct (contains (host u) "messenger.com"); [eauto|].
    destruct (contains (host u) "facebook.com"); [eauto|].
    destruct Hhost as [H|[H|[H|[H|[H|[H1 H2]]]]]]; try discriminate H.
    rewrite H1, H2. eauto. }
  destruct Hsome as [ua Hua].
  exists j', ua. split; [exact Hrun|]. split; [exact Hua|].
  split; [exact (hard_coded_user_agent_fixed u ua Hua)|].
  rewrite Hheaders, GetHeader_start_headers_user_agent. fold u. rewrite Hua.
  reflexivity.
Qed.

Lemma Start_overrides_user_agent_witness :
  contains (host (url (request_ job_facebook))) "facebook.com" = true /\
  GetHeader kUserAgent (extra_headers (request_info_ job_facebook)) = Some "Custom/1.0" /\
  header_after kUserAgent (Start job_facebook) = Some (Some kFacebookUserAgent).
Proof.
  split; [reflexivity|]. split; [reflexivity|].
  destruct (Start_overrides_user_agent job_facebook) as (j' & ua & Hrun & Hua & _ & Hget).
  - right. right. right. right. left. reflexivity.
  - rewrite Hrun. unfold header_after. rewrite Hget.
    vm_compute in Hua. injection Hua as <-. reflexivity.
Defined.

Lemma GetHeader_start_headers_referer j :
  GetHeader kReferer (start_headers j) =
    if is_valid (referrer (request_ j)) && negb (amazon_kbdirect (url (request_ j)))
    then Some (spec (referrer (request_ j)))
    else None.
Proof.
  unfold start_headers.
  rewrite GetHeader_accept_headers_other by names_differ.
  unfold site_headers.
  destruct (amazon_kbdirect _).
  { rewrite GetHeader_RemoveHeader_same, andb_false_r. reflexivity. }
  rewrite andb_true_r.
  assert (Hrest : forall h,
    GetHeader kReferer
      (if contains (host (url (request_ j))) "washingtonpost.com"
       then SetHeader "X-Forwarded-For" "1.1.1.1" (override_headers (url (request_ j)) h)
       else override_headers (url (request_ j)) h) = GetHeader kReferer h).
  { intros h. destruct (contains _ _).
    - rewrite GetHeader_SetHeader_other by names_differ.
      apply GetHeader_override_headers_other; names_differ.
    - apply GetHeader_override_headers_other; names_differ. }
  cbv zeta. rewrite Hrest.
  rewrite GetHeader_SetHeaderIfMissing_other by names_differ.
  unfold referer_headers. destruct (is_valid _).
  - apply GetHeader_SetHeader_same.
  - apply GetHeader_RemoveHeader_same.
Qed.

Lemma GetHeader_start_headers_cookie j :
  GetHeader "Cookie" (start_headers j) =
    if google_news_branch (url (request_ j)) then Some kGoogleNewsCookie
    else GetHeader "Cookie" (extra_headers (request_info_ j)).
Proof.
  unfold start_headers.
  rewrite GetHeader_accept_headers_other by names_differ.
  unfold site_headers.
  set (h := SetHeaderIfMissing _ _ _).
  assert (Hh : GetHeader "Cookie" h = GetHeader "Cookie" (extra_headers (request_info_ j))).
  { subst h. rewrite GetHeader_SetHeaderIfMissing_other by names_differ.
    unfold referer_headers. destruct (is_valid _).
    - rewrite GetHeader_SetHeader_other by names_differ.
      apply GetHeader_RemoveHeader_other; names_differ.
    - apply GetHeader_RemoveHeader_other; names_differ. }
  assert (Hover : GetHeader "Cookie" (override_headers (url (request_ j)) h) =
                  if google_news_branch (url (request_ j)) then Some kGoogleNewsCookie
                  else GetHeader "Cookie" (extra_headers (request_info_ j))).
  { unfold override_headers. destruct (google_news_branch _).
    - apply GetHeader_SetHeader_same.
    - destruct (hard_coded_user_agent _); [|exact Hh].
      rewrite GetHeader_SetHeader_other by names_differ. exact Hh. }
  destruct (amazon_kbdirect _);
    [rewrite GetHeader_RemoveHeader_other by names_differ|];
    (destruct (contains _ "washingtonpost.com");
     [rewrite GetHeader_SetHeader_other by names_differ|]); exact Hover.
Qed.

Lemma GetHeader_start_headers_forwarded_for j :
  contains (host (url (request_ j))) "washingtonpost.com" = true ->
  GetHeader "X-Forwarded-For" (start_headers j) = Some "1.1.1.1".
Proof.
  intros Hwp. unfold start_headers.
  rewrite GetHeader_accept_headers_other by names_differ.
  unfold site_headers. rewrite Hwp.
  destruct (amazon_kbdirect _);
    [rewrite GetHeader_RemoveHeader_other by names_differ|];
    apply GetHeader_SetHeader_same.
Qed.

(** C10, as stated, fails for its Cookie part: a host that contains
    news.google.com and also facebook.com takes the facebook.com branch of
    the chain, and no Cookie header is written. *)
Lemma Start_news_cookie_not_for_every_news_host :
  contains (host (url (request_ job_news_under_facebook))) "news.google.com" = true /\
  contains (path (url (request_ job_news_under_facebook))) kGoogleNewsPath = true /\
  header_after "Cookie" (Start job_news_under_facebook) = Some None.
Proof. repeat split; vm_compute; reflexivity. Qed.

(** C10, amended.  Start() writes Cookie: CONSENT=... for a request whose
    host contains news.google.com, whose path contains the News key and
    whose host passes none of the five earlier tests of the chain,
    whatever Cookie header the caller supplied and whatever the privacy
    mode; it writes X-Forwarded-For: 1.1.1.1 for a host that contains
    washingtonpost.com; and it leaves no Referer for a host that contains
    amazon with kbdirect in the query, valid referrer or not. *)
Theorem Start_injects_fixed_headers (j : Job) :
  let u := url (request_ j) in
  exists j',
    Start j = Some (tt, j') /\
    (contains (host u) "news.google.com" = true ->
     contains (path u) kGoogleNewsPath = true ->
     matches_earlier_host u = false ->
     GetHeader "Cookie" (extra_headers (request_info_ j')) = Some kGoogleNewsCookie) /\
    (contains (host u) "washingtonpost.com" = true ->
     GetHeader "X-Forwarded-For" (extra_headers (request_info_ j')) = Some "1.1.1.1") /\
    (contains (host u) "amazon" = true ->
     contains (query u) "kbdirect" = true ->
     GetHeader kReferer (extra_headers (request_info_ j')) = None).
Proof.
  intros u.
  destruct (Start_headers j) as (j' & Hrun & Hheaders & _).
  exists j'. split; [exact Hrun|]. rewrite Hheaders. repeat split.
  - intros Hnews Hpath Hearlier.
    rewrite GetHeader_start_headers_cookie. fold u.
    unfold google_news_branch. rewrite Hnews, Hpath, Hearlier. reflexivity.
  - apply GetHeader_start_headers_forwarded_for.
  - intros Hamazon Hquery.
    rewrite GetHeader_start_headers_referer. fold u.
    unfold amazon_kbdirect. rewrite Hamazon, Hquery, andb_false_r. reflexivity.
Qed.

(** The three injections on concrete requests. *)
Example Start_news_cookie :
  header_after "Cookie" (Start job_news) = Some (Some kGoogleNewsCookie).
Proof. vm_compute. reflexivity. Qed.

(** C2, as stated, fails for its Referer part: with a valid referrer, a
    request to an amazon host with kbdirect in its query leaves Start()
    without a Referer header. *)
Lemma Start_valid_referrer_not_always_sent :
  is_valid (referrer (request_ job_amazon)) = true /\
  header_after kReferer (Start job_amazon) = Some None.
Proof. split; vm_compute; reflexivity. Qed.

(** The headers as they stand when Start() calls AddExtraHeaders. *)
Lemma GetHeader_before_accept key j :
  LowerString key <> "referer" ->
  LowerString key <> "user-agent" ->
  LowerString key <> "cookie" ->
  LowerString key <> "x-forwarded-for" ->
  GetHeader key
    (site_headers (url (request_ j))
       (SetHeaderIfMissing kUserAgent (default_user_agent (http_user_agent_settings_ j))
          (referer_headers (request_ j) (extra_headers (request_info_ j))))) =
  GetHeader key (extra_headers (request_info_ j)).
Proof.
  intros Href Hua Hcookie Hxff.
  assert (Href' : LowerString kReferer <> LowerString key)
    by (intros H; apply Href; rewrite <- H; reflexivity).
  assert (Hua' : LowerString kUserAgent <> LowerString key)
    by (intros H; apply Hua; rewrite <- H; reflexivity).
  assert (Hxff' : LowerString "X-Forwarded-For" <> LowerString key)
    by (intros H; apply Hxff; rewrite <- H; reflexivity).
  unfold site_headers. cbv zeta.
  set (h := SetHeaderIfMissing _ _ _).
  assert (Hh : GetHeader key h = GetHeader key (extra_headers (request_info_ j))).
  { subst h. rewrite GetHeader_SetHeaderIfMissing_other by exact Hua'.
    unfold referer_headers. destruct (is_valid _).
    - rewrite GetHeader_SetHeader_other by exact Href'.
      apply GetHeader_RemoveHeader_other, Href'.
    - apply GetHeader_RemoveHeader_other, Href'. }
  destruct (amazon_kbdirect _);
    [rewrite GetHeader_RemoveHeader_other by exact Href'|];
    (destruct (contains _ "washingtonpost.com");
     [rewrite GetHeader_SetHeader_other by exact Hxff'|]);
    rewrite GetHeader_override_headers_other by assumption; exact Hh.
Qed.

Lemma HasHeader_before_accept key j :
  LowerString key <> "referer" ->
  LowerString key <> "user-agent" ->
  LowerString key <> "cookie" ->
  LowerString key <> "x-forwarded-for" ->
  HasHeader key
    (site_headers (url (request_ j))
       (SetHeaderIfMissing kUserAgent (default_user_agent (http_user_agent_settings_ j))
          (referer_headers (request_ j) (extra_headers (request_info_ j))))) =
  HasHeader key (extra_headers (request_info_ j)).
Proof.
  intros. rewrite !HasHeader_GetHeader, GetHeader_before_accept by assumption.
  reflexivity.
Qed.

Lemma GetHeader_start_headers_accept_encoding j :
  GetHeader kAcceptEncoding (start_headers j) =
    match GetHeader kAcceptEncoding (extra_headers (request_info_ j)) with
    | Some v => Some v
    | None =>
        if HasHeader kRange (extra_headers (request_info_ j)) then Some "identity"
        else if bool_decide (AdvertisedEncodingNames (request_ j) = []) then None
        else Some (String.concat ", " (AdvertisedEncodingNames (request_ j)))
    end.
Proof.
  unfold start_headers. set (pre := site_headers _ _).
  assert (Hae : GetHeader kAcceptEncoding pre =
                GetHeader kAcceptEncoding (extra_headers (request_info_ j)))
    by (apply GetHeader_before_accept; names_differ).
  assert (Hrange : HasHeader kRange pre = HasHeader kRange (extra_headers (request_info_ j)))
    by (apply HasHeader_before_accept; names_differ).
  unfold accept_headers. cbv zeta.
  set (h1 := if HasHeader kAcceptEncoding pre then pre else _).
  assert (Hh1 : GetHeader kAcceptEncoding h1 =
    match GetHeader kAcceptEncoding (extra_headers (request_info_ j)) with
    | Some v => Some v
    | None =>
        if HasHeader kRange (extra_headers (request_info_ j)) then Some "identity"
        else if bool_decide (AdvertisedEncodingNames (request_ j) = []) then None
        else Some (String.concat ", " (AdvertisedEncodingNames (request_ j)))
    end).
  { subst h1. rewrite <- Hae, <- Hrange.
    destruct (GetHeader kAcceptEncoding pre) as [v|] eqn:E.
    - rewrite (HasHeader_true _ _ _ E). exact E.
    - rewrite (HasHeader_false _ _ E).
      destruct (HasHeader kRange pre); [apply GetHeader_SetHeader_same|].
      destruct (bool_decide _); [exact E|apply GetHeader_SetHeader_same]. }
  destruct (http_user_agent_settings_ j) as [s|]; [|exact Hh1].
  destruct (_ && _); [|exact Hh1].
  rewrite GetHeader_SetHeaderIfMissing_other by names_differ. exact Hh1.
Qed.

Lemma GetHeader_start_headers_accept_language j :
  GetHeader kAcceptLanguage (start_headers j) =
    match GetHeader kAcceptLanguage (extra_headers (request_info_ j)) with
    | Some v => Some v
    | None =>
        match http_user_agent_settings_ j with
        | Some s =>
            if kAcceptLanguageHeader (env j) &&
               negb (bool_decide (GetAcceptLanguage s = ""))
            then Some (GetAcceptLanguage s) else None
        | None => None
        end
    end.
Proof.
  unfold start_headers. set (pre := site_headers _ _).
  assert (Hal : GetHeader kAcceptLanguage pre =
                GetHeader kAcceptLanguage (extra_headers (request_info_ j)))
    by (apply GetHeader_before_accept; names_differ).
  unfold accept_headers. cbv zeta.
  set (h1 := if HasHeader kAcceptEncoding pre then pre else _).
  assert (Hh1 : GetHeader kAcceptLanguage h1 =
                GetHeader kAcceptLanguage (extra_headers (request_info_ j))).
  { subst h1. rewrite <- Hal.
    destruct (HasHeader kAcceptEncoding pre); [reflexivity|].
    destruct (HasHeader kRange pre);
      [apply GetHeader_SetHeader_other; names_differ|].
    destruct (bool_decide _); [reflexivity|].
    apply GetHeader_SetHeader_other; names_differ. }
  clearbody h1 pre.
  destruct (http_user_agent_settings_ j) as [s|].
  - destruct (_ && _).
    + rewrite GetHeader_SetHeaderIfMissing_same, Hh1.
      destruct (GetHeader kAcceptLanguage (extra_headers (request_info_ j)));
        reflexivity.
    + rewrite Hh1.
      destruct (GetHeader kAcceptLanguage (extra_headers (request_info_ j)));
        reflexivity.
  - rewrite Hh1.
    destruct (GetHeader kAcceptLanguage (extra_headers (request_info_ j)));
      reflexivity.
Qed.

Lemma AdvertisedEncodingNames_spec r name :
  name ∈ AdvertisedEncodingNames r <->
  (name = "gzip" /\ Supports r TYPE_GZIP = true) \/
  (name = "deflate" /\ Supports r TYPE_DEFLATE = true) \/
  (name = "br" /\ enable_brotli (context r) = true /\ Supports r TYPE_BROTLI = true /\
   (SchemeIsCryptographic (url r) = true \/ IsLocalhost (url r) = true)).
Proof.
  unfold AdvertisedEncodingNames.
  rewrite list_elem_of_In, !in_app_iff.
  destruct (Supports r TYPE_GZIP), (Supports r TYPE_DEFLATE),
    (enable_brotli (context r)), (Supports r TYPE_BROTLI),
    (SchemeIsCryptographic (url r)), (IsLocalhost (url r)); cbn [andb orb In];
    intuition (first [congruence | auto]).
Qed.

(** C2, amended.  Start() runs to its end and leaves the outgoing headers
    as follows, [h0] being the extra headers it found.
    - Referer is the referrer's spec when the referrer is valid, unless
      the host contains amazon and the query contains kbdirect; it is
      absent otherwise, whatever [h0] held.
    - User-Agent is the literal of the host chain when the URL passes one
      of its tests, else the caller's value when [h0] has one, else the
      default of the settings (empty without settings).
    - Accept-Language is the caller's value when [h0] has one, else the
      default of the settings when there are settings, the feature is on
      and the default is not empty, else absent.
    - Accept-Encoding is the caller's value when [h0] has one, else
      "identity" when [h0] has a Range header, else the advertised names
      joined by ", ", and absent when no name is advertised.  The names
      are gzip, deflate and br, each under the request's support for it,
      br also under the context's brotli switch and only for a
      cryptographic scheme or a localhost URL. *)
Theorem Start_builds_headers (j : Job) :
  let r := request_ j in
  let u := url r in
  let h0 := extra_headers (request_info_ j) in
  let names := AdvertisedEncodingNames r in
  exists j',
    Start j = Some (tt, j') /\
    GetHeader kReferer (extra_headers (request_info_ j')) =
      (if is_valid (referrer r) &&
          negb (contains (host u) "amazon" && contains (query u) "kbdirect")
       then Some (spec (referrer r)) else None) /\
    GetHeader kUserAgent (extra_headers (request_info_ j')) =
      Some (match hard_coded_user_agent u with
            | Some ua => ua
            | None =>
                match GetHeader kUserAgent h0 with
                | Some v => v
                | None =>
                    match http_user_agent_settings_ j with
                    | Some s => GetUserAgent s
                    | None => ""
                    end
                end
            end) /\
    GetHeader kAcceptLanguage (extra_headers (request_info_ j')) =
      match GetHeader kAcceptLanguage h0 with
      | Some v => Some v
      | None =>
          match http_user_agent_settings_ j with
          | Some s =>
              if kAcceptLanguageHeader (env j) &&
                 negb (bool_decide (GetAcceptLanguage s = ""))
              then Some (GetAcceptLanguage s) else None
          | None => None
          end
      end /\
    GetHeader kAcceptEncoding (extra_headers (request_info_ j')) =
      match GetHeader kAcceptEncoding h0 with
      | Some v => Some v
      | None =>
          if HasHeader kRange h0 then Some "identity"
          else if bool_decide (names = []) then None
          else Some (String.concat ", " names)
      end /\
    (forall name,
       name ∈ names <->
       (name = "gzip" /\ Supports r TYPE_GZIP = true) \/
       (name = "deflate" /\ Supports r TYPE_DEFLATE = true) \/
       (name = "br" /\ enable_brotli (context r) = true /\
        Supports r TYPE_BROTLI = true /\
        (SchemeIsCryptographic u = true \/ IsLocalhost u = true))).
Proof.
  intros r u h0 names.
  destruct (Start_headers j) as (j' & Hrun & Hheaders & _).
  exists j'. split; [exact Hrun|]. rewrite Hheaders.
  split; [apply GetHeader_start_headers_referer|].
  split; [apply GetHeader_start_headers_user_agent|].
  split; [apply GetHeader_start_headers_accept_language|].
  split; [apply GetHeader_start_headers_accept_encoding|].
  apply AdvertisedEncodingNames_spec.
Qed.

(** On concrete requests: a valid referrer is sent, the defaults are
    filled in, and all three encodings are advertised over https. *)
Example Start_referred :
  header_after kReferer (Start job_referred) = Some (Some "https://referrer.example/") /\
  header_after kUserAgent (Start job_referred) = Some (Some "DefaultAgent/1.0") /\
  header_after kAcceptLanguage (Start job_referred) = Some (Some "en-US,en") /\
  header_after kAcceptEncoding (Start job_referred) = Some (Some "gzip, deflate, br").
Proof. repeat split; vm_compute; reflexivity. Qed.

(** ** Restart with credentials *)

Lemma RestartTransactionWithAuth_run credentials j :
  RestartTransactionWithAuth credentials j =
    AddCookieHeaderAndStart (cleared_for_restart credentials j).
Proof. reflexivity. Qed.

Lemma AddCookieHeaderAndStart_event j :
  exists e,
    AddCookieHeaderAndStart j = Some (tt, set_trace (trace j ++ [e]) j) /\
    ((exists store options,
        cookie_store (context (request_ j)) = Some store /\
        allow_credentials (request_ j) = true /\
        e = GetCookieListWithOptionsAsync options) \/
     ((cookie_store (context (request_ j)) = None \/
       allow_credentials (request_ j) = false) /\
      e = CallStartTransaction)).
Proof.
  unfold AddCookieHeaderAndStart, StartTransaction. unfold_monad.
  destruct (cookie_store (context (request_ j))) as [store|] eqn:Estore.
  - destruct (allow_credentials (request_ j)) eqn:Eallow.
    + eexists. split; [reflexivity|]. left. eauto.
    + eexists. split; [reflexivity|]. right. split; [right|]; reflexivity.
  - eexists. split; [reflexivity|]. right. split; [left|]; reflexivity.
Qed.

Lemma SetCookieHeaderAndStart_run options cookies excluded j :
  exists j',
    SetCookieHeaderAndStart options cookies excluded j = Some (tt, j') /\
    trace j' = trace j ++ [CallStartTransaction] /\
    extra_headers (request_info_ j') =
      match cookie_line_from_jar j cookies excluded with
      | Some line => SetHeader kCookie line (extra_headers (request_info_ j))
      | None => extra_headers (request_info_ j)
      end.
Proof.
  unfold SetCookieHeaderAndStart, cookie_line_from_jar, StartTransaction.
  rewrite !bind_gets.
  destruct (bool_decide (info_privacy_mode (request_info_ j) <> PRIVACY_MODE_DISABLED)).
  - eexists. split; [reflexivity|]. split; reflexivity.
  - cbv zeta.
    destruct (bool_decide
                (fst (AnnotateAndMoveUserBlockedCookies (env j) cookies excluded) = [])).
    + eexists. split; [reflexivity|]. split; reflexivity.
    + eexists. split; [reflexivity|]. split; reflexivity.
Qed.

(** C7. RestartTransactionWithAuth runs to its end.  It clears the
    response snapshot, the override headers and the headers-received
    time, takes the Cookie header out of the outgoing headers and leaves
    every other outgoing header as it was, and then is
    AddCookieHeaderAndStart: with a jar and credentials allowed its one
    call is the cookie query, and the callback of that query writes the
    Cookie header from the jar's answer alone before it starts the
    transaction; otherwise its one call starts the transaction, without a
    Cookie header. *)
Theorem RestartTransactionWithAuth_spec (j : Job) (credentials : AuthCredentials) :
  exists j',
    RestartTransactionWithAuth credentials j = Some (tt, j') /\
    RestartTransactionWithAuth credentials j =
      AddCookieHeaderAndStart (cleared_for_restart credentials j) /\
    response_info_ j' = None /\
    override_response_headers_ j' = None /\
    receive_headers_end_ j' = None /\
    GetHeader kCookie (extra_headers (request_info_ j')) = None /\
    (forall key,
       LowerString key <> LowerString kCookie ->
       GetHeader key (extra_headers (request_info_ j')) =
       GetHeader key (extra_headers (request_info_ j))) /\
    (exists e,
       trace j' = trace j ++ [e] /\
       ((exists store options,
           cookie_store (context (request_ j)) = Some store /\
           allow_credentials (request_ j) = true /\
           e = GetCookieListWithOptionsAsync options) \/
        ((cookie_store (context (request_ j)) = None \/
          allow_credentials (request_ j) = false) /\
         e = CallStartTransaction))) /\
    (forall options cookies excluded,
     exists j'',
       SetCookieHeaderAndStart options cookies excluded j' = Some (tt, j'') /\
       trace j'' = trace j' ++ [CallStartTransaction] /\
       GetHeader kCookie (extra_headers (request_info_ j'')) =
         cookie_line_from_jar j cookies excluded /\
       (forall key,
          LowerString key <> LowerString kCookie ->
          GetHeader key (extra_headers (request_info_ j'')) =
          GetHeader key (extra_headers (request_info_ j)))).
Proof.
  rewrite RestartTransactionWithAuth_run.
  destruct (AddCookieHeaderAndStart_event (cleared_for_restart credentials j))
    as (e & Hrun & He).
  rewrite Hrun. eexists. split; [reflexivity|]. split; [reflexivity|].
  split; [reflexivity|]. split; [reflexivity|]. split; [reflexivity|].
  assert (Hcookie : GetHeader kCookie
            (RemoveHeader kCookie (extra_headers (request_info_ j))) = None)
    by apply GetHeader_RemoveHeader_same.
  assert (Hother : forall key,
            LowerString key <> LowerString kCookie ->
            GetHeader key (RemoveHeader kCookie (extra_headers (request_info_ j))) =
            GetHeader key (extra_headers (request_info_ j))).
  { intros key Hne. apply GetHeader_RemoveHeader_other. congruence. }
  split; [exact Hcookie|]. split; [exact Hother|].
  split; [exists e; split; [reflexivity|exact He]|].
  intros options cookies excluded.
  destruct (SetCookieHeaderAndStart_run options cookies excluded
              (set_trace (trace (cleared_for_restart credentials j) ++ [e])
                 (cleared_for_restart credentials j)))
    as (j'' & Hrun' & Htrace & Hheaders).
  exists j''. split; [exact Hrun'|]. split; [exact Htrace|].
  rewrite Hheaders.
  change (cookie_line_from_jar (set_trace _ _) cookies excluded)
    with (cookie_line_from_jar j cookies excluded).
  cbn [extra_headers request_info_ set_trace cleared_for_restart with_extra_headers
       set_request_ set_request_info_ set_extra_headers set_receive_headers_end_
       set_override_response_headers_ set_response_info_ set_auth_credentials_].
  destruct (cookie_line_from_jar j cookies excluded) as [line|].
  - split; [apply GetHeader_SetHeader_same|].
    intros key Hne. rewrite GetHeader_SetHeader_other by congruence.
    apply Hother, Hne.
  - split; [exact Hcookie|exact Hother].
Qed.

(** A restart on a job that had sent Cookie: a=1 next to another header. *)
Example RestartTransactionWithAuth_drops_cookie :
  GetHeader kCookie (extra_headers (request_info_ job_401_with_cookie)) = Some "a=1" /\
  header_after kCookie (RestartTransactionWithAuth empty_credentials job_401_with_cookie)
    = Some None /\
  header_after "Accept" (RestartTransactionWithAuth empty_credentials job_401_with_cookie)
    = Some (Some "*/*").
Proof. repeat split; vm_compute; reflexivity. Qed.

(** ** Saving cookies and signalling headers-complete *)

Lemma wrap_int_in_range z :
  (INT_MIN <= z <= INT_MAX)%Z -> wrap_int z = z.
Proof.
  unfold wrap_int, INT_MIN, INT_MAX. intros Hz.
  rewrite Z.mod_small by lia. lia.
Qed.

Lemma headers_complete_count_app tr1 tr2 :
  headers_complete_count (tr1 ++ tr2) =
  headers_complete_count tr1 + headers_complete_count tr2.
Proof.
  unfold headers_complete_count. rewrite List.filter_app, length_app. reflexivity.
Qed.

Lemma same_setting_trans j1 j2 j3 :
  same_setting j1 j2 -> same_setting j2 j3 -> same_setting j1 j3.
Proof. unfold same_setting. intuition congruence. Qed.

Lemma GetResponseHeaders_run j t info :
  transaction_ j = Some t ->
  GetResponseInfo t = Some info ->
  exists h, GetResponseHeaders j = Some (h, j).
Proof.
  intros Ht Hinfo. unfold GetResponseHeaders. unfold_monad.
  destruct (override_response_headers_ j); [eauto|].
  rewrite Ht. cbn. rewrite Hinfo. eauto.
Qed.

Lemma ProcessStrictTransportSecurityHeader_quiet j t info info' :
  transaction_ j = Some t ->
  GetResponseInfo t = Some info ->
  response_info_ j = Some info' ->
  exists evs,
    ProcessStrictTransportSecurityHeader j = Some (tt, set_trace (trace j ++ evs) j) /\
    headers_complete_count evs = 0.
Proof.
  intros Ht Hinfo Hinfo'.
  destruct (GetResponseHeaders_run j t info Ht Hinfo) as [h Hh].
  unfold ProcessStrictTransportSecurityHeader. unfold_monad. rewrite Hinfo'.
  destruct (_ || _ || _).
  { exists []. rewrite set_trace_same. split; reflexivity. }
  destruct (HostIsIPAddress _).
  { exists []. rewrite set_trace_same. split; reflexivity. }
  rewrite Hh. destruct (EnumerateHeader _ h).
  - eexists [_]. split; reflexivity.
  - exists []. rewrite set_trace_same. split; reflexivity.
Qed.

Lemma ProcessExpectCTHeader_quiet j t info info' :
  transaction_ j = Some t ->
  GetResponseInfo t = Some info ->
  response_info_ j = Some info' ->
  exists evs,
    ProcessExpectCTHeader j = Some (tt, set_trace (trace j ++ evs) j) /\
    headers_complete_count evs = 0.
Proof.
  intros Ht Hinfo Hinfo'.
  destruct (GetResponseHeaders_run j t info Ht Hinfo) as [h Hh].
  unfold ProcessExpectCTHeader. unfold_monad. rewrite Hinfo'.
  destruct (_ || _ || _).
  { exists []. rewrite set_trace_same. split; reflexivity. }
  rewrite Hh. destruct (GetNormalizedHeader _ h).
  - eexists [_]. split; reflexivity.
  - exists []. rewrite set_trace_same. split; reflexivity.
Qed.

Lemma bind_run {A B} (m : M A) (k : A -> M B) j a j' :
  m j = Some (a, j') -> bind m k j = k a j'.
Proof. intros H. unfold bind. rewrite H. reflexivity. Qed.

Lemma bind_emit {B} e (k : unit -> M B) j :
  bind (emit e) k j = k tt (set_trace (trace j ++ [e]) j).
Proof. reflexivity. Qed.

Lemma NotifyHeadersComplete_effect j t info :
  transaction_ j = Some t ->
  GetResponseInfo t = Some info ->
  exists j',
    NotifyHeadersComplete j = Some (tt, j') /\
    same_setting j j' /\
    num_cookie_lines_left_ j' = num_cookie_lines_left_ j /\
    pending_set_cookie j' = pending_set_cookie j /\
    set_cookie_access_result_list_ j' = [] /\
    headers_complete_count (trace j') = S (headers_complete_count (trace j)) /\
    maybe_stored_cookies (request_ j') =
      (if IsReadyToRestartForAuth t then [] else set_cookie_access_result_list_ j).
Proof.
  intros Ht Hinfo. unfold NotifyHeadersComplete.
  rewrite bind_gets, Ht. cbn [deref]. unfold bind at 1, ret.
  rewrite bind_emit, bind_modify, bind_gets.
  cbn [response_info_ set_response_info_ set_trace]. rewrite Hinfo.
  cbn [deref]. unfold bind at 1, ret.
  set (j2 := set_response_info_ _ _).
  destruct (ProcessStrictTransportSecurityHeader_quiet j2 t info info Ht Hinfo eq_refl)
    as (evs1 & Hsts & Hq1).
  rewrite (bind_run _ _ _ _ _ Hsts).
  set (j3 := set_trace _ j2).
  destruct (ProcessExpectCTHeader_quiet j3 t info info Ht Hinfo eq_refl)
    as (evs2 & Hct & Hq2).
  rewrite (bind_run _ _ _ _ _ Hct), bind_modify.
  set (j5 := set_set_cookie_access_result_list_ _ _).
  assert (Hcount5 : headers_complete_count (trace j5) =
                    S (headers_complete_count (trace j))).
  { subst j5 j3 j2. cbn [trace set_trace set_set_cookie_access_result_list_
                         set_request_ set_response_info_].
    rewrite !headers_complete_count_app, Hq1, Hq2. cbn. lia. }
  destruct (IsReadyToRestartForAuth t) eqn:Erestart.
  - rewrite RestartTransactionWithAuth_run.
    destruct (AddCookieHeaderAndStart_event (cleared_for_restart empty_credentials j5))
      as (e & -> & He).
    eexists. split; [reflexivity|].
    split; [repeat split|]. split; [reflexivity|]. split; [reflexivity|].
    split; [reflexivity|]. split; [|reflexivity].
    cbn [trace set_trace cleared_for_restart set_request_ with_extra_headers
         set_request_info_ set_receive_headers_end_ set_override_response_headers_
         set_response_info_ set_auth_credentials_].
    rewrite headers_complete_count_app.
    change (trace (cleared_for_restart empty_credentials j5)) with (trace j5).
    rewrite Hcount5.
    destruct He as [(store & options & _ & _ & ->)|[_ ->]]; cbn; lia.
  - eexists. split; [reflexivity|].
    split; [repeat split|]. split; [reflexivity|]. split; [reflexivity|].
    split; [reflexivity|]. split; [|reflexivity].
    cbn [trace set_trace]. rewrite headers_complete_count_app, Hcount5. cbn. lia.
Qed.

Lemma OnSetCookieResult_effect options cookie cookie_string access_result j t info :
  transaction_ j = Some t ->
  GetResponseInfo t = Some info ->
  exists j' entry,
    OnSetCookieResult options cookie cookie_string access_result j = Some (tt, j') /\
    stored_cookie_string entry = cookie_string /\
    same_setting j j' /\
    num_cookie_lines_left_ j' = wrap_int (num_cookie_lines_left_ j - 1) /\
    pending_set_cookie j' = pending_set_cookie j /\
    (wrap_int (num_cookie_lines_left_ j - 1) <> 0%Z ->
     set_cookie_access_result_list_ j' = set_cookie_access_result_list_ j ++ [entry] /\
     maybe_stored_cookies (request_ j') = maybe_stored_cookies (request_ j) /\
     trace j' = trace j) /\
    (wrap_int (num_cookie_lines_left_ j - 1) = 0%Z ->
     set_cookie_access_result_list_ j' = [] /\
     headers_complete_count (trace j') = S (headers_complete_count (trace j)) /\
     maybe_stored_cookies (request_ j') =
       (if IsReadyToRestartForAuth t then []
        else set_cookie_access_result_list_ j ++ [entry])).
Proof.
  intros Ht Hinfo. unfold OnSetCookieResult.
  rewrite bind_gets. cbv zeta. rewrite !bind_modify, bind_gets.
  set (entry := {| stored_cookie := cookie; stored_cookie_string := cookie_string;
                   stored_access_result := _ |}).
  set (j2 := set_num_cookie_lines_left_ _ _).
  change (num_cookie_lines_left_ j2) with (wrap_int (num_cookie_lines_left_ j - 1)).
  destruct (wrap_int (num_cookie_lines_left_ j - 1) =? 0)%Z eqn:Ez.
  - apply Z.eqb_eq in Ez.
    destruct (NotifyHeadersComplete_effect j2 t info Ht Hinfo)
      as (j' & Hrun & Hsame & Hnum & Hpending & Hlist & Hcount & Hstored).
    exists j', entry. split; [exact Hrun|]. split; [reflexivity|].
    split; [exact Hsame|]. split; [exact Hnum|]. split; [exact Hpending|].
    split; [intros Hne; contradiction|]. intros _.
    split; [exact Hlist|]. split; [exact Hcount|exact Hstored].
  - apply Z.eqb_neq in Ez.
    exists j2, entry. split; [reflexivity|]. split; [reflexivity|].
    split; [repeat split|]. split; [reflexivity|]. split; [reflexivity|].
    split; [intros _; repeat split|]. intros Hz; contradiction.
Qed.

Lemma in_loop_pending_bound j0 j processed :
  in_loop j0 j processed ->
  length (pending_set_cookie j) <= length processed.
Proof.
  intros (_ & _ & _ & _ & Hperm).
  apply Permutation_length in Hperm. unfold cookie_lines_handled in Hperm.
  rewrite length_app, !length_map in Hperm. lia.
Qed.

(** A completion that the jar runs while the loop is still going. *)
Lemma RunSetCookieCallback_in_loop i result j0 j processed t info :
  transaction_ j0 = Some t ->
  GetResponseInfo t = Some info ->
  (Z.of_nat (length processed) < INT_MAX)%Z ->
  in_loop j0 j processed ->
  exists j',
    RunSetCookieCallback i result j = Some (tt, j') /\
    in_loop j0 j' processed.
Proof.
  intros Ht Hinfo Hbound Hinv.
  pose proof (in_loop_pending_bound _ _ _ Hinv) as Hp.
  unfold RunSetCookieCallback. rewrite bind_gets.
  destruct (pending_set_cookie j !! i) as [cb|] eqn:Hcb;
    [|exists j; split; [reflexivity|exact Hinv]].
  destruct Hinv as (Hsame & Hnum & Hcount & Hstored & Hperm).
  rewrite bind_modify.
  set (j1 := set_pending_set_cookie _ j).
  assert (Ht1 : transaction_ j1 = Some t).
  { destruct Hsame as (_ & Htrans & _). rewrite <- Ht, <- Htrans. reflexivity. }
  destruct (OnSetCookieResult_effect (bound_options cb) (bound_cookie cb)
              (bound_cookie_string cb) result j1 t info Ht1 Hinfo)
    as (j' & entry & Hrun & Hentry & Hsame' & Hnum' & Hpend' & Hne & _).
  pose proof (length_delete (pending_set_cookie j) i (mk_is_Some _ _ Hcb)) as Hlen.
  pose proof (lookup_lt_Some _ _ _ Hcb) as Hi.
  change (num_cookie_lines_left_ j1) with (num_cookie_lines_left_ j) in *.
  change (pending_set_cookie j1) with (delete i (pending_set_cookie j)) in *.
  change (set_cookie_access_result_list_ j1) with (set_cookie_access_result_list_ j) in *.
  change (maybe_stored_cookies (request_ j1)) with (maybe_stored_cookies (request_ j)) in *.
  change (trace j1) with (trace j) in *.
  assert (Hleft : wrap_int (num_cookie_lines_left_ j - 1) =
                  (1 + Z.of_nat (length (delete i (pending_set_cookie j))))%Z).
  { rewrite Hnum, wrap_int_in_range; unfold INT_MIN, INT_MAX in *; lia. }
  destruct Hne as (Hlist' & Hstored' & Htrace'); [rewrite Hleft; lia|].
  exists j'. split; [exact Hrun|].
  split; [apply (same_setting_trans _ j1); [exact Hsame|exact Hsame']|].
  split; [rewrite Hnum', Hleft, Hpend'; reflexivity|].
  split; [rewrite Htrace'; exact Hcount|].
  split; [rewrite Hstored'; exact Hstored|].
  rewrite <- Hperm. unfold cookie_lines_handled. rewrite Hlist', Hpend'.
  rewrite (delete_Permutation _ _ _ Hcb) at 2.
  rewrite map_app. cbn [map]. rewrite Hentry, <- app_assoc. reflexivity.
Qed.

Lemma RunSetCookieCallbacks_in_loop schedule :
  forall j0 j processed t info,
    transaction_ j0 = Some t ->
    GetResponseInfo t = Some info ->
    (Z.of_nat (length processed) < INT_MAX)%Z ->
    in_loop j0 j processed ->
    exists j',
      RunSetCookieCallbacks schedule j = Some (tt, j') /\
      in_loop j0 j' processed.
Proof.
  induction schedule as [|[i result] rest IH];
    intros j0 j processed t info Ht Hinfo Hbound Hinv.
  - exists j. split; [reflexivity|exact Hinv].
  - destruct (RunSetCookieCallback_in_loop i result j0 j processed t info
                Ht Hinfo Hbound Hinv) as (j1 & Hrun1 & Hinv1).
    destruct (IH j0 j1 processed t info Ht Hinfo Hbound Hinv1) as (j2 & Hrun2 & Hinv2).
    exists j2. split; [|exact Hinv2].
    cbn [RunSetCookieCallbacks]. rewrite (bind_run _ _ _ _ _ Hrun1). exact Hrun2.
Qed.

Lemma SaveCookieLine_step store options server_time line j0 j processed t info :
  transaction_ j0 = Some t ->
  GetResponseInfo t = Some info ->
  Create_gives_cookie_when_included j0 ->
  (Z.of_nat (length processed) + 1 < INT_MAX)%Z ->
  in_loop j0 j processed ->
  exists j',
    SaveCookieLine store options server_time line j = Some (tt, j') /\
    in_loop j0 j' (processed ++ [line]).
Proof.
  intros Ht Hinfo Hcreate Hbound Hinv.
  pose proof (in_loop_pending_bound _ _ _ Hinv) as Hp.
  destruct Hinv as (Hsame & Hnum & Hcount & Hstored & Hperm).
  destruct Hsame as (Henv & Htrans & Hurl & Hctx).
  unfold SaveCookieLine. rewrite !bind_gets, bind_modify.
  set (j1 := set_num_cookie_lines_left_ _ j).
  assert (Hnum1 : num_cookie_lines_left_ j1 =
                  (2 + Z.of_nat (length (pending_set_cookie j)))%Z).
  { subst j1. cbn [num_cookie_lines_left_ set_num_cookie_lines_left_].
    rewrite Hnum, wrap_int_in_range; unfold INT_MIN, INT_MAX in *; lia. }
  assert (Hleft : wrap_int (num_cookie_lines_left_ j1 - 1) =
                  (1 + Z.of_nat (length (pending_set_cookie j)))%Z).
  { rewrite Hnum1, wrap_int_in_range; unfold INT_MIN, INT_MAX in *; lia. }
  assert (Hleft0 : wrap_int (num_cookie_lines_left_ j1 - 1) <> 0%Z)
    by (rewrite Hleft; lia).
  assert (Ht1 : transaction_ j1 = Some t) by (rewrite <- Ht, <- Htrans; reflexivity).
  (* what a call of OnSetCookieResult does here *)
  assert (Hresult : forall cookie access_result,
    exists j',
      OnSetCookieResult options cookie line access_result j1 = Some (tt, j') /\
      in_loop j0 j' (processed ++ [line])).
  { intros cookie access_result.
    destruct (OnSetCookieResult_effect options cookie line access_result j1 t info
                Ht1 Hinfo)
      as (j' & entry & Hrun & Hentry & Hsame' & Hnum' & Hpend' & Hne & _).
    destruct (Hne Hleft0) as (Hlist' & Hstored' & Htrace').
    exists j'. split; [exact Hrun|].
    split.
    { apply (same_setting_trans _ j1); [repeat split; assumption|exact Hsame']. }
    split; [rewrite Hnum', Hleft, Hpend'; reflexivity|].
    split; [rewrite Htrace'; exact Hcount|].
    split; [rewrite Hstored'; exact Hstored|].
    unfold cookie_lines_handled. rewrite Hlist', Hpend', map_app. cbn [map].
    rewrite Hentry, <- Hperm. unfold cookie_lines_handled.
    change (pending_set_cookie j1) with (pending_set_cookie j).
    change (set_cookie_access_result_list_ j1) with (set_cookie_access_result_list_ j).
    rewrite <- !app_assoc. apply Permutation_app_head, Permutation_app_comm. }
  change (env j) with (env j1) in *. change (request_ j) with (request_ j1) in *.
  assert (Henv1 : env j1 = env j0) by exact Henv.
  assert (Hurl1 : url (request_ j1) = url (request_ j0)) by exact Hurl.
  rewrite Henv1, Hurl1.
  pose proof (Hcreate line server_time) as Hc.
  destruct (CanonicalCookie_Create (env j0) (url (request_ j0)) line server_time)
    as [cookie returned_status].
  cbn [fst snd] in *.
  destruct (IsInclude returned_status) eqn:Einclude.
  - destruct (Hc eq_refl) as [c ->]. cbn [deref].
    unfold bind at 1, ret. unfold bind at 1.
    destruct (CanSetCookie (env j0) c options); cbn [negb].
    + rewrite Einclude. cbn [negb].
      unfold bind at 1, ret. rewrite bind_modify.
      apply (RunSetCookieCallbacks_in_loop _ j0 _ _ t info Ht Hinfo).
      { rewrite length_app. cbn [length]. lia. }
      split; [repeat split; assumption|].
      split.
      { cbn [num_cookie_lines_left_ pending_set_cookie set_pending_set_cookie].
        change (pending_set_cookie j1) with (pending_set_cookie j).
        rewrite Hnum1, length_app. cbn [length]. lia. }
      split; [exact Hcount|]. split; [exact Hstored|].
      unfold cookie_lines_handled.
      cbn [pending_set_cookie set_pending_set_cookie set_cookie_access_result_list_].
      rewrite map_app. cbn [map bound_cookie_string].
      rewrite <- Hperm. unfold cookie_lines_handled.
      rewrite app_assoc. reflexivity.
    + cbn [IsInclude AddExclusionReason exclusion_reasons negb]. apply Hresult.
  - unfold bind at 1, ret.
    assert (Hstill : IsInclude
              (match cookie with
               | Some c =>
                   if negb (CanSetCookie (env j0) c options)
                   then AddExclusionReason EXCLUDE_USER_PREFERENCES returned_status
                   else returned_status
               | None => returned_status
               end) = false).
    { destruct cookie as [c|]; [|exact Einclude].
      destruct (negb _); [reflexivity|exact Einclude]. }
    rewrite Hstill. cbn [negb]. apply Hresult.
Qed.

Lemma SaveCookieLines_run store options server_time lines :
  forall j0 j processed t info,
    transaction_ j0 = Some t ->
    GetResponseInfo t = Some info ->
    Create_gives_cookie_when_included j0 ->
    (Z.of_nat (length processed + length lines) < INT_MAX)%Z ->
    in_loop j0 j processed ->
    exists j',
      SaveCookieLines store options server_time lines j = Some (tt, j') /\
      in_loop j0 j' (processed ++ lines).
Proof.
  induction lines as [|line rest IH]; intros j0 j processed t info Ht Hinfo Hcreate Hbound Hinv.
  - exists j. split; [reflexivity|]. rewrite app_nil_r. exact Hinv.
  - cbn [length] in Hbound.
    destruct (SaveCookieLine_step store options server_time line j0 j processed t info
                Ht Hinfo Hcreate ltac:(lia) Hinv) as (j1 & Hrun1 & Hinv1).
    destruct (IH j0 j1 (processed ++ [line]) t info Ht Hinfo Hcreate
                ltac:(rewrite length_app; cbn [length]; lia) Hinv1)
      as (j2 & Hrun2 & Hinv2).
    exists j2. split.
    + cbn [SaveCookieLines]. rewrite (bind_run _ _ _ _ _ Hrun1). exact Hrun2.
    + rewrite <- app_assoc in Hinv2. exact Hinv2.
Qed.

(** The end of the loop: the counter gives up the one it started with. *)
Lemma loop_exit j0 j lines t info :
  transaction_ j0 = Some t ->
  GetResponseInfo t = Some info ->
  (Z.of_nat (length lines) < INT_MAX)%Z ->
  in_loop j0 j lines ->
  exists j',
    (modify (fun j => set_num_cookie_lines_left_
                        (wrap_int (num_cookie_lines_left_ j - 1)) j);;
     let* left := gets num_cookie_lines_left_ in
     if (left =? 0)%Z then NotifyHeadersComplete else ret tt) j = Some (tt, j') /\
    after_loop j0 j' lines.
Proof.
  intros Ht Hinfo Hbound Hinv.
  pose proof (in_loop_pending_bound _ _ _ Hinv) as Hp.
  destruct Hinv as (Hsame & Hnum & Hcount & Hstored & Hperm).
  rewrite bind_modify, bind_gets.
  set (j1 := set_num_cookie_lines_left_ _ j).
  assert (Hnum1 : num_cookie_lines_left_ j1 = Z.of_nat (length (pending_set_cookie j))).
  { subst j1. cbn [num_cookie_lines_left_ set_num_cookie_lines_left_].
    rewrite Hnum, wrap_int_in_range; unfold INT_MIN, INT_MAX in *; lia. }
  rewrite Hnum1.
  destruct (pending_set_cookie j) as [|cb pending] eqn:Epending.
  - cbn [length Z.of_nat Z.eqb].
    assert (Ht1 : transaction_ j1 = Some t).
    { destruct Hsame as (_ & Htrans & _). rewrite <- Ht, <- Htrans. reflexivity. }
    destruct (NotifyHeadersComplete_effect j1 t info Ht1 Hinfo)
      as (j' & Hrun & Hsame' & Hnum' & Hpending' & Hlist' & Hcount' & Hstored').
    exists j'. split; [exact Hrun|].
    split; [apply (same_setting_trans _ j1); [exact Hsame|exact Hsame']|].
    change (pending_set_cookie j1) with (pending_set_cookie j) in Hpending'.
    rewrite Hpending', Epending. cbn [length Z.of_nat].
    split; [rewrite Hnum', Hnum1; reflexivity|].
    split; [lia|].
    split; [rewrite Hcount'; exact (f_equal S Hcount)|].
    intros t' Ht'. rewrite Ht in Ht'. injection Ht' as <-.
    rewrite Hstored'. destruct (IsReadyToRestartForAuth t); [reflexivity|].
    change (set_cookie_access_result_list_ j1) with (set_cookie_access_result_list_ j).
    unfold cookie_lines_handled in Hperm. rewrite Epending in Hperm.
    cbn [map] in Hperm. rewrite app_nil_r in Hperm. exact Hperm.
  - assert ((Z.of_nat (length (cb :: pending)) =? 0)%Z = false) as ->
      by (apply Z.eqb_neq; cbn [length]; lia).
    exists j1. split; [reflexivity|].
    split; [exact Hsame|].
    change (pending_set_cookie j1) with (pending_set_cookie j).
    rewrite Epending.
    split; [rewrite Hnum1; reflexivity|].
    split; [exact Hp|].
    split; [exact Hcount|].
    exact Hperm.
Qed.

Lemma SaveCookiesAndNotifyHeadersComplete_saving j t info h store :
  num_cookie_lines_left_ j = 0%Z ->
  set_cookie_access_result_list_ j = [] ->
  pending_set_cookie j = [] ->
  transaction_ j = Some t ->
  GetResponseInfo t = Some info ->
  Create_gives_cookie_when_included j ->
  cookie_store (context (request_ j)) = Some store ->
  Z.land (info_load_flags (request_info_ j)) LOAD_DO_NOT_SAVE_COOKIES = 0%Z ->
  GetResponseHeaders j = Some (h, j) ->
  (Z.of_nat (length (EnumerateHeaderAll "Set-Cookie" h)) < INT_MAX)%Z ->
  exists j1,
    SaveCookiesAndNotifyHeadersComplete OK j = Some (tt, j1) /\
    after_loop j j1 (EnumerateHeaderAll "Set-Cookie" h).
Proof.
  intros Hnum Hlist Hpending Ht Hinfo Hcreate Hstore Hflag Hheaders Hbound.
  unfold SaveCookiesAndNotifyHeadersComplete.
  rewrite bind_gets, Hnum. cbn [Z.eqb negb OK].
  rewrite !bind_gets, Hstore, Hflag. cbn [Z.eqb negb].
  rewrite (bind_run _ _ _ _ _ Hheaders). cbv zeta.
  rewrite (bind_run _ _ _ _ _ Hheaders), bind_modify.
  set (j0 := set_num_cookie_lines_left_ 1 j).
  assert (Hinv : in_loop j j0 []).
  { split; [repeat split|]. split; [subst j0; cbn; rewrite Hpending; reflexivity|].
    split; [reflexivity|]. split; [reflexivity|].
    unfold cookie_lines_handled. subst j0. cbn. rewrite Hlist, Hpending. reflexivity. }
  match goal with
  | |- context [SaveCookieLines ?s ?o ?st ?ls] =>
      destruct (SaveCookieLines_run s o st ls j j0 [] t info Ht Hinfo Hcreate
                  ltac:(cbn [length]; lia) Hinv) as (j1 & Hrun1 & Hinv1)
  end.
  rewrite (bind_run _ _ _ _ _ Hrun1).
  cbn [app] in Hinv1.
  exact (loop_exit j j1 _ t info Ht Hinfo Hbound Hinv1).
Qed.

Lemma SaveCookiesAndNotifyHeadersComplete_not_saving j t info :
  num_cookie_lines_left_ j = 0%Z ->
  set_cookie_access_result_list_ j = [] ->
  pending_set_cookie j = [] ->
  transaction_ j = Some t ->
  GetResponseInfo t = Some info ->
  ~ saves_cookies j ->
  exists j1,
    SaveCookiesAndNotifyHeadersComplete OK j = Some (tt, j1) /\
    after_loop j j1 [].
Proof.
  intros Hnum Hlist Hpending Ht Hinfo Hnot.
  assert (Hrun : SaveCookiesAndNotifyHeadersComplete OK j = NotifyHeadersComplete j).
  { unfold SaveCookiesAndNotifyHeadersComplete.
    rewrite bind_gets, Hnum. cbn [Z.eqb negb OK]. rewrite !bind_gets.
    destruct (cookie_store (context (request_ j))) as [store|] eqn:Estore;
      [|reflexivity].
    destruct (Z.land (info_load_flags (request_info_ j)) LOAD_DO_NOT_SAVE_COOKIES =? 0)%Z
      eqn:Eflag; [|reflexivity].
    exfalso. apply Hnot. split; [rewrite Estore; eauto|apply Z.eqb_eq, Eflag]. }
  rewrite Hrun.
  destruct (NotifyHeadersComplete_effect j t info Ht Hinfo)
    as (j' & Hrun' & Hsame' & Hnum' & Hpending' & Hlist' & Hcount' & Hstored').
  exists j'. split; [exact Hrun'|].
  split; [exact Hsame'|].
  rewrite Hpending', Hpending. cbn [length Z.of_nat].
  split; [rewrite Hnum', Hnum; reflexivity|]. split; [lia|].
  split; [exact Hcount'|].
  intros t' Ht'. rewrite Ht in Ht'. injection Ht' as <-.
  rewrite Hstored'. destruct (IsReadyToRestartForAuth t); [reflexivity|].
  rewrite Hlist. reflexivity.
Qed.

(** One completion by the jar once the loop is over. *)
Lemma RunSetCookieCallback_step i result j0 j lines t info :
  transaction_ j0 = Some t ->
  GetResponseInfo t = Some info ->
  (Z.of_nat (length lines) < INT_MAX)%Z ->
  after_loop j0 j lines ->
  exists j',
    RunSetCookieCallback i result j = Some (tt, j') /\
    after_loop j0 j' lines /\
    (i < length (pending_set_cookie j) ->
     length (pending_set_cookie j') = length (pending_set_cookie j) - 1).
Proof.
  intros Ht Hinfo Hbound Hafter.
  unfold RunSetCookieCallback. rewrite bind_gets.
  destruct (pending_set_cookie j !! i) as [cb|] eqn:Hcb.
  2:{ exists j. split; [reflexivity|]. split; [exact Hafter|].
      intros Hi. apply lookup_ge_None_1 in Hcb. lia. }
  destruct Hafter as (Hsame & Hnum & Hle & Hrest).
  pose proof (lookup_lt_Some _ _ _ Hcb) as Hi.
  rewrite bind_modify.
  set (j1 := set_pending_set_cookie _ j).
  assert (Ht1 : transaction_ j1 = Some t).
  { destruct Hsame as (_ & Htrans & _). rewrite <- Ht, <- Htrans. reflexivity. }
  destruct (OnSetCookieResult_effect (bound_options cb) (bound_cookie cb)
              (bound_cookie_string cb) result j1 t info Ht1 Hinfo)
    as (j' & entry & Hrun & Hentry & Hsame' & Hnum' & Hpend' & Hne & Hz).
  pose proof (length_delete (pending_set_cookie j) i (mk_is_Some _ _ Hcb)) as Hlen.
  change (num_cookie_lines_left_ j1) with (num_cookie_lines_left_ j) in *.
  change (pending_set_cookie j1) with (delete i (pending_set_cookie j)) in *.
  change (set_cookie_access_result_list_ j1) with (set_cookie_access_result_list_ j) in *.
  change (maybe_stored_cookies (request_ j1)) with (maybe_stored_cookies (request_ j)) in *.
  change (trace j1) with (trace j) in *.
  assert (Hleft : wrap_int (num_cookie_lines_left_ j - 1) =
                  Z.of_nat (length (delete i (pending_set_cookie j)))).
  { rewrite Hnum, wrap_int_in_range; unfold INT_MIN, INT_MAX in *; lia. }
  assert (Hhandled : cookie_lines_handled j ≡ₚ lines).
  { destruct (pending_set_cookie j); [cbn in Hi; lia|]. apply Hrest. }
  assert (Hcount : headers_complete_count (trace j) = headers_complete_count (trace j0)).
  { destruct (pending_set_cookie j); [cbn in Hi; lia|]. apply Hrest. }
  assert (Hperm : map stored_cookie_string (set_cookie_access_result_list_ j ++ [entry]) ++
                  map bound_cookie_string (delete i (pending_set_cookie j)) ≡ₚ lines).
  { rewrite <- Hhandled. unfold cookie_lines_handled.
    rewrite (delete_Permutation _ _ _ Hcb) at 2.
    rewrite map_app. cbn [map]. rewrite Hentry, <- app_assoc. reflexivity. }
  exists j'. split; [exact Hrun|]. split; [|rewrite Hpend'; lia].
  split; [apply (same_setting_trans _ j1); [exact Hsame|exact Hsame']|].
  rewrite Hpend'. split; [rewrite Hnum', Hleft; reflexivity|]. split; [lia|].
  destruct (delete i (pending_set_cookie j)) as [|cb' rest] eqn:Edel.
  - destruct (Hz Hleft) as (Hlist' & Hcount' & Hstored').
    split; [rewrite Hcount', Hcount; reflexivity|].
    intros t' Ht'. rewrite Ht in Ht'. injection Ht' as <-.
    rewrite Hstored'. destruct (IsReadyToRestartForAuth t); [reflexivity|].
    cbn [map] in Hperm. rewrite app_nil_r in Hperm. exact Hperm.
  - destruct Hne as (Hlist' & Hstored' & Htrace').
    { rewrite Hleft. cbn [length]. lia. }
    split; [rewrite Htrace'; exact Hcount|].
    unfold cookie_lines_handled. rewrite Hlist', Hpend'. exact Hperm.
Qed.

Lemma RunSetCookieCallbacks_run schedule :
  forall j0 j lines t info,
    transaction_ j0 = Some t ->
    GetResponseInfo t = Some info ->
    (Z.of_nat (length lines) < INT_MAX)%Z ->
    after_loop j0 j lines ->
    exists j',
      RunSetCookieCallbacks schedule j = Some (tt, j') /\
      after_loop j0 j' lines /\
      (valid_schedule (length (pending_set_cookie j)) schedule ->
       length (pending_set_cookie j') =
       length (pending_set_cookie j) - length schedule).
Proof.
  induction schedule as [|[i result] rest IH];
    intros j0 j lines t info Ht Hinfo Hbound Hafter.
  - exists j. split; [reflexivity|]. split; [exact Hafter|]. cbn [length]. lia.
  - destruct (RunSetCookieCallback_step i result j0 j lines t info Ht Hinfo Hbound
                Hafter) as (j1 & Hrun1 & Hafter1 & Hlen1).
    destruct (IH j0 j1 lines t info Ht Hinfo Hbound Hafter1)
      as (j2 & Hrun2 & Hafter2 & Hlen2).
    exists j2. split.
    + cbn [RunSetCookieCallbacks]. rewrite (bind_run _ _ _ _ _ Hrun1). exact Hrun2.
    + split; [exact Hafter2|]. intros [Hi Hvalid].
      specialize (Hlen1 Hi). rewrite <- Hlen1 in Hvalid.
      rewrite (Hlen2 Hvalid). cbn [length]. lia.
Qed.

Lemma after_loop_facts j0 j lines :
  after_loop j0 j lines ->
  num_cookie_lines_left_ j = Z.of_nat (length (pending_set_cookie j)) /\
  length (pending_set_cookie j) <= length lines /\
  headers_complete_count (trace j) =
    headers_complete_count (trace j0) +
    match pending_set_cookie j with [] => 1 | _ :: _ => 0 end /\
  (pending_set_cookie j = [] ->
   forall t, transaction_ j0 = Some t ->
             if IsReadyToRestartForAuth t
             then maybe_stored_cookies (request_ j) = []
             else map stored_cookie_string (maybe_stored_cookies (request_ j)) ≡ₚ lines).
Proof.
  intros (_ & Hnum & Hle & Hrest).
  split; [exact Hnum|]. split; [exact Hle|].
  destruct (pending_set_cookie j) as [|cb rest].
  - destruct Hrest as [Hcount Hstored]. split; [lia|]. intros _. exact Hstored.
  - destruct Hrest as [Hcount _]. split; [lia|]. discriminate.
Qed.

(** C1. Take a job that has no cookie line left over from before and
    whose transaction holds a response, with [lines] its Set-Cookie lines,
    fewer than INT_MAX.  SaveCookiesAndNotifyHeadersComplete(OK) runs to its
    end, whichever callbacks the jar runs inside its calls, and so does
    every schedule by which the jar afterwards completes outstanding
    calls, in whatever order.  After any such run the counter equals the
    number of calls still outstanding, and NotifyHeadersComplete has been
    entered once if that number is zero and not at all otherwise; a
    schedule that names existing calls only brings the number down by its
    length.  Without Set-Cookie lines NotifyHeadersComplete has been
    entered when SaveCookiesAndNotifyHeadersComplete returns, with an empty
    list of stored cookies.  When the job saves cookies and the last call
    has completed, the list handed to the request has one entry per
    line. *)
Theorem headers_complete_exactly_once (j : Job) (t : HttpTransaction)
    (info : HttpResponseInfo) (h : HttpResponseHeaders) :
  num_cookie_lines_left_ j = 0%Z ->
  set_cookie_access_result_list_ j = [] ->
  pending_set_cookie j = [] ->
  transaction_ j = Some t ->
  GetResponseInfo t = Some info ->
  GetResponseHeaders j = Some (h, j) ->
  Create_gives_cookie_when_included j ->
  (Z.of_nat (length (EnumerateHeaderAll "Set-Cookie" h)) < INT_MAX)%Z ->
  let lines := EnumerateHeaderAll "Set-Cookie" h in
  exists j1,
    SaveCookiesAndNotifyHeadersComplete OK j = Some (tt, j1) /\
    length (pending_set_cookie j1) <= length lines /\
    (lines = [] ->
     pending_set_cookie j1 = [] /\
     headers_complete_count (trace j1) = S (headers_complete_count (trace j)) /\
     maybe_stored_cookies (request_ j1) = []) /\
    forall schedule,
      exists j2,
        RunSetCookieCallbacks schedule j1 = Some (tt, j2) /\
        (valid_schedule (length (pending_set_cookie j1)) schedule ->
         length (pending_set_cookie j2) =
           length (pending_set_cookie j1) - length schedule) /\
        num_cookie_lines_left_ j2 = Z.of_nat (length (pending_set_cookie j2)) /\
        headers_complete_count (trace j2) =
          headers_complete_count (trace j) +
          match pending_set_cookie j2 with [] => 1 | _ :: _ => 0 end /\
        (pending_set_cookie j2 = [] ->
         IsReadyToRestartForAuth t = false ->
         saves_cookies j ->
         map stored_cookie_string (maybe_stored_cookies (request_ j2)) ≡ₚ lines).
Proof.
  intros Hnum Hlist Hpending Ht Hinfo Hheaders Hcreate Hbound lines.
  assert (Hsave : exists j1 saved,
            SaveCookiesAndNotifyHeadersComplete OK j = Some (tt, j1) /\
            after_loop j j1 saved /\
            length saved <= length lines /\
            (saves_cookies j -> saved = lines)).
  { destruct (cookie_store (context (request_ j))) as [store|] eqn:Estore.
    - destruct (Z.eq_dec
                  (Z.land (info_load_flags (request_info_ j)) LOAD_DO_NOT_SAVE_COOKIES) 0)
        as [Hflag|Hflag].
      + destruct (SaveCookiesAndNotifyHeadersComplete_saving j t info h store
                    Hnum Hlist Hpending Ht Hinfo Hcreate Estore Hflag Hheaders Hbound)
          as (j1 & Hrun & Hafter).
        exists j1, lines. split; [exact Hrun|]. split; [exact Hafter|].
        split; [lia|reflexivity].
      + destruct (SaveCookiesAndNotifyHeadersComplete_not_saving j t info
                    Hnum Hlist Hpending Ht Hinfo) as (j1 & Hrun & Hafter).
        { intros [_ Hz]. contradiction. }
        exists j1, []. split; [exact Hrun|]. split; [exact Hafter|].
        split; [cbn [length]; lia|]. intros [_ Hz]. contradiction.
    - destruct (SaveCookiesAndNotifyHeadersComplete_not_saving j t info
                  Hnum Hlist Hpending Ht Hinfo) as (j1 & Hrun & Hafter).
      { intros [[x Hx] _]. congruence. }
      exists j1, []. split; [exact Hrun|]. split; [exact Hafter|].
      split; [cbn [length]; lia|]. intros [[x Hx] _]. congruence. }
  destruct Hsave as (j1 & saved & Hrun & Hafter & Hsaved_le & Hsaved).
  assert (Hbound' : (Z.of_nat (length saved) < INT_MAX)%Z) by (fold lines in Hbound; lia).
  destruct (after_loop_facts _ _ _ Hafter) as (Hnum1 & Hle1 & Hcount1 & Hstored1).
  exists j1. split; [exact Hrun|]. split; [lia|]. split.
  - intros Hnone. rewrite Hnone in Hsaved_le. cbn [length] in Hsaved_le.
    assert (Hp : pending_set_cookie j1 = [])
      by (destruct (pending_set_cookie j1); [reflexivity|cbn [length] in Hle1; lia]).
    split; [exact Hp|]. rewrite Hp in Hcount1. split; [lia|].
    specialize (Hstored1 Hp t Ht).
    destruct (IsReadyToRestartForAuth t); [exact Hstored1|].
    destruct saved; [|cbn [length] in Hsaved_le; lia].
    apply Permutation_nil_r in Hstored1.
    destruct (maybe_stored_cookies (request_ j1)); [reflexivity|discriminate Hstored1].
  - intros schedule.
    destruct (RunSetCookieCallbacks_run schedule j j1 saved t info Ht Hinfo Hbound'
                Hafter) as (j2 & Hrun2 & Hafter2 & Hlen2).
    destruct (after_loop_facts _ _ _ Hafter2) as (Hnum2 & Hle2 & Hcount2 & Hstored2).
    exists j2. split; [exact Hrun2|]. split; [exact Hlen2|]. split; [exact Hnum2|].
    split; [exact Hcount2|].
    intros Hp Hready Hsaves. rewrite <- (Hsaved Hsaves).
    specialize (Hstored2 Hp t Ht). rewrite Hready in Hstored2. exact Hstored2.
Qed.

Lemma example_env_Create_contract r h seen :
  Create_gives_cookie_when_included (job_with_response r h seen).
Proof.
  intros line server_time.
  change (env (job_with_response r h seen)) with example_env.
  cbn [CanonicalCookie_Create example_env].
  case_bool_decide; cbn; [discriminate|eauto].
Qed.

Lemma headers_complete_exactly_once_witness :
  num_cookie_lines_left_ job_set_cookie = 0%Z /\
  GetResponseHeaders job_set_cookie = Some (set_cookie_headers, job_set_cookie) /\
  length (EnumerateHeaderAll "Set-Cookie" set_cookie_headers) = 6 /\
  exists j1 j2,
    SaveCookiesAndNotifyHeadersComplete OK job_set_cookie = Some (tt, j1) /\
    length (pending_set_cookie j1) = 2 /\
    headers_complete_count (trace j1) = 0 /\
    RunSetCookieCallbacks out_of_order j1 = Some (tt, j2) /\
    num_cookie_lines_left_ j2 = 0%Z /\
    headers_complete_count (trace j2) = 1.
Proof.
  split; [reflexivity|]. split; [reflexivity|]. split; [vm_compute; reflexivity|].
  destruct (headers_complete_exactly_once job_set_cookie
              {| GetResponseInfo := Some (example_info set_cookie_headers);
                 IsReadyToRestartForAuth := false |}
              (example_info set_cookie_headers) set_cookie_headers
              eq_refl eq_refl eq_refl eq_refl eq_refl eq_refl
              (example_env_Create_contract _ _ _)
              ltac:(vm_compute; reflexivity))
    as (j1 & Hrun & _ & _ & Hschedule).
  assert (Hout : outstanding_after
                   (SaveCookiesAndNotifyHeadersComplete OK job_set_cookie) = Some 2)
    by (vm_compute; reflexivity).
  rewrite Hrun in Hout. injection Hout as Hout.
  destruct (Hschedule []) as (j1' & Hrun0 & _ & _ & Hcount0 & _).
  injection Hrun0 as <-.
  destruct (Hschedule out_of_order) as (j2 & Hrun2 & Hlen2 & Hnum2 & Hcount2 & _).
  specialize (Hlen2 ltac:(rewrite Hout; cbn; lia)).
  exists j1, j2. split; [exact Hrun|]. split; [exact Hout|].
  split.
  { rewrite Hcount0. destruct (pending_set_cookie j1); [discriminate Hout|reflexivity]. }
  split; [exact Hrun2|].
  rewrite Hout in Hlen2. cbn in Hlen2.
  split; [rewrite Hnum2, Hlen2; reflexivity|].
  rewrite Hcount2. destruct (pending_set_cookie j2); [reflexivity|discriminate Hlen2].
Defined.

(** ** More on the authentication states *)

Lemma NeedsAuth_reads_code j b j1 :
  NeedsAuth j = Some (b, j1) ->
  exists code, GetResponseCode j = Some (code, j).
Proof.
  intros H. unfold NeedsAuth, bind in H.
  destruct (GetResponseCode j) as [[code j0]|] eqn:Ecode; [|discriminate H].
  exists code. pose proof (GetResponseCode_state _ _ _ Ecode) as E0.
  subst j0. reflexivity.
Qed.

(** X1.  NeedsAuth() is idempotent: asked a second time about the same
    response it gives the same answer and changes nothing any more; and
    it never takes a side out of the cancelled state. *)
Theorem NeedsAuth_idempotent (j j1 : Job) (b : bool) :
  NeedsAuth j = Some (b, j1) ->
  NeedsAuth j1 = Some (b, j1) /\
  (proxy_auth_state_ j = AUTH_STATE_CANCELED ->
   proxy_auth_state_ j1 = AUTH_STATE_CANCELED) /\
  (server_auth_state_ j = AUTH_STATE_CANCELED ->
   server_auth_state_ j1 = AUTH_STATE_CANCELED).
Proof.
  intros H. destruct (NeedsAuth_reads_code _ _ _ H) as [code Hcode].
  rewrite (NeedsAuth_unfold _ _ Hcode) in H.
  assert (Hframe : forall j',
            response_info_ j' = response_info_ j ->
            override_response_headers_ j' = override_response_headers_ j ->
            transaction_ j' = transaction_ j ->
            GetResponseCode j' = Some (code, j'))
    by (intros j' H1 H2 H3; exact (GetResponseCode_frame j j' code H1 H2 H3 Hcode)).
  destruct (code =? -1)%Z eqn:E1.
  { injection H as <- <-. rewrite (NeedsAuth_unfold _ _ Hcode), E1. auto. }
  destruct (code =? 407)%Z eqn:E2.
  { case_bool_decide as Hc; injection H as <- <-.
    - rewrite (NeedsAuth_unfold _ _ Hcode), E1, E2, bool_decide_true by exact Hc. auto.
    - rewrite (NeedsAuth_unfold _ code
                 (Hframe (set_proxy_auth_state_ AUTH_STATE_NEED_AUTH j)
                    eq_refl eq_refl eq_refl)), E1, E2.
      cbn [proxy_auth_state_ server_auth_state_ set_proxy_auth_state_].
      rewrite bool_decide_false by discriminate.
      split; [reflexivity|]. split; [intros Hc'; contradiction|auto]. }
  destruct (code =? 401)%Z eqn:E3.
  { case_bool_decide as Hc; injection H as <- <-.
    - rewrite (NeedsAuth_unfold _ _ Hcode), E1, E2, E3, bool_decide_true by exact Hc. auto.
    - rewrite (NeedsAuth_unfold _ code
                 (Hframe (set_server_auth_state_ AUTH_STATE_NEED_AUTH j)
                    eq_refl eq_refl eq_refl)), E1, E2, E3.
      cbn [proxy_auth_state_ server_auth_state_ set_server_auth_state_].
      rewrite bool_decide_false by discriminate.
      split; [reflexivity|]. split; [auto|intros Hc'; contradiction]. }
  injection H as <- <-. rewrite (NeedsAuth_unfold _ _ Hcode), E1, E2, E3. auto.
Qed.

Lemma NeedsAuth_idempotent_witness :
  NeedsAuth job_407 = Some (true, set_proxy_auth_state_ AUTH_STATE_NEED_AUTH job_407) /\
  NeedsAuth (set_proxy_auth_state_ AUTH_STATE_NEED_AUTH job_407) =
    Some (true, set_proxy_auth_state_ AUTH_STATE_NEED_AUTH job_407).
Proof.
  split; [reflexivity|].
  exact (proj1 (NeedsAuth_idempotent job_407 _ true eq_refl)).
Defined.

Lemma GetResponseCode_without_response j :
  response_info_ j = None -> GetResponseCode j = Some ((-1)%Z, j).
Proof. intros H. unfold GetResponseCode. unfold_monad. rewrite H. reflexivity. Qed.


Lemma SetUpSourceStream_without_response j :
  response_info_ j = None -> SetUpSourceStream j = Some (None, j).
Proof. intros H. unfold SetUpSourceStream. unfold_monad. rewrite H. reflexivity. Qed.

(** The job as SetAuth() has it when it restarts the transaction. *)
Lemma SetAuth_run credentials j :
  SetAuth credentials j =
    AddCookieHeaderAndStart
      (cleared_for_restart credentials
         (if bool_decide (proxy_auth_state_ j = AUTH_STATE_NEED_AUTH)
          then set_proxy_auth_state_ AUTH_STATE_HAVE_AUTH j
          else set_server_auth_state_ AUTH_STATE_HAVE_AUTH j)).
Proof.
  unfold SetAuth. rewrite bind_gets.
  rewrite <- RestartTransactionWithAuth_run.
  case_bool_decide; reflexivity.
Qed.



(** ** More on the outgoing headers *)

Lemma Start_state j :
  exists e,
    Start j = Some (tt, set_trace (trace j ++ [e])
                          (set_request_info_ (start_request_info j) j)) /\
    (e = CallStartTransaction \/ exists options, e = GetCookieListWithOptionsAsync options).
Proof.
  rewrite Start_run.
  destruct (AddCookieHeaderAndStart_run (set_request_info_ (start_request_info j) j))
    as (e & Hrun & He).
  exists e. split; [exact Hrun|exact He].
Qed.



(** X4.  On the News branch of Start() the injected CONSENT cookie is
    what the request sends unless the jar has cookies to include: in
    privacy mode, and when the jar includes nothing, the callback of the
    jar leaves the injected Cookie header in place; otherwise the jar's
    cookie line replaces it. *)
Theorem news_cookie_meets_jar (j : Job) (options : CookieOptions)
    (cookies excluded : list CookieWithAccessResult) :
  google_news_branch (url (request_ j)) = true ->
  let included := fst (AnnotateAndMoveUserBlockedCookies (env j) cookies excluded) in
  exists j' j'',
    Start j = Some (tt, j') /\
    SetCookieHeaderAndStart options cookies excluded j' = Some (tt, j'') /\
    GetHeader kCookie (extra_headers (request_info_ j'')) =
      Some (if bool_decide (privacy_mode (request_ j) <> PRIVACY_MODE_DISABLED)
            then kGoogleNewsCookie
            else if bool_decide (included = []) then kGoogleNewsCookie
            else BuildCookieLine (env j) included).
Proof.
  intros Hnews included.
  destruct (Start_state j) as (e & Hrun & _).
  set (j' := set_trace _ _) in Hrun.
  destruct (SetCookieHeaderAndStart_run options cookies excluded j')
    as (j'' & Hrun' & _ & Hheaders).
  exists j', j''. split; [exact Hrun|]. split; [exact Hrun'|].
  rewrite Hheaders.
  assert (Hstart : GetHeader kCookie (extra_headers (request_info_ j')) =
                   Some kGoogleNewsCookie).
  { subst j'. cbn [extra_headers request_info_ set_trace set_request_info_
                   start_request_info].
    change kCookie with "Cookie". rewrite GetHeader_start_headers_cookie, Hnews.
    reflexivity. }
  unfold cookie_line_from_jar.
  change (info_privacy_mode (request_info_ j')) with (privacy_mode (request_ j)).
  change (env j') with (env j). fold included.
  case_bool_decide; [exact Hstart|].
  case_bool_decide; [exact Hstart|].
  apply GetHeader_SetHeader_same.
Qed.

Lemma news_cookie_meets_jar_witness :
  exists j' j'',
    Start job_news = Some (tt, j') /\
    SetCookieHeaderAndStart
      (CreateCookieOptions {| AffectedByBugfix1166211 := false |} 0 None false)
      [] [] j' = Some (tt, j'') /\
    GetHeader kCookie (extra_headers (request_info_ j'')) = Some kGoogleNewsCookie.
Proof.
  destruct (news_cookie_meets_jar job_news
              (CreateCookieOptions {| AffectedByBugfix1166211 := false |} 0 None false)
              [] []) as (j' & j'' & Hrun & Hrun' & Hget).
  - vm_compute. reflexivity.
  - exists j', j''. split; [exact Hrun|]. split; [exact Hrun'|].
    rewrite Hget. reflexivity.
Defined.

(** ** Expect-CT and the end of the headers *)

Lemma expect_ct_accepted_test j info :
  expect_ct_accepted j info <->
  negb (ssl_is_valid (ssl_info info))
  || IsCertStatusError (cert_status (ssl_info info))
  || negb (bool_decide (is_Some (transport_security_state (context (request_ j)))))
  = false.
Proof.
  unfold expect_ct_accepted, IsCertStatusError.
  rewrite !orb_false_iff, !negb_false_iff, bool_decide_eq_true, Z.eqb_eq.
  tauto.
Qed.

(** X5.  An Expect-CT header is handed to the transport security state
    exactly when the connection used valid TLS without certificate error
    and a security state exists; the value handed over is all the
    Expect-CT lines joined by a comma and a space, and the host being an
    IP literal does not prevent it. *)
Theorem ExpectCT_forwarded_when_accepted (j : Job) (info : HttpResponseInfo)
    (h : HttpResponseHeaders) :
  response_info_ j = Some info ->
  GetResponseHeaders j = Some (h, j) ->
  exists j',
    ProcessExpectCTHeader j = Some (tt, j') /\
    j' = set_trace (trace j') j /\
    (forall first more,
       EnumerateHeaderAll "Expect-CT" h = first :: more ->
       (expect_ct_accepted j info ->
        trace j' = trace j ++ [ProcessExpectCT (String.concat ", " (first :: more))]) /\
       (~ expect_ct_accepted j info -> trace j' = trace j)) /\
    (EnumerateHeaderAll "Expect-CT" h = [] -> trace j' = trace j).
Proof.
  intros Hinfo Hh. unfold ProcessExpectCTHeader. unfold_monad. rewrite Hinfo.
  pose proof (expect_ct_accepted_test j info) as Htest.
  destruct (_ || _ || _).
  - exists j. split; [reflexivity|]. split; [destruct j; reflexivity|].
    split; [|reflexivity]. intros first more _.
    split; [intros Hacc; apply Htest in Hacc; discriminate Hacc|reflexivity].
  - rewrite Hh. unfold GetNormalizedHeader.
    destruct (EnumerateHeaderAll "Expect-CT" h) as [|first more].
    + exists j. split; [reflexivity|]. split; [destruct j; reflexivity|].
      split; [intros ? ? [=]|reflexivity].
    + eexists. split; [reflexivity|]. split; [reflexivity|].
      split; [|intros [=]]. intros first' more' [= <- <-].
      split; [reflexivity|]. intros Hn. exfalso. apply Hn, Htest. reflexivity.
Qed.

Lemma ExpectCT_forwarded_when_accepted_witness :
  HostIsIPAddress (info_url (request_info_ job_expect_ct)) = true /\
  exists j',
    ProcessExpectCTHeader job_expect_ct = Some (tt, j') /\
    trace j' = [ProcessExpectCT "max-age=86400, enforce"].
Proof.
  split; [reflexivity|].
  destruct (ExpectCT_forwarded_when_accepted job_expect_ct
              (example_info expect_ct_headers) expect_ct_headers eq_refl eq_refl)
    as (j' & Hrun & _ & Hlines & _).
  exists j'. split; [exact Hrun|].
  destruct (Hlines "max-age=86400" ["enforce"] ltac:(vm_compute; reflexivity))
    as [Hacc _].
  rewrite Hacc; [reflexivity|].
  split; [reflexivity|]. split; [reflexivity|]. eexists. reflexivity.
Defined.

Lemma ProcessStrictTransportSecurityHeader_calls j t info info' :
  transaction_ j = Some t ->
  GetResponseInfo t = Some info ->
  response_info_ j = Some info' ->
  exists evs,
    ProcessStrictTransportSecurityHeader j = Some (tt, set_trace (trace j ++ evs) j) /\
    Forall is_security_state_call evs.
Proof.
  intros Ht Hinfo Hinfo'.
  destruct (GetResponseHeaders_run j t info Ht Hinfo) as [h Hh].
  unfold ProcessStrictTransportSecurityHeader. unfold_monad. rewrite Hinfo'.
  destruct (_ || _ || _).
  { exists []. rewrite set_trace_same. split; [reflexivity|constructor]. }
  destruct (HostIsIPAddress _).
  { exists []. rewrite set_trace_same. split; [reflexivity|constructor]. }
  rewrite Hh. destruct (EnumerateHeader _ h).
  - eexists [_]. split; [reflexivity|].
    constructor; [left; eauto|constructor].
  - exists []. rewrite set_trace_same. split; [reflexivity|constructor].
Qed.

Lemma ProcessExpectCTHeader_calls j t info info' :
  transaction_ j = Some t ->
  GetResponseInfo t = Some info ->
  response_info_ j = Some info' ->
  exists evs,
    ProcessExpectCTHeader j = Some (tt, set_trace (trace j ++ evs) j) /\
    Forall is_security_state_call evs.
Proof.
  intros Ht Hinfo Hinfo'.
  destruct (GetResponseHeaders_run j t info Ht Hinfo) as [h Hh].
  unfold ProcessExpectCTHeader. unfold_monad. rewrite Hinfo'.
  destruct (_ || _ || _).
  { exists []. rewrite set_trace_same. split; [reflexivity|constructor]. }
  rewrite Hh. destruct (GetNormalizedHeader _ h).
  - eexists [_]. split; [reflexivity|].
    constructor; [right; eauto|constructor].
  - exists []. rewrite set_trace_same. split; [reflexivity|constructor].
Qed.

Lemma NotifyHeadersComplete_outcome j t info :
  transaction_ j = Some t ->
  GetResponseInfo t = Some info ->
  exists j' calls last,
    NotifyHeadersComplete j = Some (tt, j') /\
    trace j' =
      trace j ++ [LogNotifyHeadersComplete (IsReadyToRestartForAuth t)] ++ calls ++ [last] /\
    Forall is_security_state_call calls /\
    set_cookie_access_result_list_ j' = [] /\
    (IsReadyToRestartForAuth t = false ->
     last = URLRequestJob_NotifyHeadersComplete /\
     response_info_ j' = Some info /\
     maybe_stored_cookies (request_ j') = set_cookie_access_result_list_ j) /\
    (IsReadyToRestartForAuth t = true ->
     (last = CallStartTransaction \/
      exists options, last = GetCookieListWithOptionsAsync options) /\
     response_info_ j' = None /\
     auth_credentials_ j' = empty_credentials /\
     maybe_stored_cookies (request_ j') = [] /\
     GetResponseCode j' = Some ((-1)%Z, j') /\
     SetUpSourceStream j' = Some (None, j') /\
     transaction_ j' = Some t /\
     (cookie_store (context (request_ j)) = None \/
      allow_credentials (request_ j) = false ->
      last = CallStartTransaction)) /\
    receive_headers_end_ j' =
      (if IsReadyToRestartForAuth t then None else receive_headers_end_ j) /\
    (IsReadyToRestartForAuth t = false ->
     override_response_headers_ j' = override_response_headers_ j /\
     transaction_ j' = transaction_ j).
Proof.
  intros Ht Hinfo. unfold NotifyHeadersComplete.
  rewrite bind_gets, Ht. cbn [deref]. unfold bind at 1, ret.
  rewrite bind_emit, bind_modify, bind_gets.
  cbn [response_info_ set_response_info_ set_trace]. rewrite Hinfo.
  cbn [deref]. unfold bind at 1, ret.
  set (j2 := set_response_info_ _ _).
  destruct (ProcessStrictTransportSecurityHeader_calls j2 t info info Ht Hinfo eq_refl)
    as (evs1 & Hsts & Hq1).
  rewrite (bind_run _ _ _ _ _ Hsts).
  set (j3 := set_trace _ j2).
  destruct (ProcessExpectCTHeader_calls j3 t info info Ht Hinfo eq_refl)
    as (evs2 & Hct & Hq2).
  rewrite (bind_run _ _ _ _ _ Hct), bind_modify.
  set (j5 := set_set_cookie_access_result_list_ _ _).
  assert (Htrace5 : trace j5 =
            trace j ++ [LogNotifyHeadersComplete (IsReadyToRestartForAuth t)] ++
            (evs1 ++ evs2)).
  { subst j5 j3 j2. cbn [trace set_trace set_set_cookie_access_result_list_
                         set_request_ set_response_info_].
    rewrite <- !app_assoc. reflexivity. }
  assert (Hcalls : Forall is_security_state_call (evs1 ++ evs2))
    by (apply Forall_app; split; assumption).
  destruct (IsReadyToRestartForAuth t) eqn:Erestart.
  - rewrite RestartTransactionWithAuth_run.
    destruct (AddCookieHeaderAndStart_event (cleared_for_restart empty_credentials j5))
      as (e & -> & He).
    exists (set_trace (trace (cleared_for_restart empty_credentials j5) ++ [e])
              (cleared_for_restart empty_credentials j5)), (evs1 ++ evs2), e.
    split; [reflexivity|]. split.
    { cbn [trace set_trace].
      change (trace (cleared_for_restart empty_credentials j5)) with (trace j5).
      rewrite Htrace5, <- !app_assoc. reflexivity. }
    split; [exact Hcalls|]. split; [reflexivity|].
    split; [intros [=]|]. split; [|split; [reflexivity|intros [=]]]. intros _.
    split.
    { destruct He as [(store & options & _ & _ & ->)|[_ ->]]; eauto. }
    split; [reflexivity|]. split; [reflexivity|]. split; [reflexivity|].
    split; [apply GetResponseCode_without_response; reflexivity|].
    split; [apply SetUpSourceStream_without_response; reflexivity|].
    split; [exact Ht|].
    intros Hno_jar.
    destruct He as [(store & options & Hstore & Hallow & _)|[_ ->]]; [|reflexivity].
    change (cookie_store (context (request_ j)) = Some store) in Hstore.
    change (allow_credentials (request_ j) = true) in Hallow.
    destruct Hno_jar; congruence.
  - exists (set_trace (trace j5 ++ [URLRequestJob_NotifyHeadersComplete]) j5),
      (evs1 ++ evs2), URLRequestJob_NotifyHeadersComplete.
    split; [reflexivity|]. split.
    { cbn [trace set_trace]. rewrite Htrace5, <- !app_assoc. reflexivity. }
    split; [exact Hcalls|]. split; [reflexivity|].
    split; [|split; [intros [=]|split; [reflexivity|intros _; split;
                                                     [reflexivity|exact Ht]]]].
    intros _. repeat split; reflexivity.
Qed.

(** X6.  NotifyHeadersComplete() ends in one of two ways.  Normally it
    takes the transaction's response info, hands the list of stored
    cookies to the request and calls the base notification once, as its
    last act.  When the transaction is ready to restart for
    authentication it does not notify at all: it restarts with empty
    credentials, and the response info and the list handed to the
    request are cleared again, so that the job answers as one without
    response.  In between it only talks to the transport security
    state. *)
Theorem NotifyHeadersComplete_modes (j : Job) (t : HttpTransaction)
    (info : HttpResponseInfo) :
  transaction_ j = Some t ->
  GetResponseInfo t = Some info ->
  exists j' calls last,
    NotifyHeadersComplete j = Some (tt, j') /\
    trace j' =
      trace j ++ [LogNotifyHeadersComplete (IsReadyToRestartForAuth t)] ++ calls ++ [last] /\
    Forall is_security_state_call calls /\
    set_cookie_access_result_list_ j' = [] /\
    (IsReadyToRestartForAuth t = false ->
     last = URLRequestJob_NotifyHeadersComplete /\
     response_info_ j' = Some info /\
     maybe_stored_cookies (request_ j') = set_cookie_access_result_list_ j) /\
    (IsReadyToRestartForAuth t = true ->
     (last = CallStartTransaction \/
      exists options, last = GetCookieListWithOptionsAsync options) /\
     response_info_ j' = None /\
     auth_credentials_ j' = empty_credentials /\
     maybe_stored_cookies (request_ j') = [] /\
     GetResponseCode j' = Some ((-1)%Z, j') /\
     SetUpSourceStream j' = Some (None, j')).
Proof.
  intros Ht Hinfo.
  destruct (NotifyHeadersComplete_outcome j t info Ht Hinfo)
    as (j' & calls & last & Hrun & Htrace & Hcalls & Hlist & Hnormal & Hrestart & _).
  exists j', calls, last. split; [exact Hrun|]. split; [exact Htrace|].
  split; [exact Hcalls|]. split; [exact Hlist|]. split; [exact Hnormal|].
  intros Hready.
  destruct (Hrestart Hready) as (H1 & H2 & H3 & H4 & H5 & H6 & _).
  auto 10.
Qed.

Lemma NotifyHeadersComplete_modes_witness :
  exists j',
    NotifyHeadersComplete job_hsts = Some (tt, j') /\
    trace j' =
      [LogNotifyHeadersComplete false; AddHSTSHeader "example.com" "max-age=31536000";
       URLRequestJob_NotifyHeadersComplete].
Proof.
  destruct (NotifyHeadersComplete_modes job_hsts
              {| GetResponseInfo := Some (example_info hsts_headers);
                 IsReadyToRestartForAuth := false |}
              (example_info hsts_headers) eq_refl eq_refl)
    as (j' & calls & last & Hrun & _).
  exists j'. split; [exact Hrun|].
  assert (Hev : events (NotifyHeadersComplete job_hsts) =
                Some [LogNotifyHeadersComplete false;
                      AddHSTSHeader "example.com" "max-age=31536000";
                      URLRequestJob_NotifyHeadersComplete])
    by (vm_compute; reflexivity).
  rewrite Hrun in Hev. injection Hev as Hev. exact Hev.
Defined.

(** ** More on the cookies of the response *)



Lemma OnSetCookieResult_counting options cookie cookie_string access_result j :
  wrap_int (num_cookie_lines_left_ j - 1) <> 0%Z ->
  OnSetCookieResult options cookie cookie_string access_result j =
    Some (tt,
      set_num_cookie_lines_left_ (wrap_int (num_cookie_lines_left_ j - 1))
        (set_set_cookie_access_result_list_
           (set_cookie_access_result_list_ j ++
            [{| stored_cookie := cookie;
                stored_cookie_string := cookie_string;
                stored_access_result :=
                  if AffectedByBugfix1166211 (same_site_cookie_context options)
                  then {| status :=
                            MaybeApplyBugfix1166211Warning (env j)
                              (same_site_cookie_context options) (status access_result) |}
                  else access_result |}])
           j)).
Proof.
  intros Hne. unfold OnSetCookieResult.
  rewrite bind_gets. cbv zeta. rewrite !bind_modify, bind_gets.
  cbn [num_cookie_lines_left_ set_num_cookie_lines_left_
       set_set_cookie_access_result_list_].
  apply Z.eqb_neq in Hne. rewrite Hne. reflexivity.
Qed.

Lemma IsInclude_AddExclusionReason reason s :
  IsInclude (AddExclusionReason reason s) = false.
Proof. reflexivity. Qed.

Lemma counter_restored j l :
  (0 < num_cookie_lines_left_ j < INT_MAX)%Z ->
  wrap_int (wrap_int (num_cookie_lines_left_ j + 1) - 1) <> 0%Z /\
  set_num_cookie_lines_left_ (wrap_int (wrap_int (num_cookie_lines_left_ j + 1) - 1))
    (set_set_cookie_access_result_list_ l
       (set_num_cookie_lines_left_ (wrap_int (num_cookie_lines_left_ j + 1)) j)) =
  set_set_cookie_access_result_list_ l j.
Proof.
  intros Hnum.
  assert (Hmin : (INT_MIN < 0)%Z) by reflexivity.
  rewrite (wrap_int_in_range (num_cookie_lines_left_ j + 1)) by lia.
  replace (num_cookie_lines_left_ j + 1 - 1)%Z with (num_cookie_lines_left_ j) by lia.
  rewrite wrap_int_in_range by lia.
  split; [lia|]. destruct j; reflexivity.
Qed.

Lemma SaveCookieLine_refused options server_time line j :
  (0 < num_cookie_lines_left_ j < INT_MAX)%Z ->
  line_refused (env j) (url (request_ j)) options server_time line ->
  exists entry,
    (forall store,
       SaveCookieLine store options server_time line j =
         Some (tt, set_set_cookie_access_result_list_
                     (set_cookie_access_result_list_ j ++ [entry]) j)) /\
    stored_cookie_string entry = line /\
    (AffectedByBugfix1166211 (same_site_cookie_context options) = false ->
     IsInclude (status (stored_access_result entry)) = false).
Proof.
  intros Hnum Hrefused. unfold line_refused in Hrefused. cbv zeta in Hrefused.
  set (j1 := set_num_cookie_lines_left_ (wrap_int (num_cookie_lines_left_ j + 1)) j).
  assert (Hgo : forall cookie_to_return returned_status,
            IsInclude returned_status = false ->
            exists entry,
              OnSetCookieResult options cookie_to_return line
                {| status := returned_status |} j1 =
                Some (tt, set_set_cookie_access_result_list_
                            (set_cookie_access_result_list_ j ++ [entry]) j) /\
              stored_cookie_string entry = line /\
              (AffectedByBugfix1166211 (same_site_cookie_context options) = false ->
               IsInclude (status (stored_access_result entry)) = false)).
  { intros cookie_to_return returned_status Hexcluded.
    destruct (counter_restored j
                (set_cookie_access_result_list_ j ++
                 [{| stored_cookie := cookie_to_return;
                     stored_cookie_string := line;
                     stored_access_result :=
                       if AffectedByBugfix1166211 (same_site_cookie_context options)
                       then {| status :=
                                 MaybeApplyBugfix1166211Warning (env j)
                                   (same_site_cookie_context options) returned_status |}
                       else {| status := returned_status |} |}]) Hnum)
      as [Hne Heq].
    eexists. split.
    - rewrite OnSetCookieResult_counting by exact Hne. subst j1.
      cbn [set_cookie_access_result_list_ set_num_cookie_lines_left_ env
           num_cookie_lines_left_ status].
      f_equal. f_equal. exact Heq.
    - split; [reflexivity|]. intros Hb. cbn [stored_access_result].
      rewrite Hb. exact Hexcluded. }
  destruct (CanonicalCookie_Create (env j) (url (request_ j)) line server_time)
    as [created st] eqn:Ecreate.
  cbn [fst snd] in Hrefused.
  destruct Hrefused as [Hexcluded|(c & -> & Hblocked)].
  - assert (Hst : IsInclude
                    (match created with
                     | Some c =>
                         if negb (CanSetCookie (env j) c options)
                         then AddExclusionReason EXCLUDE_USER_PREFERENCES st
                         else st
                     | None => st
                     end) = false).
    { destruct created as [c|]; [|exact Hexcluded].
      destruct (negb _); [reflexivity|exact Hexcluded]. }
    destruct (Hgo None _ Hst) as (entry & Hrun & Hrest).
    exists entry. split; [|exact Hrest].
    intros store. unfold SaveCookieLine. rewrite !bind_gets, bind_modify. cbv zeta.
    rewrite Ecreate. cbn [fst snd]. rewrite Hexcluded. unfold bind at 1, ret.
    rewrite Hst. cbn [negb]. exact Hrun.
  - destruct (Hgo (if IsInclude st then Some c else None)
                (AddExclusionReason EXCLUDE_USER_PREFERENCES st) eq_refl)
      as (entry & Hrun & Hrest).
    exists entry. split; [|exact Hrest].
    intros store. unfold SaveCookieLine. rewrite !bind_gets, bind_modify. cbv zeta.
    rewrite Ecreate. cbn [fst snd]. rewrite Hblocked. cbn [negb].
    rewrite IsInclude_AddExclusionReason. cbn [negb].
    destruct (IsInclude st); cbn [deref]; unfold bind at 1, ret; exact Hrun.
Qed.

Lemma SaveCookieLines_refused options server_time lines :
  forall j,
    (0 < num_cookie_lines_left_ j < INT_MAX)%Z ->
    Forall (line_refused (env j) (url (request_ j)) options server_time) lines ->
    exists entries,
      (forall store,
         SaveCookieLines store options server_time lines j =
           Some (tt, set_set_cookie_access_result_list_
                       (set_cookie_access_result_list_ j ++ entries) j)) /\
      map stored_cookie_string entries = lines /\
      (AffectedByBugfix1166211 (same_site_cookie_context options) = false ->
       Forall (fun entry => IsInclude (status (stored_access_result entry)) = false)
         entries).
Proof.
  induction lines as [|line rest IH]; intros j Hnum Hrefused.
  - exists []. split; [|split; [reflexivity|intros _; constructor]].
    intros store. cbn [SaveCookieLines]. unfold ret. rewrite app_nil_r.
    destruct j; reflexivity.
  - apply Forall_cons in Hrefused as [Hline Hrest].
    destruct (SaveCookieLine_refused options server_time line j Hnum Hline)
      as (entry & Hrun & Hstring & Hstatus).
    set (j1 := set_set_cookie_access_result_list_
                 (set_cookie_access_result_list_ j ++ [entry]) j).
    destruct (IH j1 Hnum Hrest) as (entries & Hruns & Hstrings & Hstatuses).
    exists (entry :: entries). split; [|split].
    + intros store. cbn [SaveCookieLines].
      rewrite (bind_run _ _ _ _ _ (Hrun store)). fold j1. rewrite Hruns.
      subst j1. cbn [set_cookie_access_result_list_ set_set_cookie_access_result_list_].
      rewrite <- app_assoc. reflexivity.
    + cbn [map]. rewrite Hstring, Hstrings. reflexivity.
    + intros Hb. constructor; [exact (Hstatus Hb)|exact (Hstatuses Hb)].
Qed.

(** X8.  Set-Cookie lines that are no cookies, or that the delegate
    refuses, never reach the jar: the loop over them runs the same
    whatever the jar is, leaves the counter of outstanding calls, the
    calls themselves and the trace as they were, and appends one entry
    per line, in the order of the header lines, each with an excluding
    status (when the same-site bugfix warning is not in play). *)
Theorem refused_lines_never_reach_the_jar (store : CookieStore)
    (options : CookieOptions) (server_time : option Z) (lines : list string)
    (j : Job) :
  (0 < num_cookie_lines_left_ j < INT_MAX)%Z ->
  Forall (line_refused (env j) (url (request_ j)) options server_time) lines ->
  exists entries,
    SaveCookieLines store options server_time lines j =
      Some (tt, set_set_cookie_access_result_list_
                  (set_cookie_access_result_list_ j ++ entries) j) /\
    (forall store',
       SaveCookieLines store' options server_time lines j =
       SaveCookieLines store options server_time lines j) /\
    map stored_cookie_string entries = lines /\
    (AffectedByBugfix1166211 (same_site_cookie_context options) = false ->
     Forall (fun entry => IsInclude (status (stored_access_result entry)) = false)
       entries).
Proof.
  intros Hnum Hrefused.
  destruct (SaveCookieLines_refused options server_time lines j Hnum Hrefused)
    as (entries & Hruns & Hstrings & Hstatuses).
  exists entries. split; [apply Hruns|].
  split; [intros store'; rewrite !Hruns; reflexivity|].
  split; [exact Hstrings|exact Hstatuses].
Qed.

Lemma refused_lines_never_reach_the_jar_witness :
  exists entries,
    SaveCookieLines example_store example_options None [""; "blocked"] job_in_loop =
      Some (tt, set_set_cookie_access_result_list_ entries job_in_loop) /\
    map stored_cookie_string entries = [""; "blocked"].
Proof.
  destruct (refused_lines_never_reach_the_jar example_store example_options None
              [""; "blocked"] job_in_loop) as (entries & Hrun & _ & Hstrings & _).
  - split; [reflexivity|reflexivity].
  - apply Forall_cons. split; [left; reflexivity|].
    apply Forall_cons. split; [|constructor].
    right. eexists. split; reflexivity.
  - exists entries. split; [exact Hrun|exact Hstrings].
Defined.

(** ** Cookies of the request in privacy mode *)

(** X9.  In privacy mode the jar's answer adds no Cookie header: the
    outgoing headers stay as they are, and every cookie of the answer,
    the excluded ones first, is reported to the request as not sent,
    with the exclusion reason EXCLUDE_USER_PREFERENCES.  (The same-site
    bugfix warning is taken to add a warning only.) *)
Theorem privacy_mode_sends_no_jar_cookie (j : Job) (options : CookieOptions)
    (cookies excluded : list CookieWithAccessResult) :
  info_privacy_mode (request_info_ j) <> PRIVACY_MODE_DISABLED ->
  (forall s,
     exclusion_reasons
       (MaybeApplyBugfix1166211Warning (env j) (same_site_cookie_context options) s) =
     exclusion_reasons s) ->
  exists j',
    SetCookieHeaderAndStart options cookies excluded j = Some (tt, j') /\
    extra_headers (request_info_ j') = extra_headers (request_info_ j) /\
    trace j' = trace j ++ [CallStartTransaction] /\
    map cookie (maybe_sent_cookies (request_ j')) = map cookie (excluded ++ cookies) /\
    Forall (fun c =>
              EXCLUDE_USER_PREFERENCES ∈ exclusion_reasons (status (access_result c)) /\
              IsInclude (status (access_result c)) = false)
      (maybe_sent_cookies (request_ j')).
Proof.
  intros Hprivate Hwarning.
  unfold SetCookieHeaderAndStart, StartTransaction. rewrite !bind_gets.
  rewrite bool_decide_true by exact Hprivate.
  unfold bind at 1, ret. cbv zeta. cbn [fst snd]. rewrite app_nil_r.
  rewrite bind_modify. unfold emit, modify.
  eexists. split; [reflexivity|].
  cbn [extra_headers request_info_ set_trace set_request_ trace request_
       maybe_sent_cookies set_maybe_sent_cookies].
  split; [reflexivity|]. split; [reflexivity|].
  set (blocked := map (add_exclusion_to EXCLUDE_USER_PREFERENCES) (excluded ++ cookies)).
  assert (Hcookies : map cookie blocked = map cookie (excluded ++ cookies)).
  { subst blocked. rewrite map_map. apply map_ext. reflexivity. }
  assert (Hblocked : Forall (fun c =>
              EXCLUDE_USER_PREFERENCES ∈ exclusion_reasons (status (access_result c)) /\
              IsInclude (status (access_result c)) = false) blocked).
  { subst blocked. apply Forall_map, Forall_forall. intros c _.
    split; [apply elem_of_cons; left; reflexivity|reflexivity]. }
  destruct (AffectedByBugfix1166211 (same_site_cookie_context options)).
  - split.
    + rewrite map_map, <- Hcookies. apply map_ext. intros c.
      destruct (HasOnlyExclusionReason _ _); reflexivity.
    + apply Forall_map. eapply Forall_impl; [exact Hblocked|].
      intros c [Hin Hex]. destruct (HasOnlyExclusionReason _ _); [auto|].
      cbn [access_result status]. unfold IsInclude in *. rewrite Hwarning.
      split; [exact Hin|exact Hex].
  - split; [exact Hcookies|exact Hblocked].
Qed.

Lemma privacy_mode_sends_no_jar_cookie_witness :
  exists j',
    SetCookieHeaderAndStart example_options [cookie_a] [cookie_b] job_private
      = Some (tt, j') /\
    GetHeader kCookie (extra_headers (request_info_ j')) = None /\
    map (fun c => Name (cookie c)) (maybe_sent_cookies (request_ j')) = ["b"; "a"].
Proof.
  destruct (privacy_mode_sends_no_jar_cookie job_private example_options
              [cookie_a] [cookie_b]) as (j' & Hrun & Hheaders & _ & Hcookies & _).
  - discriminate.
  - reflexivity.
  - exists j'. split; [exact Hrun|]. rewrite Hheaders. split; [reflexivity|].
    rewrite <- (map_map cookie Name), Hcookies. reflexivity.
Defined.

(** ** Reading, synchronously and not *)

Lemma length_fix_applies_frame j j' rv :
  request_ j' = request_ j ->
  postfilter_bytes_read j' = postfilter_bytes_read j ->
  length_fix_applies j' rv <-> length_fix_applies j rv.
Proof. intros Hr Hp. unfold length_fix_applies. rewrite Hr, Hp. reflexivity. Qed.

Lemma DoneWithRequest_run j :
  DoneWithRequest j = Some (tt, if done_ j then j else set_done_ true j).
Proof. unfold DoneWithRequest. rewrite bind_gets. destruct (done_ j); reflexivity. Qed.

(** X10.  A read that completes at once and a read that completes later
    end the same way: for the same result of the transaction,
    ReadRawData() returns what OnReadCompleted() reports, with the same
    repair of a length mismatch, and both leave the job done exactly when
    that value is zero or an error.  A read that is pending finishes
    nothing: it only marks the read as in progress. *)
Theorem ReadRawData_agrees_with_OnReadCompleted (j : Job) (t : HttpTransaction) :
  transaction_ j = Some t ->
  ReadRawData ERR_IO_PENDING j = Some (ERR_IO_PENDING, set_read_in_progress_ true j) /\
  forall result,
    result <> ERR_IO_PENDING ->
    exists reported j1 j2,
      ReadRawData result j = Some (reported, j1) /\
      OnReadCompleted result j = Some (tt, j2) /\
      trace j2 = trace j ++ [ReadRawDataComplete reported] /\
      reported <> ERR_IO_PENDING /\
      done_ j1 = done_ j2 /\
      done_ j1 = (if (reported <=? 0)%Z then true else done_ j) /\
      read_in_progress_ j1 = read_in_progress_ j /\
      read_in_progress_ j2 = false.
Proof.
  intros Ht. split.
  { unfold ReadRawData. rewrite bind_gets, Ht. reflexivity. }
  intros result Hresult.
  destruct (ShouldFixMismatchedContentLength_spec j result) as (b & Hfix & Hb).
  destruct (ShouldFixMismatchedContentLength_spec (set_read_in_progress_ false j) result)
    as (b' & Hfix' & Hb').
  assert (Hsame : b' = b).
  { rewrite (length_fix_applies_frame j (set_read_in_progress_ false j))
      in Hb' by reflexivity.
    destruct b, b'; try reflexivity.
    - apply Hb', Hb. reflexivity.
    - symmetry. apply Hb, Hb'. reflexivity. }
  subst b'.
  set (reported := if b then OK else result).
  assert (Hnot_pending : reported <> ERR_IO_PENDING)
    by (subst reported; destruct b; [discriminate|exact Hresult]).
  assert (Hstop : ((reported =? 0) || ((reported <? 0) && negb (reported =? ERR_IO_PENDING)))%Z
                  = (reported <=? 0)%Z).
  { apply Z.eqb_neq in Hnot_pending. rewrite Hnot_pending. cbn [negb].
    rewrite andb_true_r.
    destruct (reported =? 0)%Z eqn:E0, (reported <? 0)%Z eqn:E1,
             (reported <=? 0)%Z eqn:E2; try reflexivity;
      rewrite ?Z.eqb_eq, ?Z.eqb_neq, ?Z.ltb_lt, ?Z.ltb_ge, ?Z.leb_le, ?Z.leb_gt in *; lia. }
  assert (Hrun1 : ReadRawData result j =
            Some (reported,
                  if (reported <=? 0)%Z
                  then (if done_ j then j else set_done_ true j) else j)).
  { unfold ReadRawData. rewrite bind_gets, Ht. cbn [deref]. unfold bind at 1, ret.
    cbv zeta. rewrite (bind_run _ _ _ _ _ Hfix). fold reported. rewrite Hstop.
    apply Z.eqb_neq in Hnot_pending. rewrite Hnot_pending.
    destruct (reported <=? 0)%Z; cbn [when].
    - rewrite (bind_run _ _ _ _ _ (DoneWithRequest_run j)). reflexivity.
    - reflexivity. }
  assert (Hrun2 : OnReadCompleted result j =
            Some (tt,
                  set_trace (trace j ++ [ReadRawDataComplete reported])
                    (if (reported <=? 0)%Z
                     then (if done_ j then set_read_in_progress_ false j
                           else set_done_ true (set_read_in_progress_ false j))
                     else set_read_in_progress_ false j))).
  { unfold OnReadCompleted. rewrite bind_modify, (bind_run _ _ _ _ _ Hfix').
    fold reported. destruct (reported <=? 0)%Z; cbn [when].
    - rewrite (bind_run _ _ _ _ _ (DoneWithRequest_run _)).
      cbn [done_ set_read_in_progress_]. destruct (done_ j); reflexivity.
    - reflexivity. }
  eexists reported, _, _. split; [exact Hrun1|]. split; [exact Hrun2|].
  split; [destruct (reported <=? 0)%Z, (done_ j); reflexivity|].
  split; [exact Hnot_pending|].
  destruct (reported <=? 0)%Z, (done_ j) eqn:Edone; cbn; rewrite ?Edone; auto.
Qed.

Lemma ReadRawData_agrees_with_OnReadCompleted_witness :
  returned (ReadRawData ERR_CONTENT_LENGTH_MISMATCH (job_reading 10 10)) = Some OK /\
  events (OnReadCompleted ERR_CONTENT_LENGTH_MISMATCH (job_reading 10 10)) =
    Some [ReadRawDataComplete OK].
Proof.
  destruct (ReadRawData_agrees_with_OnReadCompleted (job_reading 10 10)
              {| GetResponseInfo := Some (example_info (example_headers 200 []));
                 IsReadyToRestartForAuth := false |} eq_refl) as [_ Hsame].
  destruct (Hsame ERR_CONTENT_LENGTH_MISMATCH ltac:(discriminate))
    as (reported & j1 & j2 & Hrun1 & Hrun2 & Htrace & _).
  assert (Hreported : returned (ReadRawData ERR_CONTENT_LENGTH_MISMATCH (job_reading 10 10))
                      = Some OK) by (vm_compute; reflexivity).
  split; [exact Hreported|].
  rewrite Hrun1 in Hreported. injection Hreported as ->.
  rewrite Hrun2. cbn [events]. rewrite Htrace. reflexivity.
Defined.

(** ** The response info handed out *)

(** X11.  GetResponseInfo() hands out the headers that are in force:
    once the job has taken the transaction's response info, the info it
    reports carries the headers that GetResponseHeaders() returns (the
    delegate's override when there is one) and the status code that
    GetResponseCode() returns, next to the transaction's TLS data; before
    that it leaves the caller's info untouched. *)
Theorem GetResponseInfo_reports_headers_in_force (j : Job) (caller_info : HttpResponseInfo) :
  (response_info_ j = None ->
   URLRequestHttpJob_GetResponseInfo caller_info j = Some (caller_info, j)) /\
  (forall t response h,
     transaction_ j = Some t ->
     GetResponseInfo t = Some response ->
     response_info_ j = Some response ->
     GetResponseHeaders j = Some (h, j) ->
     exists info,
       URLRequestHttpJob_GetResponseInfo caller_info j = Some (info, j) /\
       headers info = h /\
       ssl_info info = ssl_info response /\
       was_cached info = was_cached response /\
       GetResponseCode j = Some (response_code (headers info), j)).
Proof.
  split.
  - intros Hnone. unfold URLRequestHttpJob_GetResponseInfo.
    rewrite bind_gets, Hnone. reflexivity.
  - intros t response h Ht Hinfo Hresponse Hh.
    assert (Hcode : GetResponseCode j = Some (response_code h, j)).
    { unfold GetResponseCode. rewrite bind_gets, Hresponse.
      rewrite (bind_run _ _ _ _ _ Hh). reflexivity. }
    unfold URLRequestHttpJob_GetResponseInfo. rewrite bind_gets, Hresponse, bind_gets.
    unfold GetResponseHeaders in Hh. rewrite bind_gets in Hh.
    destruct (override_response_headers_ j) as [override|].
    + injection Hh as ->. eexists. split; [reflexivity|].
      cbn [headers ssl_info was_cached]. auto.
    + rewrite bind_gets, Ht in Hh. cbn [deref] in Hh. unfold bind at 1, ret in Hh.
      rewrite Hinfo in Hh. cbn [deref] in Hh. unfold bind, ret in Hh.
      injection Hh as <-. eexists. split; [reflexivity|]. auto.
Qed.

Lemma GetResponseInfo_reports_headers_in_force_witness :
  returned (URLRequestHttpJob_GetResponseInfo (example_info (example_headers 200 []))
              job_407)
    = Some (example_info (example_headers 407 [])) /\
  returned (GetResponseCode job_407) = Some 407%Z.
Proof.
  destruct (GetResponseInfo_reports_headers_in_force job_407
              (example_info (example_headers 200 []))) as [_ Hheld].
  destruct (Hheld {| GetResponseInfo := Some (example_info (example_headers 407 []));
                     IsReadyToRestartForAuth := false |}
              (example_info (example_headers 407 [])) (example_headers 407 [])
              eq_refl eq_refl eq_refl eq_refl)
    as (info & Hrun & Hheaders & Hssl & Hcached & Hcode).
  rewrite Hrun, Hcode. cbn [returned]. rewrite Hheaders.
  split; [|reflexivity].
  destruct info as [ih issl icached]. cbn in Hheaders, Hssl, Hcached.
  subst. reflexivity.
Defined.

(** ** The job that Create() returns *)

(** X12.  Create() sends a request elsewhere only to make it safer.  A
    request for https or wss always gets an HTTP job.  A redirect job is
    returned exactly for a request in clear to a host that the transport
    security state wants upgraded: it answers 307 and replaces the
    scheme http by https and any other scheme by wss.  An error job is
    returned only on Android, for a host in clear that is not to be
    upgraded and for which clear text is not permitted. *)
Theorem Create_only_upgrades (r : URLRequest) (ShouldUpgradeToSSL : string -> bool)
    (android : option CleartextPolicy) :
  let upgrade :=
    is_Some (transport_security_state (context r)) /\
    ShouldUpgradeToSSL (host (url r)) = true in
  (SchemeIsCryptographic (url r) = true ->
   Create r ShouldUpgradeToSSL android = NewURLRequestHttpJob) /\
  (SchemeIsCryptographic (url r) = false -> upgrade ->
   Create r ShouldUpgradeToSSL android =
     URLRequestRedirectJob (url r)
       (if bool_decide (scheme (url r) = "http") then "https" else "wss") 307 "HSTS") /\
  (forall original replacement code reason,
     Create r ShouldUpgradeToSSL android =
       URLRequestRedirectJob original replacement code reason ->
     SchemeIsCryptographic (url r) = false /\ upgrade /\
     (replacement = "https" \/ replacement = "wss")) /\
  (forall error,
     Create r ShouldUpgradeToSSL android = URLRequestErrorJob error ->
     error = ERR_CLEARTEXT_NOT_PERMITTED /\
     SchemeIsCryptographic (url r) = false /\ ~ upgrade /\
     exists policy,
       android = Some policy /\
       check_cleartext_permitted policy = true /\
       IsCleartextPermitted policy (host (url r)) = false).
Proof.
  intros upgrade. unfold Create.
  assert (Hupgrade : bool_decide (is_Some (transport_security_state (context r)))
                     && ShouldUpgradeToSSL (host (url r)) = true <-> upgrade).
  { subst upgrade. rewrite andb_true_iff, bool_decide_eq_true. reflexivity. }
  destruct (SchemeIsCryptographic (url r)); cbn [negb].
  { split; [reflexivity|]. split; [intros [=]|].
    split; [intros ? ? ? ? [=]|intros ? [=]]. }
  split; [intros [=]|].
  destruct (bool_decide (is_Some (transport_security_state (context r)))
            && ShouldUpgradeToSSL (host (url r))) eqn:Eup.
  - assert (Hup : upgrade) by (apply Hupgrade; reflexivity).
    split; [reflexivity|]. split; [|intros ? [=]].
    intros original replacement code reason [= <- <- <- <-].
    split; [reflexivity|]. split; [exact Hup|].
    destruct (bool_decide (scheme (url r) = "http")); auto.
  - assert (Hno : ~ upgrade) by (intros Hup; apply Hupgrade in Hup; discriminate Hup).
    split; [intros _ Hup; contradiction|].
    destruct android as [policy|]; [|split; [intros ? ? ? ? [=]|intros ? [=]]].
    destruct (check_cleartext_permitted policy) eqn:Echeck;
      [|split; [intros ? ? ? ? [=]|intros ? [=]]].
    destruct (IsCleartextPermitted policy (host (url r))) eqn:Epermitted;
      cbn [andb negb]; (split; [intros ? ? ? ? [=]|]); intros error [=].
    subst error. split; [reflexivity|]. split; [reflexivity|]. split; [exact Hno|].
    exists policy. auto.
Qed.

Lemma Create_only_upgrades_witness :
  Create (example_request http_example invalid_url) (fun _ => true) None =
    URLRequestRedirectJob http_example "https" 307 "HSTS" /\
  Create (example_request ws_example invalid_url) (fun _ => true) None =
    URLRequestRedirectJob ws_example "wss" 307 "HSTS" /\
  Create (example_request https_example invalid_url) (fun _ => true) None =
    NewURLRequestHttpJob.
Proof.
  split; [|split].
  - apply (proj1 (proj2 (Create_only_upgrades (example_request http_example invalid_url)
                           (fun _ => true) None))); [reflexivity|].
    split; [eexists; reflexivity|reflexivity].
  - apply (proj1 (proj2 (Create_only_upgrades (example_request ws_example invalid_url)
                           (fun _ => true) None))); [reflexivity|].
    split; [eexists; reflexivity|reflexivity].
  - apply (proj1 (Create_only_upgrades (example_request https_example invalid_url)
                    (fun _ => true) None)). reflexivity.
Defined.

(** ** The trust anchor that is recorded *)

Lemma TrustAnchorId_spec {Hash : Type} (GetId : Hash -> Z) (spki_hashes : list Hash) :
  forall id0,
    (Forall (fun hash => GetId hash = 0%Z) spki_hashes /\
     TrustAnchorId GetId spki_hashes id0 =
       match spki_hashes with [] => id0 | _ => 0%Z end) \/
    (exists n hash,
       spki_hashes !! n = Some hash /\
       GetId hash <> 0%Z /\
       Forall (fun hash => GetId hash = 0%Z) (take n spki_hashes) /\
       TrustAnchorId GetId spki_hashes id0 = GetId hash).
Proof.
  induction spki_hashes as [|hash rest IH]; intros id0.
  - left. split; [constructor|reflexivity].
  - cbn [TrustAnchorId]. destruct (GetId hash =? 0)%Z eqn:Ezero; cbn [negb].
    + apply Z.eqb_eq in Ezero.
      destruct (IH (GetId hash)) as [[Hall Hid]|(n & hash' & Hn & Hid & Hbefore & Hrun)].
      * left. split; [constructor; assumption|].
        rewrite Hid. destruct rest; [exact Ezero|reflexivity].
      * right. exists (S n), hash'. split; [exact Hn|]. split; [exact Hid|].
        split; [cbn [take]; constructor; assumption|exact Hrun].
    + apply Z.eqb_neq in Ezero. right. exists 0, hash.
      split; [reflexivity|]. split; [exact Ezero|]. split; [constructor|reflexivity].
Qed.

(** X13.  LogTrustAnchor() records nothing for an empty chain, and
    otherwise one sample: the id of the first hash of the chain, leaf
    first, that the table of trust anchors knows (has a non-zero id
    for), and 0 when it knows none of them. *)
Theorem LogTrustAnchor_records_first_known {Hash : Type} (GetId : Hash -> Z)
    (spki_hashes : list Hash) :
  (LogTrustAnchor GetId spki_hashes = None <-> spki_hashes = []) /\
  forall id,
    LogTrustAnchor GetId spki_hashes = Some id ->
    (id = 0%Z <-> Forall (fun hash => GetId hash = 0%Z) spki_hashes) /\
    (id <> 0%Z ->
     exists n hash,
       spki_hashes !! n = Some hash /\
       GetId hash = id /\
       Forall (fun hash => GetId hash = 0%Z) (take n spki_hashes)).
Proof.
  split.
  { destruct spki_hashes; cbn; split; intros H; try reflexivity; discriminate H. }
  intros id Hid.
  destruct spki_hashes as [|first rest]; [discriminate Hid|].
  assert (Hid' : TrustAnchorId GetId (first :: rest) 0%Z = id)
    by (injection Hid as Hid'; exact Hid').
  clear Hid.
  destruct (TrustAnchorId_spec GetId (first :: rest) 0%Z)
    as [[Hall Hrun]|(n & hash & Hn & Hknown & Hbefore & Hrun)];
    rewrite Hrun in Hid'; subst id.
  - split; [split; [intros _; exact Hall|reflexivity]|]. intros Hne. contradiction.
  - split.
    + split; [intros Hz; contradiction|].
      intros Hall. rewrite Forall_lookup in Hall. exact (Hall n hash Hn).
    + intros _. exists n, hash. auto.
Qed.

Lemma LogTrustAnchor_records_first_known_witness :
  LogTrustAnchor example_anchor_ids ["leaf"; "intermediate"; "root"; "cross"] = Some 42%Z /\
  LogTrustAnchor example_anchor_ids ["leaf"] = Some 0%Z /\
  LogTrustAnchor example_anchor_ids [] = None.
Proof.
  split; [reflexivity|]. split; [reflexivity|].
  apply (proj1 (LogTrustAnchor_records_first_known example_anchor_ids [])).
  reflexivity.
Defined.

(** ** The job with its transaction *)

Section TransactionProperties.

Import URLRequestHttpJob.

Lemma set_job_same s : set_job (job s) s = s.
Proof. destruct s; reflexivity. Qed.

Lemma bindJ_getsJ {A B} (f : HttpJob -> A) (k : A -> MJ B) s :
  bindJ (getsJ f) k s = k (f s) s.
Proof. reflexivity. Qed.

Lemma bindJ_modifyJ {B} (f : HttpJob -> HttpJob) (k : unit -> MJ B) s :
  bindJ (modifyJ f) k s = k tt (f s).
Proof. reflexivity. Qed.

Lemma bindJ_lift_modify {B} (f : Job -> Job) (k : unit -> MJ B) s :
  bindJ (lift (modify f)) k s = k tt (set_job (f (job s)) s).
Proof. reflexivity. Qed.

Lemma bindJ_call {B} (c : Call) (k : unit -> MJ B) s :
  bindJ (call c) k s = k tt (set_calls (calls s ++ [c]) s).
Proof. reflexivity. Qed.

Lemma bindJ_run {A B} (m : MJ A) (k : A -> MJ B) s a s' :
  m s = Some (a, s') -> bindJ m k s = k a s'.
Proof. intros H. unfold bindJ. rewrite H. reflexivity. Qed.

Lemma lift_run {A} (m : M A) s a j' :
  m (job s) = Some (a, j') -> lift m s = Some (a, set_job j' s).
Proof. intros H. unfold lift. rewrite H. reflexivity. Qed.

Lemma PostTask_run task s :
  PostTask task s = Some (tt, set_posted (posted s ++ [(weak_generation s, task)]) s).
Proof. reflexivity. Qed.

(** The job as DestroyTransaction() leaves it. *)
Lemma DestroyTransaction_run s t :
  transaction_ (job s) = Some t ->
  exists s',
    DestroyTransaction s = Some (tt, s') /\
    transaction_ (job s') = None /\
    response_info_ (job s') = None /\
    override_response_headers_ (job s') = None /\
    receive_headers_end_ (job s') = None /\
    done_ (job s') = true /\
    total_received_bytes_from_previous_transactions_ s' =
      wrap_int64 (total_received_bytes_from_previous_transactions_ s +
                  TransactionReceivedBytes (transaction_answers s)) /\
    total_sent_bytes_from_previous_transactions_ s' =
      wrap_int64 (total_sent_bytes_from_previous_transactions_ s +
                  TransactionSentBytes (transaction_answers s)) /\
    trace (job s') = trace (job s) /\
    pending_set_cookie (job s') = pending_set_cookie (job s) /\
    calls s' = calls s /\ posted s' = posted s /\
    weak_generation s' = weak_generation s /\
    awaiting_callback_ s' = awaiting_callback_ s.
Proof.
  intros Ht. unfold DestroyTransaction.
  rewrite (bindJ_run _ _ _ _ _ (lift_run _ _ _ _ (DoneWithRequest_run (job s)))).
  set (s1 := set_job _ s).
  assert (Ht1 : transaction_ (job s1) = Some t)
    by (subst s1; cbn [job set_job]; destruct (done_ (job s)); exact Ht).
  rewrite bindJ_getsJ, Ht1. cbn [derefJ]. unfold bindJ at 1, retJ.
  rewrite bindJ_getsJ, !bindJ_modifyJ, !bindJ_lift_modify.
  eexists. split; [reflexivity|].
  cbn [job set_job transaction_ response_info_ override_response_headers_
       receive_headers_end_ done_ trace pending_set_cookie calls posted
       weak_generation awaiting_callback_ transaction_answers
       total_received_bytes_from_previous_transactions_
       total_sent_bytes_from_previous_transactions_
       set_receive_headers_end_ set_override_response_headers_ set_response_info_
       set_transaction_ set_total_sent_bytes_from_previous_transactions_
       set_total_received_bytes_from_previous_transactions_].
  subst s1. cbn [job set_job transaction_answers
                 total_received_bytes_from_previous_transactions_
                 total_sent_bytes_from_previous_transactions_
                 calls posted weak_generation awaiting_callback_].
  destruct (done_ (job s)) eqn:Edone; cbn [done_ set_done_ trace pending_set_cookie];
    repeat split; try reflexivity; exact Edone.
Qed.

(** X14.  The byte totals never go back when the transaction goes:
    DestroyTransaction() folds what the transaction has received and sent
    into the totals of the earlier transactions, so that
    GetTotalReceivedBytes() and GetTotalSentBytes() answer the same
    before and after; the response info, the override headers and the
    time of the headers are gone with the transaction, and the job is
    done. *)
Theorem totals_survive_DestroyTransaction (s : HttpJob) (t : HttpTransaction) :
  transaction_ (job s) = Some t ->
  exists s' received sent,
    DestroyTransaction s = Some (tt, s') /\
    GetTotalReceivedBytes s = Some (received, s) /\
    GetTotalReceivedBytes s' = Some (received, s') /\
    GetTotalSentBytes s = Some (sent, s) /\
    GetTotalSentBytes s' = Some (sent, s') /\
    transaction_ (job s') = None /\
    response_info_ (job s') = None /\
    override_response_headers_ (job s') = None /\
    receive_headers_end_ (job s') = None /\
    done_ (job s') = true.
Proof.
  intros Ht.
  destruct (DestroyTransaction_run s t Ht)
    as (s' & Hrun & Ht' & Hinfo & Hoverride & Hend & Hdone & Hreceived & Hsent & _).
  exists s', (total_received_bytes_from_previous_transactions_ s'),
    (total_sent_bytes_from_previous_transactions_ s').
  split; [exact Hrun|].
  split. { unfold GetTotalReceivedBytes. rewrite !bindJ_getsJ, Ht.
           rewrite bindJ_getsJ, Hreceived. reflexivity. }
  split. { unfold GetTotalReceivedBytes. rewrite !bindJ_getsJ, Ht'.
           reflexivity. }
  split. { unfold GetTotalSentBytes. rewrite !bindJ_getsJ, Ht.
           rewrite bindJ_getsJ, Hsent. reflexivity. }
  split. { unfold GetTotalSentBytes. rewrite !bindJ_getsJ, Ht'.
           reflexivity. }
  auto.
Qed.

Lemma totals_survive_DestroyTransaction_witness :
  exists s',
    DestroyTransaction (http_job job_407) = Some (tt, s') /\
    GetTotalReceivedBytes (http_job job_407) = Some (1100%Z, http_job job_407) /\
    GetTotalReceivedBytes s' = Some (1100%Z, s') /\
    GetTotalSentBytes s' = Some (540%Z, s').
Proof.
  destruct (totals_survive_DestroyTransaction (http_job job_407)
              {| GetResponseInfo := Some (example_info (example_headers 407 []));
                 IsReadyToRestartForAuth := false |} eq_refl)
    as (s' & received & sent & Hrun & Hbefore & Hafter & Hsent & Hsent' & _).
  exists s'. split; [exact Hrun|].
  assert (Hr : received = 1100%Z).
  { assert (H : GetTotalReceivedBytes (http_job job_407) =
                Some (1100%Z, http_job job_407)) by reflexivity.
    rewrite Hbefore in H. injection H as H. exact H. }
  assert (Hs : sent = 540%Z).
  { assert (H : GetTotalSentBytes (http_job job_407) =
                Some (540%Z, http_job job_407)) by reflexivity.
    rewrite Hsent in H. injection H as H. exact H. }
  subst. split; [exact Hbefore|]. split; [exact Hafter|exact Hsent'].
Defined.

Lemma set_posted_same s : set_posted (posted s) s = s.
Proof. destruct s; reflexivity. Qed.

Lemma RunSetCookieCallbacks_none_outstanding schedule j :
  pending_set_cookie j = [] ->
  RunSetCookieCallbacks schedule j = Some (tt, j).
Proof.
  intros Hpending. induction schedule as [|[i result] rest IH]; [reflexivity|].
  cbn [RunSetCookieCallbacks].
  assert (Hone : RunSetCookieCallback i result j = Some (tt, j)).
  { unfold RunSetCookieCallback. rewrite bind_gets, Hpending. reflexivity. }
  rewrite (bind_run _ _ _ _ _ Hone). exact IH.
Qed.

Lemma RunNextTask_stale s :
  Forall (fun task => fst task < weak_generation s) (posted s) ->
  RunNextTask s = Some (tt, set_posted (drop 1 (posted s)) s).
Proof.
  intros Hstale. unfold RunNextTask. rewrite bindJ_getsJ.
  destruct (posted s) as [|[weak task] rest] eqn:Eposted.
  - cbn [drop]. rewrite <- Eposted, set_posted_same. reflexivity.
  - apply Forall_cons in Hstale as [Hweak Hrest]. cbn [fst] in Hweak.
    rewrite bindJ_modifyJ. unfold InvokeWeak. rewrite bindJ_getsJ.
    cbn [weak_generation set_posted].
    assert (Hne : (weak =? weak_generation s)%nat = false)
      by (apply Nat.eqb_neq; lia).
    rewrite Hne. reflexivity.
Qed.

Lemma RunTasks_stale n :
  forall s,
    Forall (fun task => fst task < weak_generation s) (posted s) ->
    RunTasks n s = Some (tt, set_posted (drop n (posted s)) s).
Proof.
  induction n as [|n IH]; intros s Hstale.
  - cbn [RunTasks]. rewrite drop_0, set_posted_same. reflexivity.
  - cbn [RunTasks]. rewrite (bindJ_run _ _ _ _ _ (RunNextTask_stale s Hstale)).
    rewrite IH.
    + cbn [posted set_posted]. rewrite drop_drop. reflexivity.
    + cbn [posted set_posted weak_generation]. apply Forall_drop. exact Hstale.
Qed.

Lemma Kill_run s :
  exists s',
    Kill s = Some (tt, s') /\
    transaction_ (job s') = None /\
    pending_set_cookie (job s') = [] /\
    weak_generation s' = S (weak_generation s) /\
    posted s' = posted s /\
    calls s' = calls s ++ [CallURLRequestJobKill] /\
    trace (job s') = trace (job s) /\
    awaiting_callback_ s' = awaiting_callback_ s /\
    (forall received,
       GetTotalReceivedBytes s = Some (received, s) ->
       GetTotalReceivedBytes s' = Some (received, s')) /\
    (forall sent,
       GetTotalSentBytes s = Some (sent, s) ->
       GetTotalSentBytes s' = Some (sent, s')).
Proof.
  unfold Kill.
  assert (Hinvalidate : InvalidateWeakPtrs s =
            Some (tt, set_job (set_pending_set_cookie [] (job s))
                        (set_weak_generation (S (weak_generation s)) s)))
    by reflexivity.
  rewrite (bindJ_run _ _ _ _ _ Hinvalidate).
  set (s1 := set_job _ _). rewrite bindJ_getsJ.
  change (transaction_ (job s1)) with (transaction_ (job s)).
  destruct (transaction_ (job s)) as [t|] eqn:Et.
  - destruct (DestroyTransaction_run s1 t Et)
      as (s2 & Hrun & Ht2 & _ & _ & _ & _ & Hreceived & Hsent & Htrace & Hpending &
          Hcalls & Hposted & Hweak & Hawaiting).
    rewrite (bindJ_run _ _ _ _ _ Hrun). eexists. split; [reflexivity|].
    cbn [job set_calls transaction_ pending_set_cookie weak_generation posted calls
         trace awaiting_callback_].
    rewrite Ht2, Hpending, Hweak, Hposted, Hcalls, Htrace, Hawaiting.
    repeat (split; [reflexivity|]).
    split.
    + intros received. unfold GetTotalReceivedBytes.
      rewrite !bindJ_getsJ, Et.
      cbn [job set_calls total_received_bytes_from_previous_transactions_].
      rewrite Ht2, Hreceived. intros [= <-]. reflexivity.
    + intros sent. unfold GetTotalSentBytes.
      rewrite !bindJ_getsJ, Et.
      cbn [job set_calls total_sent_bytes_from_previous_transactions_].
      rewrite Ht2, Hsent. intros [= <-]. reflexivity.
  - unfold bindJ at 1, retJ. eexists. split; [reflexivity|].
    cbn [job set_calls transaction_ pending_set_cookie weak_generation posted calls
         trace awaiting_callback_].
    split; [exact Et|]. repeat (split; [reflexivity|]).
    split.
    + intros received. unfold GetTotalReceivedBytes.
      rewrite !bindJ_getsJ, Et. subst s1.
      cbn [job set_calls set_job set_weak_generation transaction_
           set_pending_set_cookie].
      rewrite Et. intros [= <-]. reflexivity.
    + intros sent. unfold GetTotalSentBytes.
      rewrite !bindJ_getsJ, Et. subst s1.
      cbn [job set_calls set_job set_weak_generation transaction_
           set_pending_set_cookie].
      rewrite Et. intros [= <-]. reflexivity.
Qed.

(** X15.  Kill() cancels what is outstanding without telling the
    request anything.  It always succeeds, leaves no transaction, adds
    nothing to the notifications sent so far, and keeps the byte totals.
    Afterwards the completions that were outstanding are dead letters:
    whatever the jar completes, and whichever posted tasks the task
    runner runs, the job and the calls it has made stay as they are. *)
Theorem Kill_cancels_what_is_outstanding (s : HttpJob) :
  tasks_from_the_past s ->
  exists s',
    Kill s = Some (tt, s') /\
    transaction_ (job s') = None /\
    trace (job s') = trace (job s) /\
    calls s' = calls s ++ [CallURLRequestJobKill] /\
    (forall received,
       GetTotalReceivedBytes s = Some (received, s) ->
       GetTotalReceivedBytes s' = Some (received, s')) /\
    (forall sent,
       GetTotalSentBytes s = Some (sent, s) ->
       GetTotalSentBytes s' = Some (sent, s')) /\
    (forall schedule, lift (RunSetCookieCallbacks schedule) s' = Some (tt, s')) /\
    (forall n,
       exists s'',
         RunTasks n s' = Some (tt, s'') /\
         job s'' = job s' /\
         calls s'' = calls s' /\
         posted s'' = drop n (posted s)).
Proof.
  intros Hpast.
  destruct (Kill_run s)
    as (s' & Hrun & Ht & Hpending & Hweak & Hposted & Hcalls & Htrace & _ &
        Hreceived & Hsent).
  exists s'. split; [exact Hrun|]. split; [exact Ht|]. split; [exact Htrace|].
  split; [exact Hcalls|]. split; [exact Hreceived|]. split; [exact Hsent|].
  split.
  - intros schedule.
    rewrite (lift_run _ _ _ _
               (RunSetCookieCallbacks_none_outstanding schedule (job s') Hpending)).
    rewrite set_job_same. reflexivity.
  - intros n. eexists. split.
    + apply RunTasks_stale. rewrite Hposted, Hweak.
      eapply Forall_impl; [exact Hpast|]. cbn beta. intros task Hle. lia.
    + cbn [job calls posted set_posted]. rewrite Hposted. auto.
Qed.

Lemma Kill_cancels_what_is_outstanding_witness :
  posted job_with_posted_task = [(0, RunOnStartCompleted OK)] /\
  exists s' s'',
    Kill job_with_posted_task = Some (tt, s') /\
    RunTasks 1 s' = Some (tt, s'') /\
    trace (job s'') = [] /\
    calls s'' = [CallURLRequestJobKill] /\
    posted s'' = [].
Proof.
  split; [reflexivity|].
  destruct (Kill_cancels_what_is_outstanding job_with_posted_task)
    as (s' & Hrun & _ & Htrace & Hcalls & _ & _ & _ & Htasks).
  - repeat constructor.
  - destruct (Htasks 1) as (s'' & Hrun' & Hjob & Hcalls' & Hposted).
    exists s', s''. split; [exact Hrun|]. split; [exact Hrun'|].
    rewrite Hjob, Htrace, Hcalls', Hcalls, Hposted. auto.
Defined.

(** *** The start of the transaction *)

Lemma finish_start_run rv s :
  (if (rv =? ERR_IO_PENDING)%Z then retJ tt else PostTask (RunOnStartCompleted rv)) s =
    Some (tt, if (rv =? ERR_IO_PENDING)%Z then s
              else set_posted (posted s ++ [(weak_generation s, RunOnStartCompleted rv)]) s).
Proof. destruct (rv =? ERR_IO_PENDING)%Z; reflexivity. Qed.

(** The restart of a transaction that exists. *)
Lemma StartTransactionInternal_restart s t :
  transaction_ (job s) = Some t ->
  StartTransactionInternal s =
    let credentials := auth_credentials_ (job s) in
    let rv := RestartWithAuth_result (transaction_answers s) credentials in
    let s1 := set_job (set_auth_credentials_ empty_credentials (job s))
                (set_calls (calls s ++ [CallRestartWithAuth credentials]) s) in
    Some (tt, if (rv =? ERR_IO_PENDING)%Z then s1
              else set_posted (posted s ++ [(weak_generation s, RunOnStartCompleted rv)]) s1).
Proof.
  intros Ht. unfold StartTransactionInternal. rewrite bindJ_getsJ, Ht.
  cbv zeta.
  rewrite (bindJ_run _ _ s
             (RestartWithAuth_result (transaction_answers s) (auth_credentials_ (job s)))
             (set_job (set_auth_credentials_ empty_credentials (job s))
                (set_calls (calls s ++ [CallRestartWithAuth (auth_credentials_ (job s))]) s)))
    by reflexivity.
  rewrite finish_start_run. reflexivity.
Qed.





Lemma RunNextTask_current s weak task rest :
  posted s = (weak, task) :: rest ->
  weak = weak_generation s ->
  RunNextTask s = RunTask task (set_posted rest s).
Proof.
  intros Hposted ->. unfold RunNextTask. rewrite bindJ_getsJ, Hposted, bindJ_modifyJ.
  unfold InvokeWeak. rewrite bindJ_getsJ. members. rewrite Nat.eqb_refl. reflexivity.
Qed.

(** X18.  A delegate that turns the request down before it starts
    keeps the transaction from being made, and the request hears of it
    later: StartTransaction() only calls the delegate and posts a task;
    the task, when it runs, reports the delegate's error with
    NotifyStartError, and if Kill() comes first it reports nothing. *)
Theorem delegate_rejection_is_reported_later (s : HttpJob) (delegate : NetworkDelegate) :
  network_delegate s = Some delegate ->
  posted s = [] ->
  let answer :=
    NotifyBeforeStartTransaction delegate (extra_headers (request_info_ (job s))) in
  fst answer <> OK ->
  fst answer <> ERR_IO_PENDING ->
  exists s1 s2 s3 s4,
    StartTransaction s = Some (tt, s1) /\
    calls s1 = calls s ++ [CallNotifyBeforeStartTransaction (weak_generation s)] /\
    trace (job s1) = trace (job s) /\
    transaction_ (job s1) = transaction_ (job s) /\
    RunNextTask s1 = Some (tt, s2) /\
    trace (job s2) = trace (job s) ++ [NotifyStartError (fst answer)] /\
    calls s2 = calls s1 /\
    Kill s1 = Some (tt, s3) /\
    RunNextTask s3 = Some (tt, s4) /\
    trace (job s4) = trace (job s).
Proof.
  intros Hdelegate Hposted answer Hnot_ok Hnot_pending.
  apply Z.eqb_neq in Hnot_ok, Hnot_pending.
  assert (Hrun : StartTransaction s =
            Some (tt, set_posted [(weak_generation s, RunNotifyStartError (fst answer))]
                        (set_job (with_extra_headers (snd answer) (job s))
                           (set_calls
                              (calls s ++
                               [CallNotifyBeforeStartTransaction (weak_generation s)])
                              s)))).
  { unfold StartTransaction. rewrite bindJ_getsJ, Hdelegate, !bindJ_getsJ, bindJ_call.
    cbv zeta. fold answer. unfold MaybeStartTransactionInternal.
    rewrite Hnot_pending, Hnot_ok. unfold lift, modify_extra_headers, modify.
    unfold_monadJ. members. rewrite Hposted. reflexivity. }
  set (s1 := set_posted _ _) in Hrun.
  destruct (Kill_run s1)
    as (s3 & Hkill & _ & _ & Hweak3 & Hposted3 & _ & Htrace3 & _).
  assert (Hstale : RunNextTask s3 = Some (tt, set_posted (drop 1 (posted s3)) s3)).
  { apply RunNextTask_stale. rewrite Hposted3, Hweak3. subst s1. members.
    repeat constructor. }
  eexists s1, _, s3, _. split; [exact Hrun|].
  split; [reflexivity|]. split; [reflexivity|]. split; [reflexivity|].
  split.
  { rewrite (RunNextTask_current s1 (weak_generation s)
               (RunNotifyStartError (fst answer)) []) by reflexivity.
    reflexivity. }
  split; [reflexivity|]. split; [reflexivity|].
  split; [exact Hkill|]. split; [exact Hstale|].
  members. rewrite Htrace3. reflexivity.
Qed.

Lemma delegate_rejection_is_reported_later_witness :
  exists s1 s2,
    StartTransaction (http_job_in job_started (Some blocking_delegate) None)
      = Some (tt, s1) /\
    calls s1 = [CallNotifyBeforeStartTransaction 0] /\
    trace (job s1) = [] /\
    RunNextTask s1 = Some (tt, s2) /\
    trace (job s2) = [NotifyStartError (-20)%Z].
Proof.
  destruct (delegate_rejection_is_reported_later
              (http_job_in job_started (Some blocking_delegate) None)
              blocking_delegate eq_refl eq_refl)
    as (s1 & s2 & _ & _ & Hrun & Hcalls & Htrace & _ & Hnext & Htrace2 & _).
  - discriminate.
  - discriminate.
  - exists s1, s2. split; [exact Hrun|]. split; [exact Hcalls|].
    split; [exact Htrace|]. split; [exact Hnext|exact Htrace2].
Defined.

Lemma to_the_end_run {A} (m : M A) s a j' :
  m (job s) = Some (a, j') ->
  to_the_end m s =
    bindJ (if ends_in_StartTransaction (trace (job s)) (trace j')
           then StartTransaction else retJ tt)
      (fun _ => retJ a) (set_job j' s).
Proof.
  intros Hrun. unfold to_the_end.
  rewrite bindJ_getsJ, (bindJ_run _ _ _ _ _ (lift_run _ _ _ _ Hrun)), bindJ_getsJ.
  reflexivity.
Qed.

Lemma ends_in_StartTransaction_snoc tr e :
  ends_in_StartTransaction tr (tr ++ [e]) =
    match e with CallStartTransaction => true | _ => false end.
Proof.
  unfold ends_in_StartTransaction. rewrite length_app, last_snoc.
  assert (Hlt : (length tr <? length tr + length [e])%nat = true)
    by (apply Nat.ltb_lt; cbn; lia).
  rewrite Hlt. reflexivity.
Qed.

(** X19.  The credentials given to SetAuth() reach the transaction and
    do not stay in the job.  For a request that does not consult the jar
    and has no delegate, SetAuth() run to its end restarts the existing
    transaction with exactly these credentials, and afterwards the job
    holds empty credentials, no response info and no Cookie header; the
    outcome of the restart, unless pending, waits in a posted task. *)
Theorem SetAuth_restarts_the_transaction (s : HttpJob) (t : HttpTransaction)
    (credentials : AuthCredentials) :
  transaction_ (job s) = Some t ->
  network_delegate s = None ->
  cookie_store (context (request_ (job s))) = None \/
  allow_credentials (request_ (job s)) = false ->
  let rv := RestartWithAuth_result (transaction_answers s) credentials in
  exists s',
    to_the_end (SetAuth credentials) s = Some (tt, s') /\
    calls s' = calls s ++ [CallRestartWithAuth credentials] /\
    auth_credentials_ (job s') = empty_credentials /\
    trace (job s') = trace (job s) ++ [CallStartTransaction] /\
    response_info_ (job s') = None /\
    GetHeader kCookie (extra_headers (request_info_ (job s'))) = None /\
    posted s' =
      (if (rv =? ERR_IO_PENDING)%Z then posted s
       else posted s ++ [(weak_generation s, RunOnStartCompleted rv)]).
Proof.
  intros Ht Hdelegate Hjar rv.
  set (j1 := cleared_for_restart credentials
               (if bool_decide (proxy_auth_state_ (job s) = AUTH_STATE_NEED_AUTH)
                then set_proxy_auth_state_ AUTH_STATE_HAVE_AUTH (job s)
                else set_server_auth_state_ AUTH_STATE_HAVE_AUTH (job s))).
  assert (Hrequest : context (request_ j1) = context (request_ (job s)) /\
                     allow_credentials (request_ j1) = allow_credentials (request_ (job s)) /\
                     trace j1 = trace (job s) /\
                     transaction_ j1 = transaction_ (job s) /\
                     auth_credentials_ j1 = credentials /\
                     response_info_ j1 = None /\
                     GetHeader kCookie (extra_headers (request_info_ j1)) = None).
  { subst j1. case_bool_decide;
      (repeat (split; [reflexivity|])); apply GetHeader_RemoveHeader_same. }
  destruct Hrequest as (Hcontext & Hallow & Htrace & Htransaction & Hcredentials &
                        Hinfo & Hcookie).
  assert (Hrun : SetAuth credentials (job s) =
                 Some (tt, set_trace (trace j1 ++ [CallStartTransaction]) j1)).
  { rewrite SetAuth_run. fold j1.
    destruct (AddCookieHeaderAndStart_event j1) as (e & Hrun & He).
    rewrite Hrun.
    destruct He as [(store & options & Hstore & Hcred & _)|[_ ->]]; [|reflexivity].
    rewrite Hcontext in Hstore. rewrite Hallow in Hcred.
    destruct Hjar as [Hjar|Hjar]; congruence. }
  rewrite (to_the_end_run _ _ _ _ Hrun). cbn [trace set_trace].
  rewrite Htrace, ends_in_StartTransaction_snoc. cbv iota.
  set (s2 := set_job _ s).
  assert (Hstart : StartTransaction s2 = StartTransactionInternal s2).
  { unfold StartTransaction. rewrite bindJ_getsJ.
    change (network_delegate s2) with (network_delegate s). rewrite Hdelegate.
    reflexivity. }
  assert (Ht2 : transaction_ (job s2) = Some t).
  { subst s2. members. rewrite Htransaction. exact Ht. }
  rewrite (StartTransactionInternal_restart s2 t Ht2) in Hstart.
  rewrite (bindJ_run _ _ _ _ _ Hstart).
  cbv zeta. unfold retJ.
  assert (Hc2 : auth_credentials_ (job s2) = credentials)
    by (subst s2; members; exact Hcredentials).
  rewrite Hc2. change (transaction_answers s2) with (transaction_answers s).
  fold rv.
  eexists. split; [reflexivity|].
  destruct (rv =? ERR_IO_PENDING)%Z; subst s2; members;
    rewrite ?Htrace, ?Hinfo, ?Hcookie; repeat split; reflexivity.
Qed.

Lemma SetAuth_restarts_the_transaction_witness :
  exists s',
    to_the_end (SetAuth example_credentials) (http_job job_407_anonymous) = Some (tt, s') /\
    calls s' = [CallRestartWithAuth example_credentials] /\
    auth_credentials_ (job s') = empty_credentials /\
    posted s' = [].
Proof.
  destruct (SetAuth_restarts_the_transaction (http_job job_407_anonymous)
              {| GetResponseInfo := Some (example_info (example_headers 407 []));
                 IsReadyToRestartForAuth := false |}
              example_credentials eq_refl eq_refl (or_intror eq_refl))
    as (s' & Hrun & Hcalls & Hcredentials & _ & _ & _ & Hposted).
  exists s'. split; [exact Hrun|]. split; [exact Hcalls|].
  split; [exact Hcredentials|exact Hposted].
Defined.

(** *** The completion of the start *)

Lemma OnStartCompleted_done s result :
  done_ (job s) = true -> OnStartCompleted result s = Some (tt, s).
Proof. intros Hdone. unfold OnStartCompleted. rewrite bindJ_getsJ, Hdone. reflexivity. Qed.


Lemma Kill_done s t :
  transaction_ (job s) = Some t ->
  exists s', Kill s = Some (tt, s') /\ done_ (job s') = true.
Proof.
  intros Ht. unfold Kill.
  assert (Hinvalidate : InvalidateWeakPtrs s =
            Some (tt, set_job (set_pending_set_cookie [] (job s))
                        (set_weak_generation (S (weak_generation s)) s)))
    by reflexivity.
  rewrite (bindJ_run _ _ _ _ _ Hinvalidate), bindJ_getsJ. members. rewrite Ht.
  destruct (DestroyTransaction_run
              (set_job (set_pending_set_cookie [] (job s))
                 (set_weak_generation (S (weak_generation s)) s)) t Ht)
    as (s2 & Hdestroy & _ & _ & _ & _ & Hdone & _).
  rewrite (bindJ_run _ _ _ _ _ Hdestroy). eexists. split; [reflexivity|].
  members. exact Hdone.
Qed.

(** X20.  A completion that arrives after the job is done is ignored:
    OnStartCompleted() then changes nothing and notifies nobody, whatever
    its result.  This is the state in which DestroyTransaction() leaves
    the job, and so does Kill() when there was a transaction. *)
Theorem late_completion_is_ignored (s : HttpJob) (result : Z) :
  (done_ (job s) = true -> OnStartCompleted result s = Some (tt, s)) /\
  (forall t,
     transaction_ (job s) = Some t ->
     exists s',
       DestroyTransaction s = Some (tt, s') /\
       OnStartCompleted result s' = Some (tt, s')) /\
  (exists s',
     Kill s = Some (tt, s') /\
     (is_Some (transaction_ (job s)) -> OnStartCompleted result s' = Some (tt, s'))).
Proof.
  split; [apply OnStartCompleted_done|]. split.
  - intros t Ht.
    destruct (DestroyTransaction_run s t Ht) as (s' & Hrun & _ & _ & _ & _ & Hdone & _).
    exists s'. split; [exact Hrun|]. apply OnStartCompleted_done, Hdone.
  - destruct (Kill_run s) as (s' & Hrun & _).
    exists s'. split; [exact Hrun|]. intros [t Ht].
    apply OnStartCompleted_done.
    destruct (Kill_done s t Ht) as (s2 & Hrun2 & Hdone).
    rewrite Hrun in Hrun2. injection Hrun2 as <-. exact Hdone.
Qed.

Lemma late_completion_is_ignored_witness :
  exists s',
    DestroyTransaction (http_job job_set_cookie) = Some (tt, s') /\
    OnStartCompleted OK s' = Some (tt, s') /\
    trace (job s') = [].
Proof.
  destruct (late_completion_is_ignored (http_job job_set_cookie) OK) as (_ & Hdestroyed & _).
  destruct (Hdestroyed {| GetResponseInfo := Some (example_info set_cookie_headers);
                          IsReadyToRestartForAuth := false |} eq_refl)
    as (s' & Hrun & Hignored).
  exists s'. split; [exact Hrun|]. split; [exact Hignored|].
  destruct (DestroyTransaction_run (http_job job_set_cookie) _ eq_refl)
    as (s2 & Hrun2 & _ & _ & _ & _ & _ & _ & _ & Htrace & _).
  rewrite Hrun in Hrun2. injection Hrun2 as <-. exact Htrace.
Defined.

(** X21.  A certificate error does not fail the request by itself: it
    is handed to the delegate with NotifySSLCertificateError and nothing
    else is notified.  The error is marked fatal exactly when the
    transport security state says so for the host, except that
    ERR_CERT_KNOWN_INTERCEPTION_BLOCKED is never marked fatal. *)
Theorem certificate_error_goes_to_the_delegate (s : HttpJob) (result : Z)
    (state : TransportSecurityState) (t : HttpTransaction) (info : HttpResponseInfo) :
  done_ (job s) = false ->
  result <> OK ->
  IsCertificateError s result = true ->
  transport_security_state (context (request_ (job s))) = Some state ->
  transaction_ (job s) = Some t ->
  GetResponseInfo t = Some info ->
  exists s' fatal,
    OnStartCompleted result s = Some (tt, s') /\
    calls s' = calls s ++ [CallNotifySSLCertificateError result fatal] /\
    (result = ERR_CERT_KNOWN_INTERCEPTION_BLOCKED -> fatal = false) /\
    (result <> ERR_CERT_KNOWN_INTERCEPTION_BLOCKED ->
     fatal = ShouldSSLErrorsBeFatal state (host (info_url (request_info_ (job s))))) /\
    trace (job s') = trace (job s) /\
    response_info_ (job s') = response_info_ (job s) /\
    receive_headers_end_ (job s') = Some (clock s) /\
    done_ (job s') = false.
Proof.
  intros Hdone Hresult Hcert Hstate Ht Hinfo.
  apply Z.eqb_neq in Hresult.
  unfold OnStartCompleted. rewrite bindJ_getsJ, Hdone, bindJ_getsJ.
  unfold lift, modify. unfold_monadJ. members.
  rewrite Hresult. members. rewrite Hcert. members. rewrite Hstate. members.
  rewrite Ht. members. rewrite Hinfo. members.
  eexists _, _. split; [reflexivity|]. members.
  split; [reflexivity|].
  split. { intros ->. rewrite andb_false_r. reflexivity. }
  split. { intros Hne. apply Z.eqb_neq in Hne. rewrite Hne, andb_true_r. reflexivity. }
  repeat split; try reflexivity. exact Hdone.
Qed.

(** X22.  Any other failure of the start fails the request with its
    own error code, by one NotifyStartError, and the transaction's
    response info, if there is a transaction, is kept for the request to
    look at. *)
Theorem start_error_keeps_the_response_info (s : HttpJob) (result : Z) :
  done_ (job s) = false ->
  result <> OK ->
  IsCertificateError s result = false ->
  result <> ERR_SSL_CLIENT_AUTH_CERT_NEEDED ->
  exists s',
    OnStartCompleted result s = Some (tt, s') /\
    trace (job s') = trace (job s) ++ [NotifyStartError result] /\
    calls s' = calls s /\
    posted s' = posted s /\
    response_info_ (job s') =
      match transaction_ (job s) with
      | Some t => GetResponseInfo t
      | None => response_info_ (job s)
      end /\
    receive_headers_end_ (job s') = Some (clock s).
Proof.
  intros Hdone Hresult Hcert Hneeded.
  apply Z.eqb_neq in Hresult, Hneeded.
  unfold OnStartCompleted. rewrite bindJ_getsJ, Hdone, bindJ_getsJ.
  unfold lift, modify, emit, modify. unfold_monadJ. members.
  rewrite Hresult. members. rewrite Hcert. members. rewrite Hneeded. members.
  destruct (transaction_ (job s)) as [t|];
    (eexists; split; [reflexivity|]); members; repeat split; reflexivity.
Qed.

Lemma certificate_error_goes_to_the_delegate_witness :
  calls_after (OnStartCompleted ERR_CERT_KNOWN_INTERCEPTION_BLOCKED (http_job job_strict)) =
    Some [CallNotifySSLCertificateError ERR_CERT_KNOWN_INTERCEPTION_BLOCKED false] /\
  calls_after (OnStartCompleted (-200)%Z (http_job job_strict)) =
    Some [CallNotifySSLCertificateError (-200)%Z true].
Proof.
  split.
  - destruct (certificate_error_goes_to_the_delegate (http_job job_strict)
                ERR_CERT_KNOWN_INTERCEPTION_BLOCKED
                {| ShouldSSLErrorsBeFatal := fun _ => true |}
                {| GetResponseInfo := Some (example_info set_cookie_headers);
                   IsReadyToRestartForAuth := false |}
                (example_info set_cookie_headers)
                eq_refl ltac:(discriminate) eq_refl eq_refl eq_refl eq_refl)
      as (s' & fatal & Hrun & Hcalls & Hblocked & _).
    rewrite Hrun. cbn [calls_after]. rewrite Hcalls, (Hblocked eq_refl). reflexivity.
  - destruct (certificate_error_goes_to_the_delegate (http_job job_strict) (-200)%Z
                {| ShouldSSLErrorsBeFatal := fun _ => true |}
                {| GetResponseInfo := Some (example_info set_cookie_headers);
                   IsReadyToRestartForAuth := false |}
                (example_info set_cookie_headers)
                eq_refl ltac:(discriminate) eq_refl eq_refl eq_refl eq_refl)
      as (s' & fatal & Hrun & Hcalls & _ & Hother & _).
    rewrite Hrun. cbn [calls_after]. rewrite Hcalls, (Hother ltac:(discriminate)).
    reflexivity.
Defined.

Lemma start_error_keeps_the_response_info_witness :
  exists s',
    OnStartCompleted (-105)%Z (http_job job_set_cookie) = Some (tt, s') /\
    trace (job s') = [NotifyStartError (-105)%Z] /\
    response_info_ (job s') = Some (example_info set_cookie_headers).
Proof.
  destruct (start_error_keeps_the_response_info (http_job job_set_cookie) (-105)%Z
              eq_refl ltac:(discriminate) eq_refl ltac:(discriminate))
    as (s' & Hrun & Htrace & _ & _ & Hinfo & _).
  exists s'. split; [exact Hrun|]. split; [exact Htrace|exact Hinfo].
Defined.

Lemma GetResponseHeaders_frame j j' h :
  override_response_headers_ j' = override_response_headers_ j ->
  transaction_ j' = transaction_ j ->
  GetResponseHeaders j = Some (h, j) ->
  GetResponseHeaders j' = Some (h, j').
Proof.
  unfold GetResponseHeaders. unfold_monad. intros Hoverride Htransaction.
  rewrite Hoverride.
  destruct (override_response_headers_ j); [intros [= ->]; reflexivity|].
  rewrite Htransaction.
  destruct (transaction_ j) as [t|]; [|discriminate].
  destruct (GetResponseInfo t); [|discriminate].
  intros [= ->]. reflexivity.
Qed.

Lemma SaveCookiesAndNotifyHeadersComplete_error result j :
  num_cookie_lines_left_ j = 0%Z ->
  result <> OK ->
  SaveCookiesAndNotifyHeadersComplete result j =
    Some (tt, set_trace (trace j ++ [NotifyStartError result]) j).
Proof.
  intros Hnum Hresult. apply Z.eqb_neq in Hresult.
  unfold SaveCookiesAndNotifyHeadersComplete. rewrite bind_gets, Hnum.
  cbn [Z.eqb negb]. rewrite Hresult. reflexivity.
Qed.

(** X23.  A delegate may take its time over the response headers.
    When it answers ERR_IO_PENDING, OnStartCompleted(OK) notifies nothing
    and marks the job as awaiting the callback; in that state the
    destructor's CHECK fails, unless NotifyURLRequestDestroyed() has been
    called first.  When the delegate then calls back with an error, the
    mark is taken off and the request fails with that error, without any
    cookie being offered to the jar. *)
Theorem delegate_may_defer_the_headers (s : HttpJob) (delegate : NetworkDelegate)
    (h : HttpResponseHeaders) :
  done_ (job s) = false ->
  network_delegate s = Some delegate ->
  GetResponseHeaders (job s) = Some (h, job s) ->
  num_cookie_lines_left_ (job s) = 0%Z ->
  fst (fst (NotifyHeadersReceived delegate h (override_response_headers_ (job s))))
    = ERR_IO_PENDING ->
  exists s1,
    OnStartCompleted OK s = Some (tt, s1) /\
    awaiting_callback_ s1 = true /\
    trace (job s1) = trace (job s) /\
    calls s1 = calls s ++ [CallNotifyHeadersReceived (weak_generation s)] /\
    Destroy s1 = None /\
    (exists s2 s3,
       NotifyURLRequestDestroyed s1 = Some (tt, s2) /\ Destroy s2 = Some (tt, s3)) /\
    forall result,
      result <> OK ->
      exists s2,
        OnHeadersReceivedCallback result s1 = Some (tt, s2) /\
        awaiting_callback_ s2 = false /\
        trace (job s2) = trace (job s) ++ [NotifyStartError result] /\
        calls s2 = calls s1 /\
        pending_set_cookie (job s2) = pending_set_cookie (job s).
Proof.
  intros Hdone Hdelegate Hheaders Hnum Hpending.
  set (answer := NotifyHeadersReceived delegate h (override_response_headers_ (job s)))
    in *.
  set (j1 := set_receive_headers_end_ (Some (clock s)) (job s)).
  assert (Hheaders1 : GetResponseHeaders j1 = Some (h, j1))
    by (apply (GetResponseHeaders_frame (job s)); [reflexivity|reflexivity|exact Hheaders]).
  set (s1 := set_awaiting_callback_ true
               (set_preserve_fragment_on_redirect_url_ (snd answer)
                  (set_job (set_override_response_headers_ (snd (fst answer)) j1)
                     (set_calls (calls s ++ [CallNotifyHeadersReceived (weak_generation s)])
                        (set_preserve_fragment_on_redirect_url_ None
                           (set_job j1 s)))))).
  assert (Hrun : OnStartCompleted OK s = Some (tt, s1)).
  { unfold OnStartCompleted. rewrite bindJ_getsJ, Hdone, bindJ_getsJ, bindJ_lift_modify.
    cbn [Z.eqb OK]. fold j1.
    rewrite (bindJ_run _ _ _ _ _ (lift_run _ (set_job j1 s) _ _ Hheaders1)).
    members. rewrite bindJ_getsJ. members. rewrite Hdelegate.
    rewrite bindJ_modifyJ, bindJ_getsJ, bindJ_call, bindJ_getsJ. members.
    change (override_response_headers_ j1) with (override_response_headers_ (job s)).
    cbv zeta. fold answer.
    rewrite bindJ_lift_modify, bindJ_modifyJ. members.
    rewrite Hpending. reflexivity. }
  exists s1. split; [exact Hrun|]. split; [reflexivity|]. split; [reflexivity|].
  split; [reflexivity|]. split; [reflexivity|].
  split.
  { eexists _, _. split; [reflexivity|]. unfold Destroy. rewrite bindJ_getsJ.
    unfold NotifyURLRequestDestroyed. members.
    apply lift_run, DoneWithRequest_run. }
  intros result Hresult.
  unfold OnHeadersReceivedCallback. rewrite bindJ_modifyJ.
  set (s1' := set_awaiting_callback_ false s1).
  assert (Hsave : SaveCookiesAndNotifyHeadersComplete result (job s1') =
                  Some (tt, set_trace (trace (job s1') ++ [NotifyStartError result])
                              (job s1')))
    by (apply SaveCookiesAndNotifyHeadersComplete_error; [exact Hnum|exact Hresult]).
  rewrite (to_the_end_run _ _ _ _ Hsave). cbn [trace set_trace].
  rewrite ends_in_StartTransaction_snoc. cbv iota.
  eexists. split; [reflexivity|]. subst s1' s1. members. repeat split; reflexivity.
Qed.

Lemma delegate_may_defer_the_headers_witness :
  exists s1 s2,
    OnStartCompleted OK (http_job_in job_set_cookie (Some deferring_delegate) None)
      = Some (tt, s1) /\
    awaiting_callback_ s1 = true /\
    trace (job s1) = [] /\
    Destroy s1 = None /\
    OnHeadersReceivedCallback (-20)%Z s1 = Some (tt, s2) /\
    trace (job s2) = [NotifyStartError (-20)%Z].
Proof.
  destruct (delegate_may_defer_the_headers
              (http_job_in job_set_cookie (Some deferring_delegate) None)
              deferring_delegate set_cookie_headers
              eq_refl eq_refl eq_refl eq_refl eq_refl)
    as (s1 & Hrun & Hawaiting & Htrace & _ & Hdestroy & _ & Hcallback).
  destruct (Hcallback (-20)%Z ltac:(discriminate)) as (s2 & Hrun2 & _ & Htrace2 & _).
  exists s1, s2. split; [exact Hrun|]. split; [exact Hawaiting|].
  split; [exact Htrace|]. split; [exact Hdestroy|]. split; [exact Hrun2|exact Htrace2].
Defined.

Lemma ends_in_StartTransaction_app tr middle e :
  ends_in_StartTransaction tr (tr ++ middle ++ [e]) =
    match e with CallStartTransaction => true | _ => false end.
Proof.
  unfold ends_in_StartTransaction.
  rewrite (app_assoc tr middle [e]), last_snoc, !length_app.
  assert (Hlt : (length tr <? length tr + length middle + length [e])%nat = true)
    by (apply Nat.ltb_lt; cbn; lia).
  rewrite Hlt. reflexivity.
Qed.

Lemma SaveCookiesAndNotifyHeadersComplete_without_jar j :
  num_cookie_lines_left_ j = 0%Z ->
  cookie_store (context (request_ j)) = None ->
  SaveCookiesAndNotifyHeadersComplete OK j = NotifyHeadersComplete j.
Proof.
  intros Hnum Hjar. unfold SaveCookiesAndNotifyHeadersComplete.
  rewrite bind_gets, Hnum. cbn [Z.eqb negb OK]. rewrite !bind_gets, Hjar.
  reflexivity.
Qed.

(** X24.  Headers that arrive for a request without jar and without
    delegate go straight to the request, or straight back to the wire.
    OnStartCompleted(OK) stamps the time of the headers and, in the
    normal case, hands the transaction's response info to the request
    with one base notification as its last act, calling nobody else
    than the transport security state.  When the transaction is ready
    to restart for authentication, the request is told nothing: the
    transaction is restarted with empty credentials, and the response
    info and the time of the headers are cleared. *)
Theorem headers_arrive_without_jar (s : HttpJob) (t : HttpTransaction)
    (info : HttpResponseInfo) :
  done_ (job s) = false ->
  network_delegate s = None ->
  cookie_store (context (request_ (job s))) = None ->
  num_cookie_lines_left_ (job s) = 0%Z ->
  transaction_ (job s) = Some t ->
  GetResponseInfo t = Some info ->
  exists s' middle,
    OnStartCompleted OK s = Some (tt, s') /\
    Forall is_security_state_call middle /\
    (IsReadyToRestartForAuth t = false ->
     trace (job s') =
       trace (job s) ++ [LogNotifyHeadersComplete false] ++ middle ++
       [URLRequestJob_NotifyHeadersComplete] /\
     calls s' = calls s /\
     posted s' = posted s /\
     response_info_ (job s') = Some info /\
     receive_headers_end_ (job s') = Some (clock s)) /\
    (IsReadyToRestartForAuth t = true ->
     trace (job s') =
       trace (job s) ++ [LogNotifyHeadersComplete true] ++ middle ++
       [CallStartTransaction] /\
     calls s' = calls s ++ [CallRestartWithAuth empty_credentials] /\
     response_info_ (job s') = None /\
     receive_headers_end_ (job s') = None /\
     auth_credentials_ (job s') = empty_credentials).
Proof.
  intros Hdone Hdelegate Hjar Hnum Ht Hinfo.
  set (j1 := set_receive_headers_end_ (Some (clock s)) (job s)).
  destruct (GetResponseHeaders_run j1 t info Ht Hinfo) as [h Hheaders].
  destruct (NotifyHeadersComplete_outcome j1 t info Ht Hinfo)
    as (j' & middle & last & Hrun & Htrace & Hmiddle & _ & Hnormal & Hrestart & Hend & _).
  rewrite <- (SaveCookiesAndNotifyHeadersComplete_without_jar j1 Hnum Hjar) in Hrun.
  change (trace j1) with (trace (job s)) in Htrace.
  assert (Hstep : OnStartCompleted OK s =
            bindJ (if ends_in_StartTransaction (trace (job s)) (trace j')
                   then StartTransaction else retJ tt)
              (fun _ => retJ tt) (set_job j' s)).
  { unfold OnStartCompleted. rewrite bindJ_getsJ, Hdone, bindJ_getsJ, bindJ_lift_modify.
    cbn [Z.eqb OK]. fold j1.
    rewrite (bindJ_run _ _ _ _ _ (lift_run _ (set_job j1 s) _ _ Hheaders)).
    members. rewrite bindJ_getsJ. members. rewrite Hdelegate.
    rewrite (to_the_end_run _ (set_job j1 s) tt j') by exact Hrun.
    members. reflexivity. }
  assert (Hends : ends_in_StartTransaction (trace (job s)) (trace j') =
                  match last with CallStartTransaction => true | _ => false end).
  { rewrite Htrace.
    apply (ends_in_StartTransaction_app (trace (job s))
             (LogNotifyHeadersComplete (IsReadyToRestartForAuth t) :: middle) last). }
  rewrite Hstep, Hends.
  destruct (IsReadyToRestartForAuth t) eqn:Eready.
  - destruct (Hrestart eq_refl)
      as (_ & Hresponse & Hcredentials & _ & _ & _ & Ht' & Hlast).
    rewrite (Hlast (or_introl Hjar)) in *. cbv iota.
    assert (Hstart : StartTransaction (set_job j' s) =
                     StartTransactionInternal (set_job j' s)).
    { unfold StartTransaction. rewrite bindJ_getsJ. members. rewrite Hdelegate.
      reflexivity. }
    rewrite (StartTransactionInternal_restart (set_job j' s) t Ht') in Hstart.
    rewrite (bindJ_run _ _ _ _ _ Hstart). cbv zeta. unfold retJ. members.
    rewrite Hcredentials.
    eexists _, middle. split; [reflexivity|]. split; [exact Hmiddle|].
    split; [intros [=]|]. intros _.
    destruct (_ =? ERR_IO_PENDING)%Z; members;
      rewrite ?Htrace, ?Hresponse, ?Hend; repeat split; reflexivity.
  - destruct (Hnormal eq_refl) as (Hlast & Hresponse & _).
    rewrite Hlast in *. cbv iota. unfold bindJ, retJ.
    eexists _, middle. split; [reflexivity|]. split; [exact Hmiddle|].
    split; [|intros [=]]. intros _. members.
    rewrite Htrace, Hresponse, Hend. repeat split; reflexivity.
Qed.

Lemma headers_arrive_without_jar_witness :
  exists s',
    OnStartCompleted OK (http_job job_no_jar) = Some (tt, s') /\
    trace (job s') =
      [LogNotifyHeadersComplete true; CallStartTransaction] /\
    calls s' = [CallRestartWithAuth empty_credentials].
Proof.
  destruct (headers_arrive_without_jar (http_job job_no_jar)
              {| GetResponseInfo := Some (example_info (example_headers 407 []));
                 IsReadyToRestartForAuth := true |}
              (example_info (example_headers 407 []))
              eq_refl eq_refl eq_refl eq_refl eq_refl eq_refl)
    as (s' & middle & Hrun & _ & _ & Hrestart).
  destruct (Hrestart eq_refl) as (_ & Hcalls & _).
  exists s'. split; [exact Hrun|]. split; [|exact Hcalls].
  assert (Hev : events_after (OnStartCompleted OK (http_job job_no_jar)) =
                Some [LogNotifyHeadersComplete true; CallStartTransaction])
    by (vm_compute; reflexivity).
  rewrite Hrun in Hev. injection Hev as Hev. exact Hev.
Defined.

(** X25.  The answer to a certificate question restarts the transaction
    and, like every start, reports later.  ContinueDespiteLastError()
    and ContinueWithCertificate() clear the time of the headers, call
    the transaction's restart once and notify nothing; an outcome other
    than ERR_IO_PENDING waits in one posted task.  When the transaction
    is gone, as it is after Kill(), ContinueDespiteLastError() does
    nothing at all. *)
Theorem certificate_answer_restarts_or_is_dropped (s : HttpJob) :
  (transaction_ (job s) = None -> ContinueDespiteLastError s = Some (tt, s)) /\
  (exists s', Kill s = Some (tt, s') /\ ContinueDespiteLastError s' = Some (tt, s')) /\
  (forall t,
     transaction_ (job s) = Some t ->
     (exists s',
        ContinueDespiteLastError s = Some (tt, s') /\
        calls s' = calls s ++ [CallRestartIgnoringLastError] /\
        receive_headers_end_ (job s') = None /\
        trace (job s') = trace (job s) /\
        posted s' =
          (let rv := RestartIgnoringLastError_result (transaction_answers s) in
           if (rv =? ERR_IO_PENDING)%Z then posted s
           else posted s ++ [(weak_generation s, RunOnStartCompleted rv)])) /\
     (exists s',
        ContinueWithCertificate s = Some (tt, s') /\
        calls s' = calls s ++ [CallRestartWithCertificate] /\
        receive_headers_end_ (job s') = None /\
        trace (job s') = trace (job s) /\
        posted s' =
          (let rv := RestartWithCertificate_result (transaction_answers s) in
           if (rv =? ERR_IO_PENDING)%Z then posted s
           else posted s ++ [(weak_generation s, RunOnStartCompleted rv)]))).
Proof.
  assert (Hgone : forall s0, transaction_ (job s0) = None ->
                             ContinueDespiteLastError s0 = Some (tt, s0)).
  { intros s0 Hnone. unfold ContinueDespiteLastError. rewrite bindJ_getsJ, Hnone.
    reflexivity. }
  split; [apply Hgone|]. split.
  { destruct (Kill_run s) as (s' & Hrun & Ht & _).
    exists s'. split; [exact Hrun|]. apply Hgone, Ht. }
  intros t Ht. split.
  - unfold ContinueDespiteLastError.
    rewrite bindJ_getsJ, Ht, bindJ_lift_modify, bindJ_getsJ, bindJ_call. members.
    rewrite finish_start_run. cbv zeta.
    destruct (_ =? ERR_IO_PENDING)%Z;
      (eexists; split; [reflexivity|]); members; repeat split; reflexivity.
  - unfold ContinueWithCertificate.
    rewrite bindJ_getsJ, Ht. cbn [derefJ]. unfold bindJ at 1, retJ.
    rewrite bindJ_lift_modify, bindJ_getsJ, bindJ_call. members.
    rewrite finish_start_run. cbv zeta.
    destruct (_ =? ERR_IO_PENDING)%Z;
      (eexists; split; [reflexivity|]); members; repeat split; reflexivity.
Qed.

Lemma certificate_answer_restarts_or_is_dropped_witness :
  calls_after (ContinueDespiteLastError (http_job job_set_cookie)) =
    Some [CallRestartIgnoringLastError] /\
  posted_after (ContinueDespiteLastError (http_job job_set_cookie)) =
    Some [(0, RunOnStartCompleted OK)] /\
  posted_after (ContinueWithCertificate (http_job job_set_cookie)) = Some [].
Proof.
  destruct (certificate_answer_restarts_or_is_dropped (http_job job_set_cookie))
    as (_ & _ & Hrestart).
  destruct (Hrestart {| GetResponseInfo := Some (example_info set_cookie_headers);
                        IsReadyToRestartForAuth := false |} eq_refl)
    as [(s1 & Hrun1 & Hcalls1 & _ & _ & Hposted1) (s2 & Hrun2 & _ & _ & _ & Hposted2)].
  rewrite Hrun1, Hrun2. cbn [calls_after posted_after].
  rewrite Hcalls1, Hposted1, Hposted2. auto.
Defined.



Lemma fresh_start_asks_the_factory s :
  transaction_ (job s) = None ->
  let created := CreateTransaction (http_transaction_factory s) (priority_ s) in
  fst created <> OK \/ is_Some (snd created) ->
  exists s' rest,
    StartTransactionInternal s = Some (tt, s') /\
    calls s' = calls s ++ CallCreateTransaction (priority_ s) :: rest.
Proof.
  intros Et created Hcreated.
  unfold StartTransactionInternal. unfold_monadJ. rewrite Et.
  fold created. destruct created as [rv0 made]. cbn [fst snd] in *.
  unfold lift, modify.
  destruct made as [[t answers]|]; members.
  - repeat first
      [ progress members
      | match goal with
        | |- context [if ?b then _ else _] => destruct b eqn:?
        | |- context [match throttling_entry_ s with _ => _ end] =>
            destruct (throttling_entry_ s) eqn:?
        end ].
    all: (eexists _, _; split; [reflexivity|]); members;
      rewrite <- ?app_assoc; reflexivity.
  - assert (Hrv0 : (rv0 =? OK)%Z = false).
    { apply Z.eqb_neq. destruct Hcreated as [H|[? [=]]]. exact H. }
    rewrite Hrv0. cbn [andb]. members. rewrite Hrv0. members.
    destruct (rv0 =? ERR_IO_PENDING)%Z;
      (eexists _, _; split; [reflexivity|]); members;
      rewrite <- ?app_assoc; reflexivity.
Qed.

(** X27.  The priority set on the job is the priority of its
    transaction: SetPriority() passes it to the transaction that exists,
    and a transaction made later is asked of the factory with the
    priority set last. *)
Theorem priority_reaches_the_transaction (s : HttpJob) (priority : Z) :
  (forall t,
     transaction_ (job s) = Some t ->
     exists s1,
       SetPriority priority s = Some (tt, s1) /\
       priority_ s1 = priority /\
       calls s1 = calls s ++ [CallSetPriority priority]) /\
  (transaction_ (job s) = None ->
   let created := CreateTransaction (http_transaction_factory s) priority in
   fst created <> OK \/ is_Some (snd created) ->
   exists s1 s2 rest,
     SetPriority priority s = Some (tt, s1) /\
     calls s1 = calls s /\
     StartTransactionInternal s1 = Some (tt, s2) /\
     calls s2 = calls s ++ CallCreateTransaction priority :: rest).
Proof.
  split.
  - intros t Ht. unfold SetPriority. rewrite bindJ_modifyJ, bindJ_getsJ. members.
    rewrite Ht. eexists. split; [reflexivity|]. split; reflexivity.
  - intros Hnone created Hcreated.
    assert (Hset : SetPriority priority s = Some (tt, set_priority_ priority s)).
    { unfold SetPriority. rewrite bindJ_modifyJ, bindJ_getsJ. members.
      rewrite Hnone. reflexivity. }
    destruct (fresh_start_asks_the_factory (set_priority_ priority s) Hnone Hcreated)
      as (s2 & rest & Hrun & Hcalls).
    exists (set_priority_ priority s), s2, rest.
    split; [exact Hset|]. split; [reflexivity|]. split; [exact Hrun|exact Hcalls].
Qed.

Lemma priority_reaches_the_transaction_witness :
  exists s1 s2,
    SetPriority 5 (http_job job_started) = Some (tt, s1) /\
    StartTransactionInternal s1 = Some (tt, s2) /\
    calls s2 = [CallCreateTransaction 5; CallTransactionStart (request_info_ job_started)].
Proof.
  destruct (priority_reaches_the_transaction (http_job job_started) 5) as [_ Hfresh].
  destruct (Hfresh eq_refl ltac:(right; eexists; reflexivity))
    as (s1 & s2 & rest & Hset & _ & Hrun & _).
  exists s1, s2. split; [exact Hset|]. split; [exact Hrun|].
  assert (Hs1 : s1 = set_priority_ 5 (http_job job_started)).
  { assert (H : SetPriority 5 (http_job job_started) =
                Some (tt, set_priority_ 5 (http_job job_started))) by reflexivity.
    rewrite Hset in H. injection H as H. exact H. }
  subst s1.
  assert (Hcalls : calls_after
                     (StartTransactionInternal (set_priority_ 5 (http_job job_started))) =
                   Some [CallCreateTransaction 5;
                         CallTransactionStart (request_info_ job_started)])
    by (vm_compute; reflexivity).
  rewrite Hrun in Hcalls. injection Hcalls as Hcalls. exact Hcalls.
Defined.

End TransactionProperties.
